(** * Verification of scrape.py (the ICO enforcement PDF scraper)

    A shallow embedding of [src/scrape.py] and theorems about it.

    Conventions of the embedding.
    - A Python [str] and a Python [bytes] are both a [string]: a sequence of
      8-bit characters.  For text a character is a code point below 256.
      In that range [\d] is [0-9], [\s] and [str.strip] agree on the set
      {9..13, 28..31, 32, 133, 160}, and case folding only relates the
      ASCII letters.
    - [None] is [None] of an [option]; a method that falls off its end
      returns [None].
    - A method that talks to the outside world is a function in the monad
      [M]: it threads a [State] (the fields of [self], the file store, the
      trace of observable events) and may raise an [Exn]; the state
      reached when an exception is raised is kept.
    - The outside world (the cached HTTP session, lxml's parser, the clock,
      whether a file can be opened) is an [Env] of oracles; each oracle
      sees the trace so far, so that it may answer the same question
      differently at different times. *)

From Stdlib Require Import ZArith String Ascii List Bool Lia.
From Stdlib Require Import Sorting.Permutation Sorting.Sorted.
From stdpp Require Import base gmap strings list.

Import ListNotations.
Local Open Scope Z_scope.

(** ** Characters and strings, as Python treats them *)

Module Py.

Definition ord (c : ascii) : Z := Z.of_N (N_of_ascii c).

Definition chr (n : Z) : ascii := ascii_of_N (Z.to_N n).

(** [\d] of [re], [str.isdigit] on one character. *)
Definition is_digit (c : ascii) : bool :=
  (48 <=? ord c) && (ord c <=? 57).

(** [\s] of [re], [str.isspace] on one character. *)
Definition is_space (c : ascii) : bool :=
  let n := ord c in
  ((9 <=? n) && (n <=? 13)) || ((28 <=? n) && (n <=? 32))
  || (n =? 133) || (n =? 160).

Definition is_upper (c : ascii) : bool :=
  (65 <=? ord c) && (ord c <=? 90).

Definition lower_char (c : ascii) : ascii :=
  if is_upper c then chr (ord c + 32) else c.

(** [str.lower]. *)
Fixpoint lower (s : string) : string :=
  match s with
  | EmptyString => EmptyString
  | String c s' => String (lower_char c) (lower s')
  end.

Definition digit_val (c : ascii) : Z := ord c - 48.

Definition newline : ascii := chr 10.
Definition quote : ascii := chr 34.
Definition backslash : ascii := chr 92.
Definition slash : ascii := chr 47.

Definition str1 (c : ascii) : string := String c EmptyString.

(** [s.startswith(p)]: the rest of [s] after [p], when [p] is a prefix. *)
Fixpoint strip_prefix (p s : string) : option string :=
  match p with
  | EmptyString => Some s
  | String a p' =>
      match s with
      | EmptyString => None
      | String b s' => if Ascii.eqb a b then strip_prefix p' s' else None
      end
  end.

Definition startswith (s p : string) : bool :=
  match strip_prefix p s with Some _ => true | None => false end.

Fixpoint endswith_char (s : string) (c : ascii) : bool :=
  match s with
  | EmptyString => false
  | String a EmptyString => Ascii.eqb a c
  | String _ s' => endswith_char s' c
  end.

(** [s.lstrip()]. *)
Fixpoint lstrip (s : string) : string :=
  match s with
  | EmptyString => EmptyString
  | String c s' => if is_space c then lstrip s' else s
  end.

(** [s.rstrip()]: a character is dropped when it is a space and everything
    after it has been dropped. *)
Fixpoint rstrip (s : string) : string :=
  match s with
  | EmptyString => EmptyString
  | String c s' =>
      match rstrip s' with
      | EmptyString => if is_space c then EmptyString else str1 c
      | r => String c r
      end
  end.

(** [s.strip()]. *)
Definition strip (s : string) : string := rstrip (lstrip s).

(** [str(n)] for [0 <= n < 10]. *)
Definition digit_char (n : Z) : ascii := chr (48 + n).

(** The [k] lowest decimal digits of [n], most significant first:
    ['%0kd' % n] when [0 <= n < 10^k]. *)
Fixpoint zero_pad (k : nat) (n : Z) : string :=
  match k with
  | O => EmptyString
  | S k' => zero_pad k' (n / 10) +:+ str1 (digit_char (n mod 10))
  end.

(** The decimal value of a string of digits, given the value [acc] of the
    digits already read. *)
Fixpoint digits_val (acc : Z) (s : string) : Z :=
  match s with
  | EmptyString => acc
  | String c s' => digits_val (10 * acc + digit_val c) s'
  end.

Fixpoint all_chars (p : ascii -> bool) (s : string) : bool :=
  match s with
  | EmptyString => true
  | String c s' => p c && all_chars p s'
  end.

End Py.

(** ** os.path (posixpath) *)

Module posixpath.

(** [os.path.join(a, b)]. *)
Definition join2 (a b : string) : string :=
  if Py.startswith b "/" then b
  else match a with
       | EmptyString => b
       | _ => if Py.endswith_char a Py.slash then a +:+ b
              else a +:+ "/" +:+ b
       end.

(** [os.path.join(a, *p)]. *)
Definition join (a : string) (p : list string) : string :=
  fold_left join2 p a.

(** [os.path.basename(p)]: what follows the last slash. *)
Fixpoint basename (p : string) : string :=
  match p with
  | EmptyString => EmptyString
  | String c p' =>
      if Ascii.eqb c Py.slash then basename p'
      else if Py.all_chars (fun x => negb (Ascii.eqb x Py.slash)) p' then p
      else basename p'
  end.

End posixpath.

(** ** The libraries' data: lxml elements, HTTP responses, exceptions *)

Module lxml.

(** An element as the scraper uses it: its attributes and the text of
    its subtree ([text_content()]). *)
Record Element := mk_Element {
  tag : string;
  attrib : list (string * string);
  text_content : string
}.

(** A parsed document is what it answers to XPath queries. *)
Record root := mk_root {
  xpath : string -> list Element
}.

End lxml.

Module requests.

Record Response := mk_Response {
  status_code : Z;
  text : string;
  content : string;
  headers : list (string * string)
}.

End requests.

Inductive RuntimeErrorArg :=
| MultiplePDFLinks (url : string) (a_tags : list lxml.Element)
| Headers (headers : list (string * string)).

Inductive Exn :=
| HTTPError (status_code : Z)
| RequestException
| RuntimeError (arg : RuntimeErrorArg)
| ValueError
| TypeError
| KeyError (key : string)
| ParserError
| OSError (path : string).

Inductive Result (A : Type) :=
| Ok (a : A)
| Raise (e : Exn).
Arguments Ok {A} a.
Arguments Raise {A} e.

Definition is_Ok {A} (r : Result A) : bool :=
  match r with Ok _ => true | Raise _ => false end.

(** A list comprehension [[f(x) for x in l]] whose [f] may raise. *)
Fixpoint map_R {A B} (f : A -> Result B) (l : list A) : Result (list B) :=
  match l with
  | [] => Ok []
  | x :: l' =>
      match f x with
      | Raise e => Raise e
      | Ok y =>
          match map_R f l' with
          | Raise e => Raise e
          | Ok ys => Ok (y :: ys)
          end
      end
  end.

(** [d[k]] on a mapping with string keys kept as an association list. *)
Fixpoint assoc {V} (k : string) (d : list (string * V)) : option V :=
  match d with
  | [] => None
  | (k', v) :: d' => if String.eqb k k' then Some v else assoc k d'
  end.

(** [e.attrib[k]]. *)
Definition attrib_get (e : lxml.Element) (k : string) : Result string :=
  match assoc k (lxml.attrib e) with
  | Some v => Ok v
  | None => Raise (KeyError k)
  end.

(** [Response.raise_for_status()]: client and server errors raise. *)
Definition raise_for_status (r : requests.Response) : Result unit :=
  if (400 <=? requests.status_code r) && (requests.status_code r <? 600)
  then Raise (HTTPError (requests.status_code r))
  else Ok tt.

(** ** Built-ins: [int], [sorted] *)

Module builtins.

(** The body of an integer literal accepted by [int]: digits, with single
    underscores allowed between two digits.  [prev] tells whether the
    previous character was a digit. *)
Fixpoint int_body (prev : bool) (acc : Z) (s : string) : option Z :=
  match s with
  | EmptyString => if prev then Some acc else None
  | String c s' =>
      if Py.is_digit c then int_body true (10 * acc + Py.digit_val c) s'
      else if Ascii.eqb c "_" && prev then int_body false acc s'
      else None
  end.

(** [int(s)] for a [str]: surrounding white space is dropped, a sign is
    optional.  (The interpreter's optional limit on the number of digits
    is not part of the model: integers are unbounded.) *)
Definition int_of_str (s : string) : option Z :=
  match Py.strip s with
  | EmptyString => None
  | String c s' =>
      if Ascii.eqb c "-" then option_map Z.opp (int_body false 0 s')
      else if Ascii.eqb c "+" then int_body false 0 s'
      else int_body false 0 (String c s')
  end.

(** [int(x)] where [x] is a [str] or [None]. *)
Definition int (x : option string) : Result Z :=
  match x with
  | None => Raise TypeError
  | Some s =>
      match int_of_str s with
      | Some n => Ok n
      | None => Raise ValueError
      end
  end.

(** The keys of [sorted(l, key=key)] are computed first, from left to
    right; the first exception raised by [key] is the one of [sorted]. *)
Fixpoint decorate {A} (key : A -> Result Z) (l : list A) : Result (list (Z * A)) :=
  match l with
  | [] => Ok []
  | x :: l' =>
      match key x with
      | Raise e => Raise e
      | Ok k =>
          match decorate key l' with
          | Raise e => Raise e
          | Ok d => Ok ((k, x) :: d)
          end
      end
  end.

(** Insertion in front of the first element whose key is not smaller: the
    inserted element stood before the others, so ties keep their order. *)
Fixpoint insert_by_key {A} (kx : Z * A) (l : list (Z * A)) : list (Z * A) :=
  match l with
  | [] => [kx]
  | ky :: l' =>
      if fst kx <=? fst ky then kx :: ky :: l'
      else ky :: insert_by_key kx l'
  end.

(** A stable sort of decorated elements (the result of a stable sort does
    not depend on the algorithm). *)
Fixpoint sort_decorated {A} (l : list (Z * A)) : list (Z * A) :=
  match l with
  | [] => []
  | kx :: l' => insert_by_key kx (sort_decorated l')
  end.

(** [sorted(l, key=key)]. *)
Definition sorted {A} (key : A -> Result Z) (l : list A) : Result (list A) :=
  match decorate key l with
  | Raise e => Raise e
  | Ok d => Ok (map snd (sort_decorated d))
  end.

End builtins.

(** ** re: the two patterns of the scraper *)

Module re.

(** The longest run of digits at the front of [s], and what follows it. *)
Fixpoint span_digits (s : string) : string * string :=
  match s with
  | EmptyString => (EmptyString, EmptyString)
  | String c s' =>
      if Py.is_digit c
      then let (d, r) := span_digits s' in (String c d, r)
      else (EmptyString, s)
  end.

(** [re.match('\/(?P<id>\d+)\/', s)]: the pattern at the front of [s].
    [\d+] is greedy; giving digits back cannot help, since the character
    wanted next is a slash. *)
Definition match_id (s : string) : option string :=
  match s with
  | EmptyString => None
  | String c s' =>
      if Ascii.eqb c Py.slash then
        match span_digits s' with
        | (String d ds, String c' _) =>
            if Ascii.eqb c' Py.slash then Some (String d ds) else None
        | _ => None
        end
      else None
  end.

(** [re.search(p, s)]: the match at the leftmost position that has one;
    [matcher] is the pattern at the front of its argument. *)
Fixpoint search {A} (matcher : string -> option A) (s : string) : option A :=
  match matcher s with
  | Some m => Some m
  | None =>
      match s with
      | EmptyString => None
      | String _ s' => search matcher s'
      end
  end.

(** [re.search('\/(?P<id>\d+)\/', s)], the group [id] of the match. *)
Definition search_id (s : string) : option string := search match_id s.

(** [(?P<type>.+?)\/] at the front of [s]: [.] is any character but a
    newline, and the lazy [+?] takes the fewest characters, at least one,
    such that a slash follows. *)
Fixpoint lazy_dots_then_slash (s : string) : option string :=
  match s with
  | EmptyString => None
  | String c s' =>
      if Ascii.eqb c Py.newline then None
      else match s' with
           | EmptyString => None
           | String c' _ =>
               if Ascii.eqb c' Py.slash then Some (Py.str1 c)
               else option_map (String c) (lazy_dots_then_slash s')
           end
  end.

(** [re.match('\/action-weve-taken\/(?P<type>.+?)\/', s)]. *)
Definition match_type (s : string) : option string :=
  match Py.strip_prefix "/action-weve-taken/" s with
  | Some r => lazy_dots_then_slash r
  | None => None
  end.

(** [re.search('\/action-weve-taken\/(?P<type>.+?)\/', s)], the group
    [type] of the match. *)
Definition search_type (s : string) : option string := search match_type s.

End re.

(** ** datetime *)

Module datetime.

(** [datetime.timedelta], normalised as Python keeps it. *)
Record timedelta := mk_timedelta {
  days : Z;
  seconds : Z;
  microseconds : Z
}.

(** [datetime.timedelta(hours=h)] for [0 <= h]. *)
Definition timedelta_hours (h : Z) : timedelta :=
  {| days := (h * 3600) / 86400;
     seconds := (h * 3600) mod 86400;
     microseconds := 0 |}.

Definition total_seconds (d : timedelta) : Z := days d * 86400 + seconds d.

Record date := mk_date {
  year : Z;
  month : Z;
  day : Z
}.

Record t := mk_datetime {
  date_of : date;
  hour : Z;
  minute : Z;
  second : Z;
  microsecond : Z
}.

(** [date.isoformat()]: ['%04d-%02d-%02d']. *)
Definition date_isoformat (d : date) : string :=
  Py.zero_pad 4 (year d) +:+ "-" +:+ Py.zero_pad 2 (month d)
  +:+ "-" +:+ Py.zero_pad 2 (day d).

(** [datetime.isoformat()]: the microseconds are printed when they are not
    zero. *)
Definition isoformat (d : t) : string :=
  date_isoformat (date_of d) +:+ "T" +:+ Py.zero_pad 2 (hour d)
  +:+ ":" +:+ Py.zero_pad 2 (minute d) +:+ ":" +:+ Py.zero_pad 2 (second d)
  +:+ (if microsecond d =? 0 then EmptyString
       else "." +:+ Py.zero_pad 6 (microsecond d)).

Definition is_leap (y : Z) : bool :=
  (y mod 4 =? 0) && (negb (y mod 100 =? 0) || (y mod 400 =? 0)).

Definition days_in_month (y m : Z) : Z :=
  if m =? 2 then (if is_leap y then 29 else 28)
  else if (m =? 4) || (m =? 6) || (m =? 9) || (m =? 11) then 30
  else 31.

(** The checks of the [date] constructor. *)
Definition valid_date (y m d : Z) : bool :=
  (1 <=? y) && (y <=? 9999) && (1 <=? m) && (m <=? 12)
  && (1 <=? d) && (d <=? days_in_month y m).

(** The month names of the C locale, lower case, January first. *)
Definition f_month : list string :=
  [ "january"; "february"; "march"; "april"; "may"; "june"; "july";
    "august"; "september"; "october"; "november"; "december" ].

(** [p] at the front of [s] under [re.IGNORECASE]; [p] is lower case. *)
Fixpoint strip_prefix_nocase (p s : string) : option string :=
  match p with
  | EmptyString => Some s
  | String a p' =>
      match s with
      | EmptyString => None
      | String b s' =>
          if Ascii.eqb a (Py.lower_char b) then strip_prefix_nocase p' s'
          else None
      end
  end.

(** The directive [%B]: an alternation of the month names.  No name
    is a prefix of another, so the order of the alternatives does not
    matter.  [m] is the number of the first name of [names]. *)
Fixpoint match_B (names : list string) (m : Z) (s : string) : option (Z * string) :=
  match names with
  | [] => None
  | n :: names' =>
      match strip_prefix_nocase n s with
      | Some r => Some (m, r)
      | None => match_B names' (m + 1) s
      end
  end.

Definition in_range (lo hi c : ascii) : bool :=
  (Py.ord lo <=? Py.ord c) && (Py.ord c <=? Py.ord hi).

(** The directive [%d], [(?P<d>3[0-1]|[1-2]\d|0[1-9]|[1-9]| [1-9])]: every
    alternative that matches at the front of [s], in the order in which the
    regular expression tries them, with the day it reads and the rest. *)
Definition match_d (s : string) : list (Z * string) :=
  match s with
  | EmptyString => []
  | String a EmptyString =>
      if in_range "1" "9" a then [(Py.digit_val a, EmptyString)] else []
  | String a (String b r as s') =>
      (if Ascii.eqb a "3" && in_range "0" "1" b
       then [(30 + Py.digit_val b, r)] else [])
      ++ (if in_range "1" "2" a && Py.is_digit b
          then [(10 * Py.digit_val a + Py.digit_val b, r)] else [])
      ++ (if Ascii.eqb a "0" && in_range "1" "9" b
          then [(Py.digit_val b, r)] else [])
      ++ (if in_range "1" "9" a then [(Py.digit_val a, s')] else [])
      ++ (if Ascii.eqb a " " && in_range "1" "9" b
          then [(Py.digit_val b, r)] else [])
  end.

(** [\s+], which stands for the blank of the format: at least one space,
    and all of them, since what the format wants next is not a space. *)
Definition match_spaces (s : string) : option string :=
  match s with
  | EmptyString => None
  | String c s' => if Py.is_space c then Some (Py.lstrip s') else None
  end.

(** The directive [%Y], [(?P<Y>\d\d\d\d)]. *)
Definition match_Y (s : string) : option (Z * string) :=
  match s with
  | String a (String b (String c (String d r))) =>
      if Py.is_digit a && Py.is_digit b && Py.is_digit c && Py.is_digit d
      then Some (Py.digits_val 0 (String a (String b (String c (String d EmptyString)))), r)
      else None
  | _ => None
  end.

(** [\s+(?P<B>...)\s+(?P<Y>\d\d\d\d)] at the front of [s], which must be
    used up ("unconverted data remains" otherwise). *)
Definition match_after_d (s : string) : option (Z * Z) :=
  match match_spaces s with
  | None => None
  | Some s1 =>
      match match_B f_month 1 s1 with
      | None => None
      | Some (m, s2) =>
          match match_spaces s2 with
          | None => None
          | Some s3 =>
              match match_Y s3 with
              | Some (y, EmptyString) => Some (m, y)
              | _ => None
              end
          end
      end
  end.

(** The first alternative of [%d] after which the rest of the format
    matches. *)
Fixpoint first_match (alts : list (Z * string)) : option (Z * Z * Z) :=
  match alts with
  | [] => None
  | (d, r) :: alts' =>
      match match_after_d r with
      | Some (m, y) => Some (d, m, y)
      | None => first_match alts'
      end
  end.

(** [datetime.datetime.strptime(s, '%d %B %Y')]. *)
Definition strptime_d_B_Y (s : string) : Result t :=
  match first_match (match_d s) with
  | None => Raise ValueError
  | Some (d, m, y) =>
      if valid_date y m d
      then Ok {| date_of := {| year := y; month := m; day := d |};
                 hour := 0; minute := 0; second := 0; microsecond := 0 |}
      else Raise ValueError
  end.

End datetime.

(** ** json *)

Module json.

(** The values the scraper serialises: [None], strings, lists, and
    [OrderedDict]s with string keys (an association list keeps the order of
    the keys). *)
#[local] Unset Elimination Schemes.
Inductive value :=
| Null
| Str (s : string)
| Arr (items : list value)
| Obj (members : list (string * value)).
#[local] Set Elimination Schemes.

Definition hex_digit (n : Z) : ascii :=
  if n <? 10 then Py.chr (48 + n) else Py.chr (87 + n).

(** ['\\u%04x' % n] for a character code. *)
Definition u_escape (n : Z) : string :=
  String Py.backslash
    (String "u" (String "0" (String "0"
       (String (hex_digit (n / 16)) (Py.str1 (hex_digit (n mod 16))))))).

(** One character of a string under [ensure_ascii=True]. *)
Definition escape_char (c : ascii) : string :=
  let n := Py.ord c in
  if n =? 34 then String Py.backslash (Py.str1 Py.quote)
  else if n =? 92 then String Py.backslash (Py.str1 Py.backslash)
  else if n =? 10 then String Py.backslash "n"
  else if n =? 13 then String Py.backslash "r"
  else if n =? 9 then String Py.backslash "t"
  else if n =? 8 then String Py.backslash "b"
  else if n =? 12 then String Py.backslash "f"
  else if (32 <=? n) && (n <=? 126) then Py.str1 c
  else u_escape n.

Fixpoint escape (s : string) : string :=
  match s with
  | EmptyString => EmptyString
  | String c s' => escape_char c +:+ escape s'
  end.

Definition encode_str (s : string) : string :=
  String Py.quote (escape s +:+ Py.str1 Py.quote).

Fixpoint spaces (n : nat) : string :=
  match n with
  | O => EmptyString
  | S n' => String " " (spaces n')
  end.

(** A line break followed by the indentation of nesting depth [level],
    for [indent=4]. *)
Definition newline_indent (level : nat) : string :=
  String Py.newline (spaces (4 * level)).

(** [json.dumps(v, indent=4)] at nesting depth [level]: items are separated
    by a comma and a line break, a key from its value by a colon and a
    space; an empty list is [[]] and an empty dict is [{}]. *)
Fixpoint encode (level : nat) (v : value) : string :=
  match v with
  | Null => "null"
  | Str s => encode_str s
  | Arr [] => "[]"
  | Arr (x :: xs) =>
      "[" +:+ newline_indent (S level) +:+ encode (S level) x
      +:+ (fix rest (l : list value) : string :=
             match l with
             | [] => EmptyString
             | y :: l' =>
                 "," +:+ newline_indent (S level) +:+ encode (S level) y
                 +:+ rest l'
             end) xs
      +:+ newline_indent level +:+ "]"
  | Obj [] => "{}"
  | Obj ((k, x) :: ms) =>
      "{" +:+ newline_indent (S level) +:+ encode_str k +:+ ": "
      +:+ encode (S level) x
      +:+ (fix rest (l : list (string * value)) : string :=
             match l with
             | [] => EmptyString
             | (k', y) :: l' =>
                 "," +:+ newline_indent (S level) +:+ encode_str k' +:+ ": "
                 +:+ encode (S level) y +:+ rest l'
             end) ms
      +:+ newline_indent level +:+ "}"
  end.

(** [json.dumps(v, indent=4)], which is what [json.dump(v, f, indent=4)]
    writes to [f]. *)
Definition dumps (v : value) : string := encode 0 v.

(** [str] or [None] as a JSON value. *)
Definition of_optstr (x : option string) : value :=
  match x with
  | None => Null
  | Some s => Str s
  end.

End json.

(** ** hashlib: SHA-256 (FIPS 180-4) on 32-bit words kept in [Z] *)

Module hashlib.

Definition w32 (x : Z) : Z := x mod 2 ^ 32.

Definition add32 (x y : Z) : Z := w32 (x + y).

Definition rotr (n x : Z) : Z :=
  w32 (Z.lor (Z.shiftr x n) (Z.shiftl x (32 - n))).

Definition not32 (x : Z) : Z := Z.lxor x (2 ^ 32 - 1).

Definition Ch (x y z : Z) : Z := Z.lxor (Z.land x y) (Z.land (not32 x) z).
Definition Maj (x y z : Z) : Z :=
  Z.lxor (Z.lxor (Z.land x y) (Z.land x z)) (Z.land y z).
Definition Sigma0 (x : Z) : Z := Z.lxor (Z.lxor (rotr 2 x) (rotr 13 x)) (rotr 22 x).
Definition Sigma1 (x : Z) : Z := Z.lxor (Z.lxor (rotr 6 x) (rotr 11 x)) (rotr 25 x).
Definition sigma0 (x : Z) : Z := Z.lxor (Z.lxor (rotr 7 x) (rotr 18 x)) (Z.shiftr x 3).
Definition sigma1 (x : Z) : Z := Z.lxor (Z.lxor (rotr 17 x) (rotr 19 x)) (Z.shiftr x 10).

Definition K : list Z :=
  [ 1116352408; 1899447441; 3049323471; 3921009573; 961987163; 1508970993;
    2453635748; 2870763221; 3624381080; 310598401; 607225278; 1426881987;
    1925078388; 2162078206; 2614888103; 3248222580; 3835390401; 4022224774;
    264347078; 604807628; 770255983; 1249150122; 1555081692; 1996064986;
    2554220882; 2821834349; 2952996808; 3210313671; 3336571891; 3584528711;
    113926993; 338241895; 666307205; 773529912; 1294757372; 1396182291;
    1695183700; 1986661051; 2177026350; 2456956037; 2730485921; 2820302411;
    3259730800; 3345764771; 3516065817; 3600352804; 4094571909; 275423344;
    430227734; 506948616; 659060556; 883997877; 958139571; 1322822218;
    1537002063; 1747873779; 1955562222; 2024104815; 2227730452; 2361852424;
    2428436474; 2756734187; 3204031479; 3329325298 ].

Definition H0 : list Z :=
  [ 1779033703; 3144134277; 1013904242; 2773480762; 1359893119; 2600822924;
    528734635; 1541459225 ].

Definition bytes_of (s : string) : list Z := map Py.ord (list_ascii_of_string s).

(** [n] as [k] bytes, most significant first. *)
Fixpoint be_bytes (k : nat) (n : Z) : list Z :=
  match k with
  | O => []
  | S k' => be_bytes k' (n / 256) ++ [n mod 256]
  end.

(** The padding: a one bit, zero bits up to 56 modulo 64 bytes, and the
    length of the message in bits as a 64-bit number. *)
Definition pad (msg : list Z) : list Z :=
  let len := Z.of_nat (length msg) in
  let zeros := Z.to_nat ((55 - len) mod 64) in
  msg ++ [128] ++ repeat 0 zeros ++ be_bytes 8 (8 * len).

(** The 32-bit words of a list of bytes, most significant byte first. *)
Fixpoint words (fuel : nat) (l : list Z) : list Z :=
  match fuel, l with
  | S f, a :: b :: c :: d :: l' =>
      (((a * 256 + b) * 256 + c) * 256 + d) :: words f l'
  | _, _ => []
  end.

Fixpoint blocks (fuel : nat) (ws : list Z) : list (list Z) :=
  match fuel, ws with
  | S f, _ :: _ => firstn 16 ws :: blocks f (skipn 16 ws)
  | _, _ => []
  end.

(** The message schedule, latest word first: [n] more words are added to
    [w], which holds at least sixteen. *)
Fixpoint schedule (n : nat) (w : list Z) : list Z :=
  match n with
  | O => w
  | S n' =>
      let x := add32 (add32 (sigma1 (nth 1 w 0)) (nth 6 w 0))
                     (add32 (sigma0 (nth 14 w 0)) (nth 15 w 0)) in
      schedule n' (x :: w)
  end.

Record regs := mk_regs { ra : Z; rb : Z; rc : Z; rd : Z; re : Z; rf : Z; rg : Z; rh : Z }.

Definition round (r : regs) (kw : Z * Z) : regs :=
  let t1 := add32 (add32 (add32 (rh r) (Sigma1 (re r))) (Ch (re r) (rf r) (rg r)))
                  (add32 (fst kw) (snd kw)) in
  let t2 := add32 (Sigma0 (ra r)) (Maj (ra r) (rb r) (rc r)) in
  {| ra := add32 t1 t2; rb := ra r; rc := rb r; rd := rc r;
     re := add32 (rd r) t1; rf := re r; rg := rf r; rh := rg r |}.

Definition regs_of (h : list Z) : regs :=
  {| ra := nth 0 h 0; rb := nth 1 h 0; rc := nth 2 h 0; rd := nth 3 h 0;
     re := nth 4 h 0; rf := nth 5 h 0; rg := nth 6 h 0; rh := nth 7 h 0 |}.

Definition compress (h : list Z) (block : list Z) : list Z :=
  let w := rev (schedule 48 (rev block)) in
  let r := fold_left round (combine K w) (regs_of h) in
  zip_with add32 h [ra r; rb r; rc r; rd r; re r; rf r; rg r; rh r].

Definition digest_words (s : string) : list Z :=
  let p := pad (bytes_of s) in
  let ws := words (length p) p in
  fold_left compress (blocks (length ws) ws) H0.

Definition hex_byte (b : Z) : string :=
  String (json.hex_digit (b / 16)) (Py.str1 (json.hex_digit (b mod 16))).

Definition hex_word (w : Z) : string :=
  fold_right (fun b acc => hex_byte b +:+ acc) EmptyString (be_bytes 4 w).

(** [hashlib.sha256(s).hexdigest()]; also what results from
    [h = hashlib.sha256(); h.update(s); h.hexdigest()]. *)
Definition sha256_hexdigest (s : string) : string :=
  fold_right (fun w acc => hex_word w +:+ acc) EmptyString (digest_words s).

End hashlib.

(** ** The program's data *)

Definition ONE_HOUR : datetime.timedelta := datetime.timedelta_hours 1.

Module requests_cache.

(** [requests_cache.core.CachedSession]: the session is known by the
    expiry it was configured with; what it answers is the world's. *)
Record CachedSession := mk_CachedSession {
  expire_after : datetime.timedelta
}.

End requests_cache.

Module RequestsWrapper.

Record t := mk {
  session : requests_cache.CachedSession
}.

(** [RequestsWrapper.__init__]. *)
Definition __init__ : t :=
  {| session := {| requests_cache.expire_after := ONE_HOUR |} |}.

End RequestsWrapper.

Module PDF.

(** [namedtuple('PDF', 'id,url,type,date,title,filename,sha256')]. *)
Record t := mk {
  id : option string;
  url : string;
  type : option string;
  date : option string;
  title : option string;
  filename : string;
  sha256 : option string
}.

Definition _fields : list string :=
  ["id"; "url"; "type"; "date"; "title"; "filename"; "sha256"].

(** [pdf._asdict()]; a value is a [str] or [None]. *)
Definition _asdict (p : t) : list (string * option string) :=
  [ ("id", id p); ("url", Some (url p)); ("type", type p);
    ("date", date p); ("title", title p); ("filename", Some (filename p));
    ("sha256", sha256 p) ].

(** [PDF] called with the keyword arguments [data]: every field must be
    given, and nothing else.  The
    fields [url] and [filename] are strings in this model, so a [None]
    there is refused as well. *)
Definition of_kwargs (data : list (string * option string)) : Result t :=
  if negb (forallb (fun kv => existsb (String.eqb (fst kv)) _fields) data)
  then Raise TypeError
  else
    match assoc "id" data, assoc "url" data, assoc "type" data,
          assoc "date" data, assoc "title" data, assoc "filename" data,
          assoc "sha256" data with
    | Some i, Some (Some u), Some ty, Some d, Some ti, Some (Some f), Some h =>
        Ok {| id := i; url := u; type := ty; date := d; title := ti;
              filename := f; sha256 := h |}
    | _, _, _, _, _, _, _ => Raise TypeError
    end.

End PDF.

(** [d.update({k: v})] for one key: the value of an existing key is
    replaced in place, a new key goes last. *)
Fixpoint dict_update {V} (d : list (string * V)) (k : string) (v : V) : list (string * V) :=
  match d with
  | [] => [(k, v)]
  | (k', v') :: d' =>
      if String.eqb k k' then (k', v) :: d' else (k', v') :: dict_update d' k v
  end.

(** ** The outside world *)

(** What the program does to the world and what the world answers, in the
    order in which it happens. *)
Inductive Event :=
| EvLog (level msg : string)
| EvGet (session : requests_cache.CachedSession) (url : string)
        (kwargs : list (string * string)) (answer : Result requests.Response)
| EvIsdir (path : string) (answer : bool)
| EvMakedirs (path : string) (error : option Exn)
| EvOpen (path mode : string) (error : option Exn)
| EvWrite (path data : string)
| EvNow (answer : datetime.t).

Record Env := mk_Env {
  (** [session.get(url, **kwargs)]: a response, or an exception of
      [requests] (no connection, too many redirects, ...). *)
  session_get : list Event -> requests_cache.CachedSession -> string ->
                list (string * string) -> Result requests.Response;
  (** [lxml.html.fromstring(text)]. *)
  fromstring : string -> Result lxml.root;
  (** The error of [io.open(path, mode)], if any, for a reason that the
      file store below does not know (a missing directory, a directory in
      the place of the file, permissions). *)
  open_error : list Event -> string -> string -> option Exn;
  (** The error of [os.makedirs(path)], if any. *)
  makedirs_error : list Event -> string -> option Exn;
  (** [datetime.datetime.now()]. *)
  now : list Event -> datetime.t;
  (** [abspath(pjoin(dirname(__file__), 'output'))]. *)
  default_output_dir : string
}.

(** The fields of [self], the files and directories, and the trace. *)
Record State := mk_State {
  output_dir : string;
  http : RequestsWrapper.t;
  penalty_pages : option (list string);
  penalty_pdfs : option (list PDF.t);
  files : gmap string string;
  dirs : gset string;
  trace : list Event
}.

Definition set_penalty_pages (v : option (list string)) (s : State) : State :=
  {| output_dir := output_dir s; http := http s; penalty_pages := v;
     penalty_pdfs := penalty_pdfs s; files := files s; dirs := dirs s;
     trace := trace s |}.

Definition set_penalty_pdfs (v : option (list PDF.t)) (s : State) : State :=
  {| output_dir := output_dir s; http := http s;
     penalty_pages := penalty_pages s; penalty_pdfs := v; files := files s;
     dirs := dirs s; trace := trace s |}.

Definition set_files (v : gmap string string) (s : State) : State :=
  {| output_dir := output_dir s; http := http s;
     penalty_pages := penalty_pages s; penalty_pdfs := penalty_pdfs s;
     files := v; dirs := dirs s; trace := trace s |}.

Definition set_dirs (v : gset string) (s : State) : State :=
  {| output_dir := output_dir s; http := http s;
     penalty_pages := penalty_pages s; penalty_pdfs := penalty_pdfs s;
     files := files s; dirs := v; trace := trace s |}.

Definition add_event (ev : Event) (s : State) : State :=
  {| output_dir := output_dir s; http := http s;
     penalty_pages := penalty_pages s; penalty_pdfs := penalty_pdfs s;
     files := files s; dirs := dirs s; trace := trace s ++ [ev] |}.

(** ** The monad of methods: state and exceptions *)

Definition M (A : Type) : Type := State -> Result A * State.

Definition ret {A} (a : A) : M A := fun s => (Ok a, s).

Definition raise {A} (e : Exn) : M A := fun s => (Raise e, s).

Definition bind {A B} (m : M A) (f : A -> M B) : M B :=
  fun s =>
    match m s with
    | (Ok a, s') => f a s'
    | (Raise e, s') => (Raise e, s')
    end.

Definition lift {A} (r : Result A) : M A := fun s => (r, s).

Definition get_state : M State := fun s => (Ok s, s).

Definition modify (f : State -> State) : M unit := fun s => (Ok tt, f s).

Declare Scope py_scope.
Delimit Scope py_scope with py.
Notation "x <- c1 ;; c2" := (bind c1 (fun x => c2))
  (at level 100, c1 at next level, right associativity) : py_scope.
Notation "c1 ;; c2" := (bind c1 (fun _ => c2))
  (at level 100, right associativity) : py_scope.
Local Open Scope py_scope.

(** [list(map(f, l))], one call after the other. *)
Fixpoint map_M {A B} (call : A -> M B) (items : list A) : M (list B) :=
  match items with
  | [] => ret []
  | item :: items' =>
      y <- call item ;;
      ys <- map_M call items' ;;
      ret (y :: ys)
  end.

(** [list(filter(None, l))] where an item is a [PDF] (a non-empty tuple,
    which is true) or [None]. *)
Fixpoint filter_None {A} (l : list (option A)) : list A :=
  match l with
  | [] => []
  | None :: l' => filter_None l'
  | Some x :: l' => x :: filter_None l'
  end.

(** ** The primitives that touch the world *)

Section World.

Variable env : Env.

(** [logging.info(msg)], [logging.warn(msg)]. *)
Definition logging_info (msg : string) : M unit :=
  modify (add_event (EvLog "INFO" msg)).

Definition logging_warn (msg : string) : M unit :=
  modify (add_event (EvLog "WARNING" msg)).

(** [RequestsWrapper.get(self, url, *args, **kwargs)]: one call of
    [self.session.get] with the same arguments. *)
Definition RequestsWrapper_get (self : RequestsWrapper.t) (url : string)
    (kwargs : list (string * string)) : M requests.Response :=
  fun s =>
    let sess := RequestsWrapper.session self in
    let r := session_get env (trace s) sess url kwargs in
    (r, add_event (EvGet sess url kwargs r) s).

(** [io.open(path, 'w')] and [io.open(path, 'wb')]: the file is created
    or emptied. *)
Definition open_for_writing (path mode : string) : M unit :=
  fun s =>
    let err := open_error env (trace s) path mode in
    let s' := add_event (EvOpen path mode err) s in
    match err with
    | Some e => (Raise e, s')
    | None => (Ok tt, set_files (<[path := EmptyString]> (files s')) s')
    end.

(** [f.write(data)] on a file opened for writing at [path]. *)
Definition f_write (path data : string) : M unit :=
  fun s =>
    let old := default EmptyString (files s !! path) in
    (Ok tt, add_event (EvWrite path data)
              (set_files (<[path := old +:+ data]> (files s)) s)).

(** [with io.open(path, 'rb') as f: buf = f.read()]. *)
Definition read_binary (path : string) : M string :=
  fun s =>
    let err := match open_error env (trace s) path "rb" with
               | Some e => Some e
               | None => match files s !! path with
                         | Some _ => None
                         | None => Some (OSError path)
                         end
               end in
    let s' := add_event (EvOpen path "rb" err) s in
    match err with
    | Some e => (Raise e, s')
    | None => (Ok (default EmptyString (files s !! path)), s')
    end.

(** [os.path.isdir(path)]. *)
Definition os_path_isdir (path : string) : M bool :=
  fun s =>
    let b := bool_decide (path ∈ dirs s) in
    (Ok b, add_event (EvIsdir path b) s).

(** [os.makedirs(path)]. *)
Definition os_makedirs (path : string) : M unit :=
  fun s =>
    let err := makedirs_error env (trace s) path in
    let s' := add_event (EvMakedirs path err) s in
    match err with
    | Some e => (Raise e, s')
    | None => (Ok tt, set_dirs ({[path]} ∪ dirs s') s')
    end.

(** [datetime.datetime.now()]. *)
Definition datetime_now : M datetime.t :=
  fun s =>
    let t := now env (trace s) in
    (Ok t, add_event (EvNow t) s).

(** ** class ICOPenaltyScraper *)

Definition BASE_URL : string := "https://ico.org.uk".

Definition LIST_URL : string := BASE_URL +:+ "/action-weve-taken/enforcement/".

Definition XPATH_LIST_PAGE_LINK : string :=
  "//a[contains(@href, " +:+ Py.str1 Py.quote
  +:+ "/action-weve-taken/enforcement/" +:+ Py.str1 Py.quote +:+ ")]".

Definition XPATH_PDF_LINK : string :=
  "//a[contains(@href, '/media/action-weve-taken') and contains(@href, '.pdf')]".

Definition XPATH_DATE : string :=
  "//dt[contains(text(), 'Date')]/following-sibling::dd[1]".

(** [ICOPenaltyScraper.__init__], in a world with the given files,
    directories and past. *)
Definition __init__ (output_dir : string) (requests_like_object : RequestsWrapper.t)
    (fs : gmap string string) (ds : gset string) (past : list Event) : State :=
  {| output_dir := output_dir; http := requests_like_object;
     penalty_pages := None; penalty_pdfs := None;
     files := fs; dirs := ds; trace := past |}.

Definition mkdir_p (directory : string) : M string :=
  b <- os_path_isdir directory ;;
  (if negb b then os_makedirs directory else ret tt) ;;
  ret directory.

Definition _expand_href (href : string) : string :=
  if Py.startswith href "/" then BASE_URL +:+ href else href.

Definition _get_as_lxml (url : string) : M lxml.root :=
  logging_info url ;;
  self <- get_state ;;
  response <- RequestsWrapper_get (http self) url [] ;;
  lift (raise_for_status response) ;;
  if requests.status_code response =? 301
  then raise (RuntimeError (Headers (requests.headers response)))
  else lift (fromstring env (requests.text response)).

Definition parse_list_page : M unit :=
  root <- _get_as_lxml LIST_URL ;;
  pages <- lift (map_R (fun a => match attrib_get a "href" with
                                 | Ok href => Ok (_expand_href href)
                                 | Raise e => Raise e
                                 end)
                       (lxml.xpath root XPATH_LIST_PAGE_LINK)) ;;
  modify (set_penalty_pages (Some pages)).

Definition _parse_pdf_url (lxml_root : lxml.root) (url : string) : M (option string) :=
  let a_tags := lxml.xpath lxml_root XPATH_PDF_LINK in
  match a_tags with
  | [] => logging_warn ("No PDF on page " +:+ url) ;; ret None
  | [a] =>
      href <- lift (attrib_get a "href") ;;
      ret (Some (_expand_href href))
  | _ => raise (RuntimeError (MultiplePDFLinks url a_tags))
  end.

Definition _parse_title (lxml_root : lxml.root) : option string :=
  match lxml.xpath lxml_root "//h1" with
  | [h1] => Some (Py.strip (lxml.text_content h1))
  | _ => None
  end.

Definition _parse_date (lxml_root : lxml.root) : Result (option string) :=
  let parse (date_string : string) : Result string :=
    match datetime.strptime_d_B_Y date_string with
    | Ok d => Ok (datetime.date_isoformat (datetime.date_of d))
    | Raise e => Raise e
    end in
  match lxml.xpath lxml_root XPATH_DATE with
  | [d] =>
      match parse (Py.strip (lxml.text_content d)) with
      | Ok iso => Ok (Some iso)
      | Raise e => Raise e
      end
  | _ => Ok None
  end.

Definition _parse_id (pdf_url : string) : option string :=
  re.search_id pdf_url.

Definition _parse_type (pdf_url : string) : option string :=
  match re.search_type pdf_url with
  | Some type_slug =>
      assoc type_slug
        [ ("enforcement-notices", "enforcement-notice");
          ("mpns", "monetary-penalty");
          ("undertakings", "undertaking") ]
  | None => None
  end.

Definition parse_pdf_url_from_penalty_page (url : string) : M (option PDF.t) :=
  root <- _get_as_lxml url ;;
  pdf_url <- _parse_pdf_url root url ;;
  match pdf_url with
  | None => ret None
  | Some pdf_url =>
      date <- lift (_parse_date root) ;;
      ret (Some {| PDF.id := _parse_id pdf_url;
                   PDF.url := pdf_url;
                   PDF.type := _parse_type pdf_url;
                   PDF.date := date;
                   PDF.title := _parse_title root;
                   PDF.filename := posixpath.basename pdf_url;
                   PDF.sha256 := None |})
  end.

Definition parse_pdf_urls_from_penalty_pages : M unit :=
  self <- get_state ;;
  match penalty_pages self with
  | None => raise TypeError
  | Some pages =>
      found <- map_M parse_pdf_url_from_penalty_page pages ;;
      modify (set_penalty_pdfs (Some (filter_None found)))
  end.

(** The static method [sha256(filename)]. *)
Definition sha256 (filename : string) : M string :=
  buf <- read_binary filename ;;
  ret (hashlib.sha256_hexdigest buf).

Definition download_and_add_sha (pdf : PDF.t) : M PDF.t :=
  logging_info ("Downloading " +:+ PDF.url pdf) ;;
  self <- get_state ;;
  let full_filename := posixpath.join (output_dir self) ["pdfs"; PDF.filename pdf] in
  open_for_writing full_filename "wb" ;;
  response <- RequestsWrapper_get (http self) (PDF.url pdf) [] ;;
  lift (raise_for_status response) ;;
  f_write full_filename (requests.content response) ;;
  digest <- sha256 full_filename ;;
  let data := dict_update (PDF._asdict pdf) "sha256" (Some digest) in
  lift (PDF.of_kwargs data).

Definition download_pdfs : M unit :=
  self <- get_state ;;
  match penalty_pdfs self with
  | None => raise TypeError
  | Some pdfs =>
      downloaded <- map_M download_and_add_sha pdfs ;;
      modify (set_penalty_pdfs (Some downloaded))
  end.

Definition to_dict (pdf : PDF.t) : json.value :=
  json.Obj
    [ ("id", json.of_optstr (PDF.id pdf));
      ("url", json.Str (PDF.url pdf));
      ("type", json.of_optstr (PDF.type pdf));
      ("date", json.of_optstr (PDF.date pdf));
      ("title", json.of_optstr (PDF.title pdf));
      ("filename", json.Str (PDF.filename pdf));
      ("sha256", json.of_optstr (PDF.sha256 pdf)) ].

Definition key (pdf : PDF.t) : Result Z := builtins.int (PDF.id pdf).

(** [json.dump(v, f, indent=4)] inside [with io.open(path, 'w') as f];
    the pieces that [json.dump] writes one after the other are one write
    here. *)
Definition dump_to (path : string) (v : json.value) : M unit :=
  open_for_writing path "w" ;;
  f_write path (json.dumps v).

Definition write_index_json : M unit :=
  self <- get_state ;;
  match penalty_pdfs self with
  | None => raise TypeError
  | Some penalty_pdfs =>
      ordered <- lift (builtins.sorted key penalty_pdfs) ;;
      let pdfs := map to_dict ordered in
      let index := json.Obj [("pdfs", json.Arr pdfs)] in
      dump_to (posixpath.join (output_dir self) ["index.json"]) index
  end.

Definition write_metadata_json : M unit :=
  t <- datetime_now ;;
  let metadata := json.Obj [("last_updated", json.Str (datetime.isoformat t))] in
  self <- get_state ;;
  dump_to (posixpath.join (output_dir self) ["metadata.json"]) metadata.

Definition run : M unit :=
  self <- get_state ;;
  mkdir_p (posixpath.join (output_dir self) ["pdfs"]) ;;
  parse_list_page ;;
  parse_pdf_urls_from_penalty_pages ;;
  download_pdfs ;;
  write_index_json ;;
  write_metadata_json.

(** [main(output_dir)]: [output_dir or <default>], so that an empty string
    is replaced by the default as [None] is.  The configuration of
    [logging] is not modelled: every record that is logged is an event. *)
Definition main (output_dir : option string)
    (fs : gmap string string) (ds : gset string) (past : list Event)
    : Result unit * State :=
  let output_dir :=
    match output_dir with
    | None | Some EmptyString => default_output_dir env
    | Some d => d
    end in
  run (__init__ output_dir RequestsWrapper.__init__ fs ds past).

End World.

(** ** A small world to run the program in *)

Module Fixture.

Definition a_href (href : string) : lxml.Element :=
  {| lxml.tag := "a"; lxml.attrib := [("href", href)];
     lxml.text_content := "link" |}.

Definition elem (tag text : string) : lxml.Element :=
  {| lxml.tag := tag; lxml.attrib := []; lxml.text_content := text |}.

(** A document with the given links to penalty pages, links to PDFs,
    dates and headings. *)
Definition doc (pages pdfs dates h1s : list string) : lxml.root :=
  {| lxml.xpath := fun q =>
       if String.eqb q XPATH_LIST_PAGE_LINK then map a_href pages
       else if String.eqb q XPATH_PDF_LINK then map a_href pdfs
       else if String.eqb q XPATH_DATE then map (elem "dd") dates
       else if String.eqb q "//h1" then map (elem "h1") h1s
       else [] |}.

Definition response (status : Z) (body : string) : requests.Response :=
  {| requests.status_code := status; requests.text := body;
     requests.content := body; requests.headers := [] |}.

(** A web site given as a table from URLs to responses; a URL that is not
    in the table answers 404.  The body of an HTML page is its name in the
    table of documents [docs]. *)
Definition env_of (site : list (string * requests.Response))
    (docs : list (string * lxml.root)) (clock : datetime.t) : Env :=
  {| session_get := fun _ _ url _ =>
       Ok (default (response 404 "Not Found") (assoc url site));
     fromstring := fun text =>
       match assoc text docs with
       | Some d => Ok d
       | None => Raise ParserError
       end;
     open_error := fun _ _ _ => None;
     makedirs_error := fun _ _ => None;
     now := fun _ => clock;
     default_output_dir := "/srv/scraper/output" |}.

Definition clock : datetime.t :=
  datetime.mk_datetime (datetime.mk_date 2018 1 9) 7 5 0 120.

Definition acme_page : string := "https://ico.org.uk/action-weve-taken/enforcement/acme-ltd/".
Definition bolt_page : string := "https://ico.org.uk/action-weve-taken/enforcement/bolt-plc/".
Definition cafe_page : string := "https://ico.org.uk/action-weve-taken/enforcement/cafe-llp/".
Definition acme_pdf : string := "https://ico.org.uk/media/action-weve-taken/mpns/2172999/acme-mpn.pdf".
Definition bolt_pdf : string := "https://ico.org.uk/media/action-weve-taken/undertakings/13/bolt.pdf".

Definition duo_page : string := "https://ico.org.uk/action-weve-taken/enforcement/duo-inc/".
Definition tbc_page : string := "https://ico.org.uk/action-weve-taken/enforcement/tbc-ltd/".
Definition gone_page : string := "https://ico.org.uk/action-weve-taken/enforcement/gone/".
Definition tbc_pdf : string := "https://ico.org.uk/media/action-weve-taken/mpns/tbc-mpn.pdf".

Definition docs : list (string * lxml.root) :=
  [ ("LIST", doc ["/action-weve-taken/enforcement/acme-ltd/";
                  "/action-weve-taken/enforcement/cafe-llp/";
                  bolt_page] [] [] ["Enforcement action"]);
    ("ACME", doc [] ["/media/action-weve-taken/mpns/2172999/acme-mpn.pdf"]
                 [" 21 December 2017 "] [" Acme Ltd "]);
    ("BOLT", doc [] [bolt_pdf] ["3 May 2016"] ["Bolt plc"; "Related"]);
    ("CAFE", doc [] [] ["1 June 2017"] ["Cafe LLP"]);
    ("DUO", doc [] [acme_pdf; bolt_pdf] ["1 June 2017"] ["Duo Inc"]);
    ("TBC", doc [] [tbc_pdf] ["To be confirmed"] ["TBC Ltd"]);
    ("TBC2", doc [] [tbc_pdf] [] ["TBC Ltd"]) ].

Definition site : list (string * requests.Response) :=
  [ (LIST_URL, response 200 "LIST");
    (acme_page, response 200 "ACME");
    (bolt_page, response 200 "BOLT");
    (cafe_page, response 200 "CAFE");
    (duo_page, response 200 "DUO");
    (tbc_page, response 200 "TBC");
    (acme_pdf, response 200 "%PDF-1.4 acme");
    (bolt_pdf, response 200 "%PDF-1.4 bolt");
    (tbc_pdf, response 200 "%PDF-1.4 tbc") ].

Definition env : Env := env_of site docs clock.

(** The same site with a list page that links to a page that is gone. *)
Definition env_gone : Env :=
  env_of site
    (("LIST", doc [acme_page; gone_page; bolt_page] [] [] []) :: docs) clock.


(** The state of a new scraper writing to [out], in an empty store. *)
Definition s0 : State := __init__ "out" RequestsWrapper.__init__ ∅ ∅ [].

(** The same with the list of penalty pages set. *)
Definition with_pages (pages : list string) : State :=
  set_penalty_pages (Some pages) s0.

(** The record of the first PDF before it is downloaded, and a record whose
    PDF is not on the site. *)
Definition acme_record : PDF.t :=
  {| PDF.id := Some "2172999"; PDF.url := acme_pdf;
     PDF.type := Some "monetary-penalty"; PDF.date := Some "2017-12-21";
     PDF.title := Some "Acme Ltd"; PDF.filename := "acme-mpn.pdf";
     PDF.sha256 := None |}.

Definition bolt_record : PDF.t :=
  {| PDF.id := Some "13"; PDF.url := bolt_pdf;
     PDF.type := Some "undertaking"; PDF.date := Some "2016-05-03";
     PDF.title := None; PDF.filename := "bolt.pdf";
     PDF.sha256 := None |}.

Definition missing_pdf : string :=
  "https://ico.org.uk/media/action-weve-taken/mpns/404/missing.pdf".

Definition missing_record : PDF.t :=
  {| PDF.id := Some "404"; PDF.url := missing_pdf;
     PDF.type := Some "monetary-penalty"; PDF.date := None;
     PDF.title := None; PDF.filename := "missing.pdf";
     PDF.sha256 := None |}.

(** A scraper whose output directory already holds an older download. *)
Definition s_old : State :=
  __init__ "out" RequestsWrapper.__init__
    {[ "out/pdfs/missing.pdf" := "%PDF-1.4 older" ]} {[ "out/pdfs" ]} [].

End Fixture.

(** ** Vocabulary of the statements *)

(** What the group [type] of the second pattern can be: one character
    that is not a newline, then characters that are neither a newline
    nor a slash. *)
Definition is_slug (g : string) : bool :=
  match g with
  | EmptyString => false
  | String c g' =>
      negb (Ascii.eqb c Py.newline)
      && Py.all_chars (fun x => negb (Ascii.eqb x Py.newline)
                                && negb (Ascii.eqb x Py.slash)) g'
  end.

Definition no_newline (g : string) : bool :=
  Py.all_chars (fun x => negb (Ascii.eqb x Py.newline)) g.

(** The table of [_parse_type]. *)
Definition type_of_slug (slug t : string) : Prop :=
  (slug = "enforcement-notices" /\ t = "enforcement-notice")
  \/ (slug = "mpns" /\ t = "monetary-penalty")
  \/ (slug = "undertakings" /\ t = "undertaking").

(** The shape [YYYY-MM-DD]. *)
Definition iso_8601_date (s : string) : Prop :=
  exists yyyy mm dd,
    s = yyyy +:+ "-" +:+ mm +:+ "-" +:+ dd
    /\ String.length yyyy = 4%nat /\ String.length mm = 2%nat
    /\ String.length dd = 2%nat
    /\ Py.all_chars Py.is_digit yyyy = true
    /\ Py.all_chars Py.is_digit mm = true
    /\ Py.all_chars Py.is_digit dd = true.

(** [pdf] with its [sha256] set: what [download_and_add_sha] is expected
    to return. *)
Definition with_sha256 (pdf : PDF.t) (digest : string) : PDF.t :=
  {| PDF.id := PDF.id pdf; PDF.url := PDF.url pdf; PDF.type := PDF.type pdf;
     PDF.date := PDF.date pdf; PDF.title := PDF.title pdf;
     PDF.filename := PDF.filename pdf; PDF.sha256 := Some digest |}.

(** Where [download_and_add_sha] stores a PDF. *)
Definition pdf_path (output_dir : string) (pdf : PDF.t) : string :=
  posixpath.join output_dir ["pdfs"; PDF.filename pdf].

(** What goes wrong with a GET, if anything: the exception of the session,
    or the [HTTPError] of [raise_for_status] for a status from 400 to 599. *)
Definition failure_of (ev : Event) : option Exn :=
  match ev with
  | EvGet _ _ _ (Raise e) => Some e
  | EvGet _ _ _ (Ok response) =>
      match raise_for_status response with
      | Raise e => Some e
      | Ok _ => None
      end
  | _ => None
  end.

(** The record that [parse_pdf_url_from_penalty_page] builds for the PDF at
    [pdf_url] on the page [root], given its date. *)
Definition pdf_record (pdf_url : string) (date : option string)
    (root : lxml.root) : PDF.t :=
  {| PDF.id := _parse_id pdf_url;
     PDF.url := pdf_url;
     PDF.type := _parse_type pdf_url;
     PDF.date := date;
     PDF.title := _parse_title root;
     PDF.filename := posixpath.basename pdf_url;
     PDF.sha256 := None |}.

(** The two stages before the penalty pages are visited. *)
Definition run_until_list_page (env : Env) : M unit :=
  (self <- get_state ;;
   mkdir_p env (posixpath.join (output_dir self) ["pdfs"]) ;;
   parse_list_page env)%py.

(** A non-empty string of decimal digits. *)
Definition is_decimal (s : string) : bool :=
  match s with
  | EmptyString => false
  | _ => Py.all_chars Py.is_digit s
  end.





(** The document written to [index.json] for the records [ordered]. *)
Definition index_of (ordered : list PDF.t) : json.value :=
  json.Obj [("pdfs", json.Arr (map to_dict ordered))].

Definition index_path (s : State) : string :=
  posixpath.join (output_dir s) ["index.json"].

Definition metadata_path (s : State) : string :=
  posixpath.join (output_dir s) ["metadata.json"].



(** A GET as the scraper issues it: through the session of the wrapper
    [w], with the URL as its only argument. *)
Definition plain_get (w : RequestsWrapper.t) (ev : Event) : Prop :=
  match ev with
  | EvGet sess _ kwargs _ => sess = RequestsWrapper.session w /\ kwargs = []
  | _ => True
  end.

(** An event after which a run goes on. *)
Definition clean (w : RequestsWrapper.t) (ev : Event) : Prop :=
  failure_of ev = None /\ plain_get w ev.

(** The discipline of fetching: either nothing failed, or the last event is
    a GET that failed, and what it raised is the result. *)
Inductive outcome {A} (w : RequestsWrapper.t) (t : list Event) (r : Result A) : Prop :=
| outcome_clean :
    Forall (clean w) t -> outcome w t r
| outcome_failed t0 ev e :
    t = t0 ++ [ev] -> Forall (clean w) t0 -> plain_get w ev ->
    failure_of ev = Some e -> r = Raise e -> outcome w t r.

Definition disciplined {A} (m : M A) : Prop :=
  forall s r s', m s = (r, s') ->
    http s' = http s /\ output_dir s' = output_dir s
    /\ exists t, trace s' = trace s ++ t /\ outcome (http s) t r.

(** The URLs of the GETs of a trace, in order. *)
Definition get_urls (t : list Event) : list string :=
  flat_map (fun ev => match ev with
                      | EvGet _ url _ _ => [url]
                      | _ => []
                      end) t.

(** A method stops at the first GET that is answered with an error status:
    [raise_for_status] raises, the exception is the result, and no event
    follows the GET. *)
Definition stops_at_http_error {A} (m : M A) : Prop :=
  forall s r s' pre sess url kwargs response post,
    m s = (r, s') ->
    trace s' = trace s ++ pre ++ EvGet sess url kwargs (Ok response) :: post ->
    400 <= requests.status_code response < 600 ->
    raise_for_status response = Raise (HTTPError (requests.status_code response))
    /\ r = Raise (HTTPError (requests.status_code response))
    /\ post = [].

(** Two states that differ at most in the fields a stage is allowed to
    change. *)
Definition same_self (s s' : State) : Prop :=
  output_dir s' = output_dir s /\ http s' = http s.

Definition same_store (s s' : State) : Prop :=
  files s' = files s /\ dirs s' = dirs s.

Definition same_lists (s s' : State) : Prop :=
  penalty_pages s' = penalty_pages s /\ penalty_pdfs s' = penalty_pdfs s.

(** The directory of the PDFs. *)
Definition pdfs_dir (s : State) : string :=
  posixpath.join (output_dir s) ["pdfs"].

(** The links of the list page, expanded. *)
Definition list_page_links (root : lxml.root) : Result (list string) :=
  map_R (fun a => match attrib_get a "href" with
                  | Ok href => Ok (_expand_href href)
                  | Raise e => Raise e
                  end)
        (lxml.xpath root XPATH_LIST_PAGE_LINK).

(** What [parse_pdf_url_from_penalty_page] guarantees of a record. *)
Definition parsed_record (pdf : PDF.t) : Prop :=
  PDF.id pdf = _parse_id (PDF.url pdf)
  /\ PDF.type pdf = _parse_type (PDF.url pdf)
  /\ PDF.filename pdf = posixpath.basename (PDF.url pdf)
  /\ PDF.sha256 pdf = None.

(** [pdf'] is [pdf] after its download in the run whose new events are [t]:
    the body of the response to the GET of its URL was written to its file,
    and its digest is the [sha256] of [pdf']. *)
Definition downloaded_as (w : RequestsWrapper.t) (dir : string)
    (t : list Event) (pdf pdf' : PDF.t) : Prop :=
  exists response,
    pdf' = with_sha256 pdf (hashlib.sha256_hexdigest (requests.content response))
    /\ In (EvGet (RequestsWrapper.session w) (PDF.url pdf) [] (Ok response)) t
    /\ In (EvWrite (pdf_path dir pdf) (requests.content response)) t.

(** The document written to [metadata.json]. *)
Definition metadata_of (now : datetime.t) : json.value :=
  json.Obj [("last_updated", json.Str (datetime.isoformat now))].

(** The six stages of [run], in the order in which it calls them. *)
Definition stages (env : Env) (s : State) : list (M unit) :=
  [ (mkdir_p env (pdfs_dir s) ;; ret tt)%py;
    parse_list_page env;
    parse_pdf_urls_from_penalty_pages env;
    download_pdfs env;
    write_index_json env;
    write_metadata_json env ].

(** The methods of [l] are called one after the other, each in the state
    left by the one before, and all return. *)
Fixpoint runs_through (l : list (M unit)) (s s' : State) : Prop :=
  match l with
  | [] => s' = s
  | m :: l' => exists s1, m s = (Ok tt, s1) /\ runs_through l' s1 s'
  end.

(** The events of the three stages whose events are fixed. *)
Definition list_page_events (w : RequestsWrapper.t)
    (response : requests.Response) : list Event :=
  [ EvLog "INFO" LIST_URL;
    EvGet (RequestsWrapper.session w) LIST_URL [] (Ok response) ].

Definition index_events (path : string) (ordered : list PDF.t) : list Event :=
  [ EvOpen path "w" None; EvWrite path (json.dumps (index_of ordered)) ].

Definition metadata_events (path : string) (now : datetime.t) : list Event :=
  [ EvNow now; EvOpen path "w" None;
    EvWrite path (json.dumps (metadata_of now)) ].

(** A run that returns, stage by stage: the state each stage starts from
    is the one left by the stage before, what each stage reads of [self]
    is what the stage before has stored there, and the events of the run
    are those of the stages, in their order. *)
Inductive run_shape (env : Env) (s s' : State) : Prop :=
| RunShape (sa sb sc sd se : State)
    (response : requests.Response) (root : lxml.root)
    (pages : list string) (found downloaded ordered : list PDF.t)
    (now : datetime.t) (t0 t2 t3 : list Event)
    (* the output directory *)
    (mkdir_call : exists d, mkdir_p env (pdfs_dir s) s = (Ok d, sa))
    (mkdir_trace : trace sa = trace s ++ t0)
    (mkdir_gets : get_urls t0 = [])
    (* the list page *)
    (list_call : parse_list_page env sa = (Ok tt, sb))
    (list_trace : trace sb = trace sa ++ list_page_events (http s) response)
    (list_parsed : fromstring env (requests.text response) = Ok root)
    (list_links : list_page_links root = Ok pages)
    (list_out : penalty_pages sb = Some pages)
    (* the penalty pages *)
    (pages_call : parse_pdf_urls_from_penalty_pages env sb = (Ok tt, sc))
    (pages_trace : trace sc = trace sb ++ t2)
    (pages_gets : get_urls t2 = pages)
    (pages_out : penalty_pdfs sc = Some found)
    (pages_records : Forall parsed_record found)
    (* the downloads *)
    (download_call : download_pdfs env sc = (Ok tt, sd))
    (download_trace : trace sd = trace sc ++ t3)
    (download_gets : get_urls t3 = map PDF.url found)
    (download_each :
       Forall2 (downloaded_as (http s) (output_dir s) t3) found downloaded)
    (download_out : penalty_pdfs sd = Some downloaded)
    (* index.json *)
    (index_call : write_index_json env sd = (Ok tt, se))
    (index_sorted : builtins.sorted key downloaded = Ok ordered)
    (index_trace : trace se = trace sd ++ index_events (index_path s) ordered)
    (index_files :
       files se = <[index_path s := json.dumps (index_of ordered)]> (files sd))
    (* metadata.json *)
    (metadata_call : write_metadata_json env se = (Ok tt, s'))
    (metadata_trace :
       trace s' = trace se ++ metadata_events (metadata_path s) now)
    (metadata_files :
       files s' = <[metadata_path s := json.dumps (metadata_of now)]> (files se))
    (* what is left in [self] *)
    (final_self : same_self s s')
    (final_pages : penalty_pages s' = Some pages)
    (final_pdfs : penalty_pdfs s' = Some downloaded).





(** A date written as the pages write it, ['21 December 2017']: the day
    without a leading zero, the English name of the month, the year on
    four digits. *)
Definition month_name (m : Z) : string :=
  nth (Z.to_nat (m - 1))
    [ "January"; "February"; "March"; "April"; "May"; "June"; "July";
      "August"; "September"; "October"; "November"; "December" ]
    EmptyString.

Definition day_month_year (y m d : Z) : string :=
  (if d <? 10 then Py.str1 (Py.digit_char d) else Py.zero_pad 2 d)
  +:+ " " +:+ month_name m +:+ " " +:+ Py.zero_pad 4 y.

(** [p] holds of every number below [n]. *)
Fixpoint all_below (n : nat) (p : Z -> bool) : bool :=
  match n with
  | O => true
  | S k => p (Z.of_nat k) && all_below k p
  end.

(** The check, on one year, that the four digits of the year are read
    back by [%Y]. *)
Definition year_reads_back (y : Z) : bool :=
  match datetime.match_Y (Py.zero_pad 4 y) with
  | Some (y', EmptyString) => y' =? y
  | _ => false
  end.

(** ** Vocabulary of the further properties *)

Definition not_slash (c : ascii) : bool := negb (Ascii.eqb c Py.slash).

Fixpoint last_char (s : string) : option ascii :=
  match s with
  | EmptyString => None
  | String c EmptyString => Some c
  | String _ s' => last_char s'
  end.

(** No white space at either end. *)
Definition no_outer_space (t : string) : bool :=
  match t with
  | EmptyString => true
  | String c _ => negb (Py.is_space c)
  end
  && match last_char t with
     | None => true
     | Some c => negb (Py.is_space c)
     end.

(** A method keeps a relation between the state it starts in and the
    state it leaves, whatever its outcome. *)
Definition keeps {A} (R : State -> State -> Prop) (m : M A) : Prop :=
  forall s r s', m s = (r, s') -> R s s'.

(** Only the trace has changed. *)
Definition only_trace (s s' : State) : Prop :=
  same_self s s' /\ same_store s s' /\ same_lists s s'.

(** Only the trace and the files have changed. *)
Definition only_trace_and_files (s s' : State) : Prop :=
  same_self s s' /\ same_lists s s' /\ dirs s' = dirs s.



(** The events that follow those of [s] in [s']. *)
Definition new_events (s s' : State) (t : list Event) : Prop :=
  trace s' = trace s ++ t.

(** [pdf'] is [pdf] with some digest as its [sha256]. *)
Definition hashed_from (pdf pdf' : PDF.t) : Prop :=
  exists digest, pdf' = with_sha256 pdf digest.

(** A lower-case hexadecimal digit. *)
Definition is_hex (c : ascii) : bool :=
  Py.is_digit c || ((97 <=? Py.ord c) && (Py.ord c <=? 102)).





(** The files that differ between two states all satisfy [P]. *)
Definition changed_only (P : string -> Prop) (s s' : State) : Prop :=
  forall p, files s' !! p <> files s !! p -> P p.



(** The digest of the record is that of its file in the store of [s]. *)
Definition digest_of_file (s : State) (pdf : PDF.t) : Prop :=
  exists content,
    files s !! pdf_path (output_dir s) pdf = Some content
    /\ PDF.sha256 pdf = Some (hashlib.sha256_hexdigest content).




(** * Properties *)

Example basename_ex :
  posixpath.basename "https://ico.org.uk/media/action-weve-taken/mpns/2172999/x-mpn.pdf"
  = "x-mpn.pdf".
Proof. reflexivity. Qed.

Example join_ex : posixpath.join "out" ["pdfs"; "a.pdf"] = "out/pdfs/a.pdf".
Proof. reflexivity. Qed.

Example strip_ex : Py.strip "  21 December 2017 " = "21 December 2017".
Proof. reflexivity. Qed.

Example zero_pad_ex : Py.zero_pad 4 17 = "0017".
Proof. reflexivity. Qed.

Example int_ex : builtins.int (Some "2172999") = Ok 2172999
  /\ builtins.int (Some " -1_0 ") = Ok (-10)
  /\ builtins.int (Some "1__0") = Raise ValueError
  /\ builtins.int None = Raise TypeError.
Proof. repeat split; reflexivity. Qed.

Example sorted_ex :
  builtins.sorted (fun s => builtins.int (Some s)) ["10"; "9"; "010"; "1"]
  = Ok ["1"; "9"; "10"; "010"].
Proof. reflexivity. Qed.

Example search_id_ex :
  re.search_id "https://ico.org.uk/media/action-weve-taken/mpns/2172999/x-mpn.pdf"
  = Some "2172999"
  /\ re.search_id "https://ico.org.uk/media/action-weve-taken/mpns/x-mpn.pdf" = None
  /\ re.search_id "/12a/345/6/" = Some "345".
Proof. repeat split; reflexivity. Qed.

Example search_type_ex :
  re.search_type "https://ico.org.uk/media/action-weve-taken/mpns/2172999/x-mpn.pdf"
  = Some "mpns"
  /\ re.search_type "/action-weve-taken//x/y" = Some "/x"
  /\ re.search_type "/action-weve-taken/x" = None.
Proof. repeat split; reflexivity. Qed.

Example strptime_ex :
  datetime.strptime_d_B_Y "21 December 2017"
  = Ok (datetime.mk_datetime (datetime.mk_date 2017 12 21) 0 0 0 0)
  /\ datetime.strptime_d_B_Y "3  may 0800"
     = Ok (datetime.mk_datetime (datetime.mk_date 800 5 3) 0 0 0 0)
  /\ datetime.strptime_d_B_Y "31 April 2017" = Raise ValueError
  /\ datetime.strptime_d_B_Y "21 Dec 2017" = Raise ValueError
  /\ datetime.strptime_d_B_Y "21 December 2017." = Raise ValueError
  /\ datetime.strptime_d_B_Y "29 February 2016"
     = Ok (datetime.mk_datetime (datetime.mk_date 2016 2 29) 0 0 0 0)
  /\ datetime.strptime_d_B_Y "29 February 1900" = Raise ValueError.
Proof. repeat split; reflexivity. Qed.

Example isoformat_ex :
  datetime.isoformat (datetime.mk_datetime (datetime.mk_date 2018 1 9) 7 5 0 120)
  = "2018-01-09T07:05:00.000120"
  /\ datetime.isoformat (datetime.mk_datetime (datetime.mk_date 2018 1 9) 7 5 0 0)
  = "2018-01-09T07:05:00".
Proof. repeat split; reflexivity. Qed.

Example dumps_ex :
  json.dumps (json.Obj [("pdfs", json.Arr [json.Obj [("id", json.Str "7"); ("type", json.Null)]; json.Arr []])])
  = "{" +:+ Py.str1 Py.newline
    +:+ "    " +:+ json.encode_str "pdfs" +:+ ": [" +:+ Py.str1 Py.newline
    +:+ "        {" +:+ Py.str1 Py.newline
    +:+ "            " +:+ json.encode_str "id" +:+ ": " +:+ json.encode_str "7" +:+ "," +:+ Py.str1 Py.newline
    +:+ "            " +:+ json.encode_str "type" +:+ ": null" +:+ Py.str1 Py.newline
    +:+ "        }," +:+ Py.str1 Py.newline
    +:+ "        []" +:+ Py.str1 Py.newline
    +:+ "    ]" +:+ Py.str1 Py.newline
    +:+ "}".
Proof. reflexivity. Qed.

Example escape_ex :
  json.escape (String Py.quote (String (Py.chr 233) (String (Py.chr 127) "a/b")))
  = String Py.backslash (String Py.quote
      (String Py.backslash ("u00e9" +:+ String Py.backslash "u007fa/b"))).
Proof. reflexivity. Qed.

Example sha256_ex :
  hashlib.sha256_hexdigest "abc"
  = "ba7816bf8f01cfea414140de5dae2223b00361a396177a9cb410ff61f20015ad"
  /\ hashlib.sha256_hexdigest EmptyString
  = "e3b0c44298fc1c149afbf4c8996fb92427ae41e4649b934ca495991b7852b855"
  /\ hashlib.sha256_hexdigest "aaaaaaaaaaaaaaaaaaaaaaaaaaaaaaaaaaaaaaaaaaaaaaaaaaaaaaaaaaaaaaaaaaaaaa"
  = "6bd5e5034855a11241f0dee8fc72850ffd9955b28347a86428b5fa19119f6ad0".
Proof. split; [|split]; vm_compute; reflexivity. Qed.

(** ** Reasoning about methods *)

Local Open Scope py_scope.

Lemma bind_Ok_inv {A B} (m : M A) (f : A -> M B) s b s' :
  bind m f s = (Ok b, s') ->
  exists a s1, m s = (Ok a, s1) /\ f a s1 = (Ok b, s').
Proof.
  unfold bind. destruct (m s) as [[a|e] s1]; intros H.
  - eauto.
  - discriminate.
Qed.

Lemma bind_inv {A B} (m : M A) (f : A -> M B) s r s' :
  bind m f s = (r, s') ->
  (exists a s1, m s = (Ok a, s1) /\ f a s1 = (r, s'))
  \/ (exists e, m s = (Raise e, s') /\ r = Raise e).
Proof.
  unfold bind. destruct (m s) as [[a|e] s1]; intros H.
  - left. eauto.
  - right. inversion H; subst. eauto.
Qed.

Lemma bind_Ok {A B} (m : M A) (f : A -> M B) s a s1 :
  m s = (Ok a, s1) -> bind m f s = f a s1.
Proof. unfold bind. intros ->. reflexivity. Qed.

Lemma bind_Raise {A B} (m : M A) (f : A -> M B) s e s1 :
  m s = (Raise e, s1) -> bind m f s = (Raise e, s1).
Proof. unfold bind. intros ->. reflexivity. Qed.

Lemma lift_inv {A} (x : Result A) s r s' :
  lift x s = (r, s') -> r = x /\ s' = s.
Proof. unfold lift. intros H. inversion H. auto. Qed.

Lemma map_M_app {A B} (f : A -> M B) (l1 l2 : list A) s ys s1 :
  map_M f l1 s = (Ok ys, s1) ->
  map_M f (l1 ++ l2) s
  = bind (map_M f l2) (fun zs => ret (ys ++ zs)) s1.
Proof.
  revert s ys. induction l1 as [|x l1 IH]; intros s ys H.
  - inversion H; subst. simpl. unfold bind, ret.
    destruct (map_M f l2 s1) as [[zs|e] s2]; reflexivity.
  - simpl in H.
    apply bind_Ok_inv in H as (y & s2 & Hy & H).
    apply bind_Ok_inv in H as (ys' & s3 & Hys & H).
    inversion H; subst.
    simpl. rewrite (bind_Ok _ _ _ _ _ Hy).
    unfold bind at 1. rewrite (IH _ _ Hys).
    unfold bind, ret.
    destruct (map_M f l2 s1) as [[zs|e] s2']; reflexivity.
Qed.

Lemma map_M_length {A B} (f : A -> M B) (l : list A) s ys s1 :
  map_M f l s = (Ok ys, s1) -> length ys = length l.
Proof.
  revert s ys. induction l as [|x l IH]; intros s ys H; simpl in H.
  - inversion H. reflexivity.
  - apply bind_Ok_inv in H as (y & s2 & Hy & H).
    apply bind_Ok_inv in H as (ys' & s3 & Hys & H).
    inversion H; subst. simpl. f_equal. eauto.
Qed.

(** ** Strings *)

Lemma sapp_nil_l (b : string) : EmptyString +:+ b = b.
Proof. reflexivity. Qed.

Lemma sapp_cons (c : ascii) (a b : string) :
  String c a +:+ b = String c (a +:+ b).
Proof. reflexivity. Qed.

(** [String.append] is never unfolded by [simpl]; its two equations are
    used as rewrite rules. *)
Ltac sapp := repeat (rewrite sapp_cons in * || rewrite sapp_nil_l in * ).

Lemma sapp_assoc (a b c : string) : (a +:+ b) +:+ c = a +:+ (b +:+ c).
Proof. induction a as [|x a IH]; sapp; [reflexivity | f_equal; exact IH]. Qed.

Lemma sapp_nil_r (a : string) : a +:+ EmptyString = a.
Proof. induction a as [|x a IH]; sapp; [reflexivity | f_equal; exact IH]. Qed.

Lemma sapp_length (a b : string) :
  String.length (a +:+ b) = (String.length a + String.length b)%nat.
Proof.
  induction a as [|x a IH]; sapp; simpl; [reflexivity | f_equal; exact IH].
Qed.

Lemma strip_prefix_Some (p s r : string) :
  Py.strip_prefix p s = Some r <-> s = p +:+ r.
Proof.
  revert s. induction p as [|a p IH]; intros s; simpl.
  - split; [intros [= ->] | intros ->]; reflexivity.
  - destruct s as [|b s].
    + split; discriminate.
    + destruct (Ascii.eqb_spec a b) as [->|Hne].
      * rewrite IH. split; [intros -> | intros [= ->]]; reflexivity.
      * split; [discriminate | intros [= E _]; congruence].
Qed.

(** [re.search] returns the match at the leftmost position that has one. *)
Lemma search_Some {A} (matcher : string -> option A) (s : string) (m : A) :
  re.search matcher s = Some m ->
  exists pre suf,
    s = pre +:+ suf /\ matcher suf = Some m
    /\ forall pre' suf', s = pre' +:+ suf' ->
         (String.length pre' < String.length pre)%nat -> matcher suf' = None.
Proof.
  induction s as [|c s IH]; simpl.
  - destruct (matcher EmptyString) eqn:E; [|discriminate].
    intros [= ->]. exists EmptyString, EmptyString. repeat split; auto.
    intros pre' suf' _ Hlt. simpl in Hlt. lia.
  - destruct (matcher (String c s)) eqn:E.
    + intros [= ->]. exists EmptyString, (String c s). repeat split; auto.
      intros pre' suf' _ Hlt. simpl in Hlt. lia.
    + intros H. destruct (IH H) as (pre & suf & -> & Hm & Hleft).
      exists (String c pre), suf. repeat split; auto.
      intros pre' suf' Heq Hlt. destruct pre' as [|c' pre'].
      * rewrite sapp_nil_l in Heq. subst suf'. exact E.
      * rewrite !sapp_cons in Heq. injection Heq as -> Heq. simpl in Hlt.
        apply (Hleft pre' suf' Heq). lia.
Qed.

Lemma search_None {A} (matcher : string -> option A) (s : string) :
  re.search matcher s = None <->
  forall pre suf, s = pre +:+ suf -> matcher suf = None.
Proof.
  induction s as [|c s IH]; simpl.
  - destruct (matcher EmptyString) eqn:E.
    + split; [discriminate|]. intros H.
      rewrite (H EmptyString EmptyString eq_refl) in E. discriminate.
    + split; [|reflexivity]. intros _ pre suf Heq.
      destruct pre; [|discriminate]. rewrite sapp_nil_l in Heq. now subst.
  - destruct (matcher (String c s)) eqn:E.
    + split; [discriminate|]. intros H.
      rewrite (H EmptyString (String c s) eq_refl) in E. discriminate.
    + rewrite IH. split.
      * intros H pre suf Heq. destruct pre as [|c' pre].
        -- rewrite sapp_nil_l in Heq. now subst.
        -- rewrite sapp_cons in Heq. injection Heq as -> Heq. eauto.
      * intros H pre suf Heq. apply (H (String c pre) suf).
        rewrite sapp_cons. now rewrite Heq.
Qed.

Lemma all_chars_app (p : ascii -> bool) (a b : string) :
  Py.all_chars p (a +:+ b) = Py.all_chars p a && Py.all_chars p b.
Proof.
  induction a as [|x a IH]; [reflexivity|].
  rewrite sapp_cons. simpl. rewrite IH. now rewrite andb_assoc.
Qed.

(** The lazy group followed by a slash: what it returns is a slug that
    stands at the front, before a slash. *)
Lemma lazy_dots_then_slash_Some (s g : string) :
  re.lazy_dots_then_slash s = Some g ->
  is_slug g = true /\ exists rest, s = g +:+ "/" +:+ rest.
Proof.
  revert g. induction s as [|c s IH]; intros g; simpl; [discriminate|].
  destruct (Ascii.eqb c Py.newline) eqn:Enl; [discriminate|].
  destruct s as [|c' s']; [discriminate|].
  destruct (Ascii.eqb_spec c' Py.slash) as [->|Hns].
  - intros [= <-]. simpl. rewrite Enl. split; [reflexivity|].
    exists s'. reflexivity.
  - destruct (re.lazy_dots_then_slash (String c' s')) as [g'|] eqn:E;
      [|discriminate].
    intros [= <-]. destruct (IH g' eq_refl) as (Hslug & rest & Heq).
    split.
    + simpl. rewrite Enl. simpl.
      destruct g' as [|x g']; [discriminate|].
      rewrite sapp_cons in Heq. injection Heq as <- _.
      simpl in Hslug. apply andb_true_iff in Hslug as [Hx Hg'].
      simpl. rewrite Hx, Hg'. simpl.
      apply Ascii.eqb_neq in Hns. now rewrite Hns.
    + exists rest. rewrite sapp_cons. now rewrite Heq.
Qed.

(** It finds a group whenever the front of the string is a non-empty run
    without a newline followed by a slash. *)
Lemma lazy_dots_then_slash_complete (g rest : string) :
  g <> EmptyString -> no_newline g = true ->
  re.lazy_dots_then_slash (g +:+ "/" +:+ rest) <> None.
Proof.
  induction g as [|c g IH]; intros Hne Hnl; [congruence|].
  unfold no_newline in Hnl. simpl in Hnl.
  apply andb_true_iff in Hnl as [Hc Hg].
  apply negb_true_iff in Hc. rewrite sapp_cons. simpl. rewrite Hc.
  destruct g as [|c' g'].
  - rewrite sapp_nil_l, sapp_cons. simpl. discriminate.
  - specialize (IH ltac:(discriminate) Hg).
    rewrite sapp_cons in *.
    destruct (Ascii.eqb c' Py.slash); [discriminate|].
    destruct (re.lazy_dots_then_slash (String c' (g' +:+ "/" +:+ rest)));
      [discriminate | congruence].
Qed.

Lemma assoc_type_table (slug t : string) :
  assoc slug
    [ ("enforcement-notices", "enforcement-notice");
      ("mpns", "monetary-penalty");
      ("undertakings", "undertaking") ] = Some t
  <-> type_of_slug slug t.
Proof.
  unfold type_of_slug. simpl.
  destruct (String.eqb_spec slug "enforcement-notices") as [->|H1].
  { split; [intros [= <-]; auto|].
    intros [[_ ->]|[[? _]|[? _]]]; [reflexivity|discriminate..]. }
  destruct (String.eqb_spec slug "mpns") as [->|H2].
  { split; [intros [= <-]; auto|].
    intros [[? _]|[[_ ->]|[? _]]]; [discriminate|reflexivity|discriminate]. }
  destruct (String.eqb_spec slug "undertakings") as [->|H3].
  { split; [intros [= <-]; auto|].
    intros [[? _]|[[? _]|[_ ->]]]; [discriminate..|reflexivity]. }
  split; [discriminate|]. intros [[? _]|[[? _]|[? _]]]; congruence.
Qed.

(** C6.  [_parse_type] searches the URL for the leftmost
    [/action-weve-taken/<slug>/], where the slug is the shortest non-empty
    run of characters up to the next slash, and maps exactly the three
    slugs of its table; every other slug, and a URL in which the pattern
    does not occur, give [None]. *)
Theorem parse_type_three_slugs (pdf_url : string) :
  (forall t, _parse_type pdf_url = Some t <->
     exists slug, re.search_type pdf_url = Some slug /\ type_of_slug slug t)
  /\ (forall slug, re.search_type pdf_url = Some slug ->
        is_slug slug = true
        /\ exists pre post,
             pdf_url = pre +:+ "/action-weve-taken/" +:+ slug +:+ "/" +:+ post
             /\ forall pre' suf', pdf_url = pre' +:+ suf' ->
                  (String.length pre' < String.length pre)%nat ->
                  re.match_type suf' = None)
  /\ (re.search_type pdf_url = None <->
      ~ exists pre g post,
          pdf_url = pre +:+ "/action-weve-taken/" +:+ g +:+ "/" +:+ post
          /\ g <> EmptyString /\ no_newline g = true)
  /\ (re.search_type pdf_url = None -> _parse_type pdf_url = None).
Proof.
  repeat split.
  - unfold _parse_type. destruct (re.search_type pdf_url) as [slug|];
      [|discriminate].
    intros H. exists slug. split; [reflexivity|]. now apply assoc_type_table.
  - intros (slug & Hs & Ht). unfold _parse_type. rewrite Hs.
    now apply assoc_type_table.
  - apply search_Some in H as (pre & suf & _ & Hm & _).
    unfold re.match_type in Hm.
    destruct (Py.strip_prefix "/action-weve-taken/" suf); [|discriminate].
    now apply lazy_dots_then_slash_Some in Hm.
  - apply search_Some in H as (pre & suf & -> & Hm & Hleft).
    unfold re.match_type in Hm.
    destruct (Py.strip_prefix "/action-weve-taken/" suf) as [r|] eqn:Ep;
      [|discriminate].
    apply strip_prefix_Some in Ep. subst suf.
    apply lazy_dots_then_slash_Some in Hm as (_ & post & ->).
    exists pre, post. split; [reflexivity | exact Hleft].
  - intros Hnone (pre & g & post & Heq & Hne & Hnl).
    unfold re.search_type in Hnone.
    rewrite search_None in Hnone.
    specialize (Hnone pre _ Heq). unfold re.match_type in Hnone.
    assert (Hp : Py.strip_prefix "/action-weve-taken/"
                   ("/action-weve-taken/" +:+ g +:+ "/" +:+ post)
                 = Some (g +:+ "/" +:+ post))
      by now apply strip_prefix_Some.
    rewrite Hp in Hnone.
    now apply (lazy_dots_then_slash_complete g post).
  - intros Hno. destruct (re.search_type pdf_url) as [slug|] eqn:E;
      [|reflexivity].
    exfalso. apply Hno.
    apply search_Some in E as (pre & suf & -> & Hm & _).
    unfold re.match_type in Hm.
    destruct (Py.strip_prefix "/action-weve-taken/" suf) as [r|] eqn:Ep;
      [|discriminate].
    apply strip_prefix_Some in Ep. subst suf.
    apply lazy_dots_then_slash_Some in Hm as (Hslug & post & ->).
    exists pre, slug, post. split; [reflexivity|].
    destruct slug as [|c g']; [discriminate|]. split; [discriminate|].
    unfold no_newline. simpl in *.
    apply andb_true_iff in Hslug as [-> Hg']. simpl.
    clear -Hg'. induction g' as [|x g' IH]; simpl in *; [reflexivity|].
    apply andb_true_iff in Hg' as [Hx Hg'].
    apply andb_true_iff in Hx as [-> _]. simpl. auto.
  - intros H. unfold _parse_type. now rewrite H.
Qed.

(** ** Dates *)

Lemma zero_pad_length (k : nat) (n : Z) : String.length (Py.zero_pad k n) = k.
Proof.
  revert n. induction k as [|k IH]; intros n; simpl; [reflexivity|].
  rewrite sapp_length, IH. simpl. lia.
Qed.

Lemma digit_char_is_digit (n : Z) :
  0 <= n < 10 -> Py.is_digit (Py.digit_char n) = true.
Proof.
  intros H. rewrite <- (Z2Nat.id n) by lia.
  assert (Hk : (Z.to_nat n < 10)%nat) by lia.
  revert Hk. generalize (Z.to_nat n) as k. intros k Hk.
  do 10 (destruct k as [|k]; [reflexivity|]). lia.
Qed.

Lemma zero_pad_digits (k : nat) (n : Z) :
  Py.all_chars Py.is_digit (Py.zero_pad k n) = true.
Proof.
  revert n. induction k as [|k IH]; intros n; simpl; [reflexivity|].
  rewrite all_chars_app, IH. simpl.
  rewrite digit_char_is_digit; [reflexivity|].
  apply Z.mod_pos_bound. lia.
Qed.

Lemma date_isoformat_shape (d : datetime.date) :
  iso_8601_date (datetime.date_isoformat d).
Proof.
  exists (Py.zero_pad 4 (datetime.year d)), (Py.zero_pad 2 (datetime.month d)),
    (Py.zero_pad 2 (datetime.day d)).
  unfold datetime.date_isoformat.
  repeat split; auto using zero_pad_length, zero_pad_digits.
Qed.


(** ** The state and the primitives *)

Lemma trace_add_event ev s : trace (add_event ev s) = trace s ++ [ev].
Proof. reflexivity. Qed.
Lemma files_add_event ev s : files (add_event ev s) = files s.
Proof. reflexivity. Qed.
Lemma http_add_event ev s : http (add_event ev s) = http s.
Proof. reflexivity. Qed.
Lemma output_dir_add_event ev s : output_dir (add_event ev s) = output_dir s.
Proof. reflexivity. Qed.
Lemma penalty_pages_add_event ev s :
  penalty_pages (add_event ev s) = penalty_pages s.
Proof. reflexivity. Qed.
Lemma penalty_pdfs_add_event ev s :
  penalty_pdfs (add_event ev s) = penalty_pdfs s.
Proof. reflexivity. Qed.
Lemma dirs_add_event ev s : dirs (add_event ev s) = dirs s.
Proof. reflexivity. Qed.

Lemma trace_set_files v s : trace (set_files v s) = trace s.
Proof. reflexivity. Qed.
Lemma files_set_files v s : files (set_files v s) = v.
Proof. reflexivity. Qed.
Lemma http_set_files v s : http (set_files v s) = http s.
Proof. reflexivity. Qed.
Lemma output_dir_set_files v s : output_dir (set_files v s) = output_dir s.
Proof. reflexivity. Qed.
Lemma penalty_pages_set_files v s :
  penalty_pages (set_files v s) = penalty_pages s.
Proof. reflexivity. Qed.
Lemma penalty_pdfs_set_files v s :
  penalty_pdfs (set_files v s) = penalty_pdfs s.
Proof. reflexivity. Qed.
Lemma dirs_set_files v s : dirs (set_files v s) = dirs s.
Proof. reflexivity. Qed.

Lemma trace_set_dirs v s : trace (set_dirs v s) = trace s.
Proof. reflexivity. Qed.
Lemma files_set_dirs v s : files (set_dirs v s) = files s.
Proof. reflexivity. Qed.
Lemma http_set_dirs v s : http (set_dirs v s) = http s.
Proof. reflexivity. Qed.
Lemma output_dir_set_dirs v s : output_dir (set_dirs v s) = output_dir s.
Proof. reflexivity. Qed.
Lemma penalty_pages_set_dirs v s :
  penalty_pages (set_dirs v s) = penalty_pages s.
Proof. reflexivity. Qed.
Lemma penalty_pdfs_set_dirs v s :
  penalty_pdfs (set_dirs v s) = penalty_pdfs s.
Proof. reflexivity. Qed.

Lemma trace_set_penalty_pages v s : trace (set_penalty_pages v s) = trace s.
Proof. reflexivity. Qed.
Lemma files_set_penalty_pages v s : files (set_penalty_pages v s) = files s.
Proof. reflexivity. Qed.
Lemma http_set_penalty_pages v s : http (set_penalty_pages v s) = http s.
Proof. reflexivity. Qed.
Lemma output_dir_set_penalty_pages v s :
  output_dir (set_penalty_pages v s) = output_dir s.
Proof. reflexivity. Qed.
Lemma penalty_pages_set_penalty_pages v s :
  penalty_pages (set_penalty_pages v s) = v.
Proof. reflexivity. Qed.
Lemma penalty_pdfs_set_penalty_pages v s :
  penalty_pdfs (set_penalty_pages v s) = penalty_pdfs s.
Proof. reflexivity. Qed.

Lemma trace_set_penalty_pdfs v s : trace (set_penalty_pdfs v s) = trace s.
Proof. reflexivity. Qed.
Lemma files_set_penalty_pdfs v s : files (set_penalty_pdfs v s) = files s.
Proof. reflexivity. Qed.
Lemma http_set_penalty_pdfs v s : http (set_penalty_pdfs v s) = http s.
Proof. reflexivity. Qed.
Lemma output_dir_set_penalty_pdfs v s :
  output_dir (set_penalty_pdfs v s) = output_dir s.
Proof. reflexivity. Qed.
Lemma penalty_pages_set_penalty_pdfs v s :
  penalty_pages (set_penalty_pdfs v s) = penalty_pages s.
Proof. reflexivity. Qed.
Lemma penalty_pdfs_set_penalty_pdfs v s :
  penalty_pdfs (set_penalty_pdfs v s) = v.
Proof. reflexivity. Qed.

Create Rewrite HintDb state.
#[local] Hint Rewrite
  trace_add_event files_add_event http_add_event output_dir_add_event
  penalty_pages_add_event penalty_pdfs_add_event dirs_add_event
  trace_set_files files_set_files http_set_files output_dir_set_files
  penalty_pages_set_files penalty_pdfs_set_files dirs_set_files
  trace_set_dirs files_set_dirs http_set_dirs output_dir_set_dirs
  penalty_pages_set_dirs penalty_pdfs_set_dirs
  trace_set_penalty_pages files_set_penalty_pages http_set_penalty_pages
  output_dir_set_penalty_pages penalty_pages_set_penalty_pages
  penalty_pdfs_set_penalty_pages
  trace_set_penalty_pdfs files_set_penalty_pdfs http_set_penalty_pdfs
  output_dir_set_penalty_pdfs penalty_pages_set_penalty_pdfs
  penalty_pdfs_set_penalty_pdfs : state.

Lemma logging_info_eq msg s :
  logging_info msg s = (Ok tt, add_event (EvLog "INFO" msg) s).
Proof. reflexivity. Qed.

Lemma logging_warn_eq msg s :
  logging_warn msg s = (Ok tt, add_event (EvLog "WARNING" msg) s).
Proof. reflexivity. Qed.

Lemma get_state_eq s : get_state s = (Ok s, s).
Proof. reflexivity. Qed.

Lemma modify_eq f s : modify f s = (Ok tt, f s).
Proof. reflexivity. Qed.

Lemma ret_eq {A} (a : A) s : ret a s = (Ok a, s).
Proof. reflexivity. Qed.

Lemma raise_eq {A} e s : @raise A e s = (Raise e, s).
Proof. reflexivity. Qed.

Lemma lift_eq {A} (r : Result A) s : lift r s = (r, s).
Proof. reflexivity. Qed.

Lemma RequestsWrapper_get_eq env w url kwargs s :
  RequestsWrapper_get env w url kwargs s
  = (session_get env (trace s) (RequestsWrapper.session w) url kwargs,
     add_event (EvGet (RequestsWrapper.session w) url kwargs
                  (session_get env (trace s) (RequestsWrapper.session w) url kwargs))
       s).
Proof. reflexivity. Qed.

Lemma open_for_writing_eq env path mode s :
  open_for_writing env path mode s
  = match open_error env (trace s) path mode with
    | Some e => (Raise e, add_event (EvOpen path mode (Some e)) s)
    | None =>
        (Ok tt, set_files (<[path := EmptyString]> (files s))
                  (add_event (EvOpen path mode None) s))
    end.
Proof.
  unfold open_for_writing. destruct (open_error env (trace s) path mode);
    reflexivity.
Qed.

Lemma f_write_eq path data s :
  f_write path data s
  = (Ok tt, add_event (EvWrite path data)
              (set_files (<[path := default EmptyString (files s !! path) +:+ data]>
                            (files s)) s)).
Proof. reflexivity. Qed.

Lemma read_binary_eq env path s :
  read_binary env path s
  = match open_error env (trace s) path "rb" with
    | Some e => (Raise e, add_event (EvOpen path "rb" (Some e)) s)
    | None =>
        match files s !! path with
        | Some buf => (Ok buf, add_event (EvOpen path "rb" None) s)
        | None =>
            (Raise (OSError path),
             add_event (EvOpen path "rb" (Some (OSError path))) s)
        end
    end.
Proof.
  unfold read_binary. destruct (open_error env (trace s) path "rb");
    [reflexivity|]. destruct (files s !! path); reflexivity.
Qed.

(** One step of a method: the first action of a [bind] is replaced by its
    outcome. *)
Tactic Notation "step" uconstr(eqn) :=
  unfold bind at 1; rewrite eqn; cbv beta iota zeta.

(** ** Downloading *)

Lemma of_kwargs_update_sha256 (pdf : PDF.t) (digest : string) :
  PDF.of_kwargs (dict_update (PDF._asdict pdf) "sha256" (Some digest))
  = Ok (with_sha256 pdf digest).
Proof. destruct pdf. reflexivity. Qed.

(** Every way [download_and_add_sha] can go, from the first thing that
    fails. *)
Lemma download_and_add_sha_unfold (env : Env) (pdf : PDF.t) (s : State) :
  let path := pdf_path (output_dir s) pdf in
  let sess := RequestsWrapper.session (http s) in
  let t1 := trace s ++ [EvLog "INFO" ("Downloading " +:+ PDF.url pdf)] in
  let err := open_error env t1 path "wb" in
  let t2 := t1 ++ [EvOpen path "wb" err] in
  let r := session_get env t2 sess (PDF.url pdf) [] in
  let t3 := t2 ++ [EvGet sess (PDF.url pdf) [] r] in
  exists s',
  download_and_add_sha env pdf s = 
  (match err with
  | Some e => Raise e
  | None =>
      match r with
      | Raise e => Raise e
      | Ok response =>
          match raise_for_status response with
          | Raise e => Raise e
          | Ok _ =>
              let data := requests.content response in
              let t4 := t3 ++ [EvWrite path data] in
              match open_error env t4 path "rb" with
              | Some e => Raise e
              | None =>
                  Ok (with_sha256 pdf (hashlib.sha256_hexdigest data))
              end
          end
      end
  end, s')
  /\ output_dir s' = output_dir s /\ http s' = http s
  /\ penalty_pages s' = penalty_pages s /\ penalty_pdfs s' = penalty_pdfs s
  /\ dirs s' = dirs s
  /\ match err with
     | Some e => trace s' = t2 /\ files s' = files s
     | None =>
         match r with
         | Raise e => trace s' = t3 /\ files s' = <[path := EmptyString]> (files s)
         | Ok response =>
             match raise_for_status response with
             | Raise e =>
                 trace s' = t3 /\ files s' = <[path := EmptyString]> (files s)
             | Ok _ =>
                 let data := requests.content response in
                 let t4 := t3 ++ [EvWrite path data] in
                 trace s' = t4 ++ [EvOpen path "rb" (open_error env t4 path "rb")]
                 /\ files s' = <[path := data]> (files s)
             end
         end
     end.
Proof.
  cbv zeta. unfold download_and_add_sha, pdf_path.
  step logging_info_eq. step get_state_eq.
  step open_for_writing_eq. autorewrite with state.
  destruct (open_error env _ _ "wb") as [e|].
  { eexists. split; [reflexivity|]. autorewrite with state. auto 10. }
  step RequestsWrapper_get_eq. autorewrite with state.
  destruct (session_get env _ _ _ _) as [response|e].
  2:{ eexists. split; [reflexivity|]. autorewrite with state. auto 10. }
  step lift_eq.
  destruct (raise_for_status response) as [[]|e].
  2:{ eexists. split; [reflexivity|]. autorewrite with state. auto 10. }
  step f_write_eq. autorewrite with state.
  rewrite lookup_insert_eq. cbn [default]. rewrite sapp_nil_l.
  rewrite insert_insert_eq.
  unfold sha256.
  unfold bind at 1. step read_binary_eq. autorewrite with state.
  rewrite lookup_insert_eq.
  destruct (open_error env _ _ "rb") as [e|].
  { unfold bind. eexists. split; [reflexivity|]. autorewrite with state. auto 10. }
  cbv beta iota zeta. rewrite ret_eq.
  unfold bind. rewrite of_kwargs_update_sha256, lift_eq.
  eexists. split; [reflexivity|]. autorewrite with state. auto 10.
Qed.

(** C10.  The record returned by [download_and_add_sha] is its argument
    with [sha256] replaced by the digest of the file just written, which
    holds the body of the response; the other six fields are unchanged. *)
Theorem download_and_add_sha_frame (env : Env) (pdf pdf' : PDF.t) (s s' : State) :
  download_and_add_sha env pdf s = (Ok pdf', s') ->
  PDF.id pdf' = PDF.id pdf /\ PDF.url pdf' = PDF.url pdf
  /\ PDF.type pdf' = PDF.type pdf /\ PDF.date pdf' = PDF.date pdf
  /\ PDF.title pdf' = PDF.title pdf /\ PDF.filename pdf' = PDF.filename pdf
  /\ exists response,
       In (EvGet (RequestsWrapper.session (http s)) (PDF.url pdf) [] (Ok response))
          (trace s')
       /\ files s' !! pdf_path (output_dir s) pdf
          = Some (requests.content response)
       /\ PDF.sha256 pdf'
          = Some (hashlib.sha256_hexdigest (requests.content response)).
Proof.
  intros H.
  destruct (download_and_add_sha_unfold env pdf s)
    as (s0 & Heq & _ & _ & _ & _ & _ & Hst).
  cbv zeta in Heq, Hst. rewrite H in Heq.
  destruct (open_error env _ _ "wb") as [e|]; [discriminate|].
  destruct (session_get env _ _ _ _) as [response|e]; [|discriminate].
  destruct (raise_for_status response) as [[]|e]; [|discriminate].
  destruct (open_error env _ _ "rb") as [e|]; [discriminate|].
  injection Heq as -> ->. destruct Hst as [Ht Hf].
  repeat split; try reflexivity.
  exists response. rewrite Ht, Hf. repeat split.
  - rewrite !in_app_iff. left. left. right. simpl. auto.
  - apply lookup_insert_eq.
Qed.

(** C9.  When [download_and_add_sha] ends with a GET that fails (the
    session raises, or the status is an error), the exception propagates,
    the file was opened for writing just before the GET, and it is left
    empty in the file store: the store has changed unless the file was
    already there and empty. *)
Theorem download_not_atomic (env : Env) (pdf : PDF.t) (s s' : State)
    (r : Result PDF.t) (t : list Event) (ev : Event) (e : Exn) :
  download_and_add_sha env pdf s = (r, s') ->
  trace s' = t ++ [ev] ->
  failure_of ev = Some e ->
  let path := pdf_path (output_dir s) pdf in
  r = Raise e
  /\ (exists answer,
        ev = EvGet (RequestsWrapper.session (http s)) (PDF.url pdf) [] answer
        /\ t = trace s ++ [EvLog "INFO" ("Downloading " +:+ PDF.url pdf);
                           EvOpen path "wb" None])
  /\ files s' = <[path := EmptyString]> (files s)
  /\ files s' !! path = Some EmptyString
  /\ (files s !! path <> Some EmptyString -> files s' <> files s).
Proof.
  intros H Ht Hfail path.
  destruct (download_and_add_sha_unfold env pdf s)
    as (s0 & Heq & _ & _ & _ & _ & _ & Hst).
  cbv zeta in Heq, Hst. rewrite H in Heq. fold path in Heq, Hst.
  assert (Hfiles : forall s1 : State,
            files s1 = <[path := EmptyString]> (files s) ->
            files s1 = <[path := EmptyString]> (files s)
            /\ files s1 !! path = Some EmptyString
            /\ (files s !! path <> Some EmptyString -> files s1 <> files s)).
  { intros s1 E. split; [exact E|]. split.
    - rewrite E. apply lookup_insert_eq.
    - intros Hne Heq'. apply Hne. rewrite <- Heq', E. apply lookup_insert_eq. }
  destruct (open_error env _ path "wb") as [e0|].
  { injection Heq as -> <-. destruct Hst as [Ht' _]. rewrite Ht in Ht'.
    apply app_inj_tail in Ht' as [_ ->]. discriminate. }
  destruct (session_get env _ _ _ _) as [response|e0] eqn:Eget.
  2:{ injection Heq as -> <-. destruct Hst as [Ht' Hf]. rewrite Ht in Ht'.
      apply app_inj_tail in Ht' as [-> ->]. simpl in Hfail.
      injection Hfail as ->. split; [reflexivity|]. split.
      - eexists. split; [reflexivity|]. now rewrite <- app_assoc.
      - now apply Hfiles. }
  destruct (raise_for_status response) as [[]|e0] eqn:Erfs.
  2:{ injection Heq as -> <-. destruct Hst as [Ht' Hf]. rewrite Ht in Ht'.
      apply app_inj_tail in Ht' as [-> ->]. simpl in Hfail.
      rewrite Erfs in Hfail.
      injection Hfail as ->. split; [reflexivity|]. split.
      - eexists. split; [reflexivity|]. now rewrite <- app_assoc.
      - now apply Hfiles. }
  injection Heq as _ <-. destruct Hst as [Ht' _]. rewrite Ht in Ht'.
  apply app_inj_tail in Ht' as [_ ->]. discriminate.
Qed.

(** ** Penalty pages *)

Lemma _get_as_lxml_unfold (env : Env) (url : string) (s : State) :
  let sess := RequestsWrapper.session (http s) in
  let t1 := trace s ++ [EvLog "INFO" url] in
  let r := session_get env t1 sess url [] in
  _get_as_lxml env url s
  = (match r with
     | Raise e => Raise e
     | Ok response =>
         match raise_for_status response with
         | Raise e => Raise e
         | Ok _ =>
             if requests.status_code response =? 301
             then Raise (RuntimeError (Headers (requests.headers response)))
             else fromstring env (requests.text response)
         end
     end,
     add_event (EvGet sess url [] r) (add_event (EvLog "INFO" url) s)).
Proof.
  cbv zeta. unfold _get_as_lxml.
  step logging_info_eq. step get_state_eq.
  step RequestsWrapper_get_eq. autorewrite with state.
  destruct (session_get env _ _ _ _) as [response|e]; [|reflexivity].
  step lift_eq.
  destruct (raise_for_status response) as [[]|e]; [|reflexivity].
  destruct (requests.status_code response =? 301); reflexivity.
Qed.

Lemma parse_page_unfold (env : Env) (url : string) (s s1 : State)
    (r : Result lxml.root) :
  _get_as_lxml env url s = (r, s1) ->
  parse_pdf_url_from_penalty_page env url s
  = match r with
    | Raise e => (Raise e, s1)
    | Ok root =>
        match lxml.xpath root XPATH_PDF_LINK with
        | [] => (Ok None, add_event (EvLog "WARNING" ("No PDF on page " +:+ url)) s1)
        | [a] =>
            match attrib_get a "href" with
            | Raise e => (Raise e, s1)
            | Ok href =>
                match _parse_date root with
                | Raise e => (Raise e, s1)
                | Ok date => (Ok (Some (pdf_record (_expand_href href) date root)), s1)
                end
            end
        | a_tags => (Raise (RuntimeError (MultiplePDFLinks url a_tags)), s1)
        end
    end.
Proof.
  intros H. unfold parse_pdf_url_from_penalty_page.
  step H. destruct r as [root|e]; [|reflexivity].
  unfold _parse_pdf_url.
  destruct (lxml.xpath root XPATH_PDF_LINK) as [|a [|a' l]].
  - unfold bind. rewrite logging_warn_eq, ret_eq. reflexivity.
  - unfold bind at 1. unfold bind at 1. rewrite lift_eq.
    destruct (attrib_get a "href") as [href|e]; [|reflexivity].
    cbv beta iota zeta. rewrite ret_eq. step lift_eq.
    destruct (_parse_date root) as [date|e]; reflexivity.
  - reflexivity.
Qed.

Lemma parse_pages_stage_unfold (env : Env) (pages : list string) (s : State) :
  penalty_pages s = Some pages ->
  parse_pdf_urls_from_penalty_pages env s
  = match map_M (parse_pdf_url_from_penalty_page env) pages s with
    | (Ok found, s') => (Ok tt, set_penalty_pdfs (Some (filter_None found)) s')
    | (Raise e, s') => (Raise e, s')
    end.
Proof.
  intros H. unfold parse_pdf_urls_from_penalty_pages.
  step get_state_eq. rewrite H. unfold bind.
  destruct (map_M _ pages s) as [[found|e] s']; reflexivity.
Qed.

Lemma filter_None_app {A} (l1 l2 : list (option A)) :
  filter_None (l1 ++ l2) = filter_None l1 ++ filter_None l2.
Proof.
  induction l1 as [|[x|] l1 IH]; simpl; [reflexivity | f_equal; exact IH | exact IH].
Qed.

Lemma run_after_list_page (env : Env) (s sa : State) :
  run_until_list_page env s = (Ok tt, sa) ->
  run env s
  = bind (parse_pdf_urls_from_penalty_pages env)
      (fun _ => bind (download_pdfs env)
         (fun _ => bind (write_index_json env)
            (fun _ => write_metadata_json env))) sa.
Proof.
  unfold run_until_list_page, run. intros H.
  unfold bind at 1 in H. rewrite get_state_eq in H. cbv beta iota zeta in H.
  step get_state_eq.
  apply bind_Ok_inv in H as (d & s1 & Hmk & Hlist).
  step Hmk. step Hlist. reflexivity.
Qed.

(** C1 (amended).  For a page that has been fetched and parsed:
    - with no anchor matching the PDF XPath, the page yields [None] (after
      a warning is logged) and contributes nothing to the list of records,
      whatever its position in the list of pages;
    - with exactly one, it yields exactly one record, provided that the
      anchor has an [href] and that [_parse_date] does not raise; when
      [_parse_date] raises, so does the call;
    - with more than one, the call raises a [RuntimeError], and so do the
      stage and the run when they reach that page. *)
Theorem pdf_link_trichotomy (env : Env) (url : string) (s s1 : State)
    (root : lxml.root) :
  _get_as_lxml env url s = (Ok root, s1) ->
  let a_tags := lxml.xpath root XPATH_PDF_LINK in
  let parse := parse_pdf_url_from_penalty_page env in
  let warned := add_event (EvLog "WARNING" ("No PDF on page " +:+ url)) s1 in
  (a_tags = [] ->
     parse url s = (Ok None, warned)
     /\ forall s_in pre post found_pre found_post s2,
          penalty_pages s_in = Some (pre ++ url :: post) ->
          map_M parse pre s_in = (Ok found_pre, s) ->
          map_M parse post warned = (Ok found_post, s2) ->
          parse_pdf_urls_from_penalty_pages env s_in
          = (Ok tt, set_penalty_pdfs
                      (Some (filter_None found_pre ++ filter_None found_post)) s2))
  /\ (forall a href,
        a_tags = [a] -> attrib_get a "href" = Ok href ->
        (forall date, _parse_date root = Ok date ->
           parse url s = (Ok (Some (pdf_record (_expand_href href) date root)), s1))
        /\ (forall e, _parse_date root = Raise e -> parse url s = (Raise e, s1)))
  /\ ((2 <= length a_tags)%nat ->
      let err := RuntimeError (MultiplePDFLinks url a_tags) in
      parse url s = (Raise err, s1)
      /\ forall s_in pre post found_pre,
           penalty_pages s_in = Some (pre ++ url :: post) ->
           map_M parse pre s_in = (Ok found_pre, s) ->
           parse_pdf_urls_from_penalty_pages env s_in = (Raise err, s1)
           /\ forall s_start,
                run_until_list_page env s_start = (Ok tt, s_in) ->
                run env s_start = (Raise err, s1)).
Proof.
  intros Hget a_tags parse warned.
  pose proof (parse_page_unfold env url s s1 (Ok root) Hget) as Hp.
  cbv beta iota in Hp.
  subst a_tags parse warned. cbv zeta.
  set (parse := parse_pdf_url_from_penalty_page env) in *.
  split; [|split].
  - intros Hnil. rewrite Hnil in Hp. split; [exact Hp|].
    intros s_in pre post found_pre found_post s2 Hpages Hpre Hpost.
    rewrite (parse_pages_stage_unfold env _ s_in Hpages).
    fold parse. rewrite (map_M_app parse pre (url :: post) _ _ _ Hpre).
    unfold bind at 1. simpl map_M.
    step Hp. step Hpost. rewrite !ret_eq.
    change (None :: found_post) with ([None] ++ found_post).
    rewrite !filter_None_app. reflexivity.
  - intros a href Ha Hhref. rewrite Ha, Hhref in Hp. split.
    + intros date Hd. now rewrite Hd in Hp.
    + intros e Hd. now rewrite Hd in Hp.
  - intros Hlen.
    set (err := RuntimeError (MultiplePDFLinks url (lxml.xpath root XPATH_PDF_LINK))).
    assert (Hraise : parse url s = (Raise err, s1)).
    { subst err.
      destruct (lxml.xpath root XPATH_PDF_LINK) as [|a [|a' l]];
        simpl in Hlen; try lia.
      exact Hp. }
    split; [exact Hraise|].
    intros s_in pre post found_pre Hpages Hpre.
    assert (Hstage : parse_pdf_urls_from_penalty_pages env s_in = (Raise err, s1)).
    { rewrite (parse_pages_stage_unfold env _ s_in Hpages).
      fold parse. rewrite (map_M_app parse pre (url :: post) _ _ _ Hpre).
      unfold bind at 1. simpl map_M. step Hraise. reflexivity. }
    split; [exact Hstage|].
    intros s_start Hstart.
    rewrite (run_after_list_page env _ _ Hstart).
    unfold bind at 1. now rewrite Hstage.
Qed.

Lemma pdf_link_trichotomy_witness :
  fst (parse_pdf_url_from_penalty_page Fixture.env Fixture.cafe_page Fixture.s0)
  = Ok None
  /\ (exists pdf,
        fst (parse_pdf_url_from_penalty_page Fixture.env Fixture.acme_page Fixture.s0)
        = Ok (Some pdf)
        /\ PDF.url pdf = Fixture.acme_pdf /\ PDF.date pdf = Some "2017-12-21")
  /\ (exists a_tags,
        fst (parse_pdf_urls_from_penalty_pages Fixture.env
               (Fixture.with_pages [Fixture.cafe_page; Fixture.duo_page]))
        = Raise (RuntimeError (MultiplePDFLinks Fixture.duo_page a_tags))
        /\ length a_tags = 2%nat).
Proof.
  split; [|split].
  - assert (Hget : _get_as_lxml Fixture.env Fixture.cafe_page Fixture.s0
                   = (Ok (Fixture.doc [] [] ["1 June 2017"] ["Cafe LLP"]),
                      snd (_get_as_lxml Fixture.env Fixture.cafe_page Fixture.s0)))
      by (vm_compute; reflexivity).
    destruct (pdf_link_trichotomy _ _ _ _ _ Hget) as (H0 & _ & _).
    destruct (H0 eq_refl) as [-> _]. reflexivity.
  - assert (Hget : _get_as_lxml Fixture.env Fixture.acme_page Fixture.s0
                   = (Ok (Fixture.doc []
                            ["/media/action-weve-taken/mpns/2172999/acme-mpn.pdf"]
                            [" 21 December 2017 "] [" Acme Ltd "]),
                      snd (_get_as_lxml Fixture.env Fixture.acme_page Fixture.s0)))
      by (vm_compute; reflexivity).
    destruct (pdf_link_trichotomy _ _ _ _ _ Hget) as (_ & H1 & _).
    destruct (H1 _ _ eq_refl eq_refl) as [Hok _].
    eexists. rewrite (Hok (Some "2017-12-21") ltac:(vm_compute; reflexivity)).
    repeat split.
  - set (s_in := Fixture.with_pages [Fixture.cafe_page; Fixture.duo_page]).
    set (s := snd (map_M (parse_pdf_url_from_penalty_page Fixture.env)
                     [Fixture.cafe_page] s_in)).
    assert (Hget : _get_as_lxml Fixture.env Fixture.duo_page s
                   = (Ok (Fixture.doc [] [Fixture.acme_pdf; Fixture.bolt_pdf]
                            ["1 June 2017"] ["Duo Inc"]),
                      snd (_get_as_lxml Fixture.env Fixture.duo_page s)))
      by (vm_compute; reflexivity).
    destruct (pdf_link_trichotomy _ _ _ _ _ Hget) as (_ & _ & H2).
    destruct (H2 ltac:(simpl; lia)) as [_ Hstage].
    destruct (Hstage s_in [Fixture.cafe_page] [] [None] eq_refl
                ltac:(vm_compute; reflexivity)) as [-> _].
    eexists. split; reflexivity.
Defined.

(** The claim C1 as it was stated fails: a page with exactly one anchor
    matching the PDF XPath, whose date is not in the expected format, does
    not yield a record; the [ValueError] of [_parse_date] propagates. *)
Lemma one_pdf_link_bad_date_raises :
  exists root s1,
    _get_as_lxml Fixture.env Fixture.tbc_page Fixture.s0 = (Ok root, s1)
    /\ length (lxml.xpath root XPATH_PDF_LINK) = 1%nat
    /\ parse_pdf_url_from_penalty_page Fixture.env Fixture.tbc_page Fixture.s0
       = (Raise ValueError, s1).
Proof.
  eexists. eexists. split; [vm_compute; reflexivity|].
  split; vm_compute; reflexivity.
Qed.

Lemma parse_type_three_slugs_witness :
  _parse_type Fixture.acme_pdf = Some "monetary-penalty"
  /\ _parse_type "https://ico.org.uk/media/action-weve-taken/reports/7/r.pdf" = None
  /\ is_slug "mpns" = true.
Proof.
  destruct (parse_type_three_slugs Fixture.acme_pdf) as (Hmap & Hslug & _ & _).
  split; [|split].
  - apply Hmap. exists "mpns". split; [reflexivity|].
    right. left. split; reflexivity.
  - reflexivity.
  - apply (Hslug "mpns"). reflexivity.
Defined.


Lemma download_and_add_sha_frame_witness :
  exists pdf',
    fst (download_and_add_sha Fixture.env Fixture.acme_record Fixture.s0) = Ok pdf'
    /\ PDF.id pdf' = Some "2172999"
    /\ PDF.filename pdf' = "acme-mpn.pdf"
    /\ PDF.sha256 pdf'
       = Some "738b4509ae79a9de26052aa6e117a95acbebed13326f8295e4d5e244ad70fa4b".
Proof.
  set (out := download_and_add_sha Fixture.env Fixture.acme_record Fixture.s0).
  set (pdf' := with_sha256 Fixture.acme_record
          "738b4509ae79a9de26052aa6e117a95acbebed13326f8295e4d5e244ad70fa4b").
  assert (Hrun : out = (Ok pdf', snd out)) by (vm_compute; reflexivity).
  destruct (download_and_add_sha_frame _ _ _ _ _ Hrun)
    as (Hid & _ & _ & _ & _ & Hname & _).
  exists pdf'. rewrite Hrun, Hid, Hname. repeat split.
Defined.

Lemma download_not_atomic_witness :
  let out := download_and_add_sha Fixture.env Fixture.missing_record Fixture.s_old in
  fst out = Raise (HTTPError 404)
  /\ files Fixture.s_old !! "out/pdfs/missing.pdf" = Some "%PDF-1.4 older"
  /\ files (snd out) !! "out/pdfs/missing.pdf" = Some EmptyString
  /\ files (snd out) <> files Fixture.s_old.
Proof.
  intros out.
  pose proof (download_not_atomic Fixture.env Fixture.missing_record
                Fixture.s_old (snd out) (fst out)
                [ EvLog "INFO" ("Downloading " +:+ Fixture.missing_pdf);
                  EvOpen "out/pdfs/missing.pdf" "wb" None ]
                (EvGet (RequestsWrapper.session RequestsWrapper.__init__)
                   Fixture.missing_pdf [] (Ok (Fixture.response 404 "Not Found")))
                (HTTPError 404)
                (surjective_pairing out)
                ltac:(vm_compute; reflexivity)
                ltac:(vm_compute; reflexivity)) as H.
  cbv zeta in H. destruct H as (Hr & _ & _ & Hempty & Hchanged).
  split; [exact Hr|]. split; [vm_compute; reflexivity|].
  split; [exact Hempty|].
  apply Hchanged. vm_compute. discriminate.
Defined.

(** ** Sorting *)



(** [sorted] raises what [key] raises on the first element it fails on. *)
Lemma decorate_first_failure {A} (key : A -> Result Z) (l1 l2 : list A) x e :
  Forall (fun y => is_Ok (key y) = true) l1 -> key x = Raise e ->
  builtins.decorate key (l1 ++ x :: l2) = Raise e.
Proof.
  induction 1 as [|y l1 Hy _ IH]; intros Hx; simpl.
  - now rewrite Hx.
  - destruct (key y) as [k|e']; [|discriminate]. now rewrite (IH Hx).
Qed.







(** ** Identifiers *)

Lemma span_digits_spec (s d r : string) :
  re.span_digits s = (d, r) ->
  s = d +:+ r /\ Py.all_chars Py.is_digit d = true.
Proof.
  revert d r. induction s as [|c s IH]; intros d r; simpl.
  - intros [= <- <-]. split; reflexivity.
  - destruct (Py.is_digit c) eqn:Ec.
    + destruct (re.span_digits s) as [d' r'].
      intros [= <- <-]. destruct (IH d' r' eq_refl) as [-> Hd].
      split; [reflexivity|]. simpl. now rewrite Ec, Hd.
    + intros [= <- <-]. split; reflexivity.
Qed.

Lemma span_digits_complete (d rest : string) :
  Py.all_chars Py.is_digit d = true ->
  re.span_digits (d +:+ "/" +:+ rest) = (d, "/" +:+ rest).
Proof.
  induction d as [|c d IH]; intros Hd.
  - reflexivity.
  - simpl in Hd. apply andb_true_iff in Hd as [Hc Hd].
    rewrite sapp_cons. simpl. rewrite Hc, (IH Hd). reflexivity.
Qed.

Lemma match_id_Some (s d : string) :
  re.match_id s = Some d ->
  is_decimal d = true /\ exists rest, s = "/" +:+ d +:+ "/" +:+ rest.
Proof.
  unfold re.match_id. destruct s as [|c s]; [discriminate|].
  destruct (Ascii.eqb_spec c Py.slash) as [->|]; [|discriminate].
  destruct (re.span_digits s) as [d' r] eqn:E.
  apply span_digits_spec in E as [-> Hd].
  destruct d' as [|x d']; [discriminate|].
  destruct r as [|c' r]; [discriminate|].
  destruct (Ascii.eqb_spec c' Py.slash) as [->|]; [|discriminate].
  intros [= <-]. split; [exact Hd|]. exists r. reflexivity.
Qed.

Lemma match_id_complete (d rest : string) :
  is_decimal d = true -> re.match_id ("/" +:+ d +:+ "/" +:+ rest) = Some d.
Proof.
  intros Hd. destruct d as [|x d]; [discriminate|].
  unfold is_decimal in Hd. rewrite sapp_cons, sapp_nil_l.
  unfold re.match_id. rewrite Ascii.eqb_refl.
  rewrite (span_digits_complete _ rest Hd). reflexivity.
Qed.


Lemma digit_not_space (c : ascii) : Py.is_digit c = true -> Py.is_space c = false.
Proof.
  unfold Py.is_digit, Py.is_space. cbv zeta.
  generalize (Py.ord c) as n. intros n H.
  apply andb_true_iff in H as [H1 H2].
  apply Z.leb_le in H1. apply Z.leb_le in H2.
  repeat match goal with
         | |- context [?a <=? ?b] => destruct (Z.leb_spec a b); try lia
         | |- context [?a =? ?b] => destruct (Z.eqb_spec a b); try lia
         end; reflexivity.
Qed.




(** ** The discipline of fetching *)

Lemma outcome_nil {A} w (r : Result A) : outcome w [] r.
Proof. apply outcome_clean. constructor. Qed.

Lemma outcome_one {A} w ev (r : Result A) : clean w ev -> outcome w [ev] r.
Proof. intros H. apply outcome_clean. repeat constructor; apply H. Qed.

Lemma outcome_Raise {A B} w t e :
  outcome w t (@Raise A e) -> outcome w t (@Raise B e).
Proof.
  intros [Hc | t0 ev e' Ht Hc Hp Hf He].
  - now apply outcome_clean.
  - eapply outcome_failed; eauto. congruence.
Qed.

Lemma outcome_Ok_clean {A} w t (a : A) : outcome w t (Ok a) -> Forall (clean w) t.
Proof. intros [Hc | t0 ev e' Ht Hc Hp Hf He]; [exact Hc | discriminate]. Qed.

Lemma outcome_app {A} w t1 t2 (r : Result A) :
  Forall (clean w) t1 -> outcome w t2 r -> outcome w (t1 ++ t2) r.
Proof.
  intros H1 [Hc | t0 ev e' Ht Hc Hp Hf He].
  - apply outcome_clean. apply Forall_app. auto.
  - subst t2. eapply outcome_failed with (t0 := t1 ++ t0); eauto.
    + now rewrite app_assoc.
    + apply Forall_app. auto.
Qed.

Lemma disciplined_bind {A B} (m : M A) (f : A -> M B) :
  disciplined m -> (forall a, disciplined (f a)) -> disciplined (bind m f).
Proof.
  intros Hm Hf s r s' H.
  apply bind_inv in H as [(a & s1 & H1 & H2) | (e & H1 & ->)].
  - destruct (Hm _ _ _ H1) as (Hh1 & Ho1 & t1 & Ht1 & Hout1).
    destruct (Hf a _ _ _ H2) as (Hh2 & Ho2 & t2 & Ht2 & Hout2).
    split; [congruence|]. split; [congruence|].
    exists (t1 ++ t2). split; [rewrite Ht2, Ht1; now rewrite app_assoc|].
    rewrite Hh1 in Hout2.
    apply outcome_app; [|exact Hout2]. eapply outcome_Ok_clean; eauto.
  - destruct (Hm _ _ _ H1) as (Hh1 & Ho1 & t1 & Ht1 & Hout1).
    split; [exact Hh1|]. split; [exact Ho1|].
    exists t1. split; [exact Ht1|]. exact (outcome_Raise _ _ _ Hout1).
Qed.

Lemma disciplined_map_M {A B} (f : A -> M B) (l : list A) :
  (forall x, disciplined (f x)) -> disciplined (map_M f l).
Proof.
  intros Hf. induction l as [|x l IH]; simpl.
  - intros s r s' [= <- <-]. repeat split; auto.
    exists []. split; [now rewrite app_nil_r | apply outcome_nil].
  - apply disciplined_bind; [apply Hf|]. intros y.
    apply disciplined_bind; [exact IH|]. intros ys.
    intros s r s' [= <- <-]. repeat split; auto.
    exists []. split; [now rewrite app_nil_r | apply outcome_nil].
Qed.

(** A method that leaves the state alone. *)
Lemma disciplined_pure {A} (m : M A) :
  (forall s, snd (m s) = s) -> disciplined m.
Proof.
  intros H s r s' E. pose proof (H s) as Hs. rewrite E in Hs. simpl in Hs.
  subst s'. repeat split; auto.
  exists []. split; [now rewrite app_nil_r | apply outcome_nil].
Qed.

(** A method that adds one event which is not a GET, and may change the
    files, the directories and the lists of [self]. *)
Lemma disciplined_event {A} (m : M A) :
  (forall s, http (snd (m s)) = http s /\ output_dir (snd (m s)) = output_dir s
             /\ exists ev, trace (snd (m s)) = trace s ++ [ev]
                           /\ get_urls [ev] = []) ->
  disciplined m.
Proof.
  intros H s r s' E. destruct (H s) as (Hh & Ho & ev & Ht & Hg).
  rewrite E in Hh, Ho, Ht. simpl in *.
  repeat split; auto. exists [ev]. split; [exact Ht|].
  apply outcome_one. destruct ev; try (split; [reflexivity | exact I]).
  discriminate.
Qed.

Lemma disciplined_modify (f : State -> State) :
  (forall s, http (f s) = http s /\ output_dir (f s) = output_dir s
             /\ trace (f s) = trace s) ->
  disciplined (modify f).
Proof.
  intros H s r s' [= <- <-]. destruct (H s) as (Hh & Ho & Ht).
  repeat split; auto. exists []. rewrite Ht.
  split; [now rewrite app_nil_r | apply outcome_nil].
Qed.

Lemma disciplined_ret {A} (a : A) : disciplined (ret a).
Proof. apply disciplined_pure. reflexivity. Qed.

Lemma disciplined_raise {A} e : disciplined (@raise A e).
Proof. apply disciplined_pure. reflexivity. Qed.

Lemma disciplined_lift {A} (r : Result A) : disciplined (lift r).
Proof. apply disciplined_pure. reflexivity. Qed.

Lemma disciplined_get_state : disciplined get_state.
Proof. apply disciplined_pure. reflexivity. Qed.

Lemma disciplined_logging_info msg : disciplined (logging_info msg).
Proof. apply disciplined_event. intros s. simpl. eauto 6. Qed.

Lemma disciplined_logging_warn msg : disciplined (logging_warn msg).
Proof. apply disciplined_event. intros s. simpl. eauto 6. Qed.

Lemma disciplined_open_for_writing env path mode :
  disciplined (open_for_writing env path mode).
Proof.
  apply disciplined_event. intros s. rewrite open_for_writing_eq.
  destruct (open_error env (trace s) path mode); simpl; eauto 6.
Qed.

Lemma disciplined_f_write path data : disciplined (f_write path data).
Proof. apply disciplined_event. intros s. simpl. eauto 6. Qed.

Lemma disciplined_os_path_isdir path : disciplined (os_path_isdir path).
Proof. apply disciplined_event. intros s. simpl. eauto 6. Qed.

Lemma disciplined_os_makedirs env path : disciplined (os_makedirs env path).
Proof.
  apply disciplined_event. intros s. unfold os_makedirs.
  destruct (makedirs_error env (trace s) path); simpl; eauto 6.
Qed.

Lemma disciplined_datetime_now env : disciplined (datetime_now env).
Proof. apply disciplined_event. intros s. simpl. eauto 6. Qed.

Lemma disciplined__get_as_lxml env url : disciplined (_get_as_lxml env url).
Proof.
  intros s r s' H. rewrite _get_as_lxml_unfold in H. cbv zeta in H.
  injection H as <- <-. autorewrite with state.
  repeat split; auto.
  eexists. split; [now rewrite <- app_assoc|].
  assert (Hlog : Forall (clean (http s)) [EvLog "INFO" url])
    by (repeat constructor).
  assert (Hp : forall a, plain_get (http s)
                 (EvGet (RequestsWrapper.session (http s)) url [] a))
    by (intros a; split; reflexivity).
  change [EvLog "INFO" url; ?ev] with ([EvLog "INFO" url] ++ [ev]).
  destruct (session_get env _ _ url []) as [response|e] eqn:Eg.
  - destruct (raise_for_status response) as [[]|e] eqn:Er.
    + apply outcome_clean. apply Forall_app. split; [exact Hlog|].
      repeat constructor. simpl. now rewrite Er.
    + eapply outcome_failed; eauto. simpl. now rewrite Er.
  - eapply outcome_failed; eauto.
Qed.

Lemma disciplined_download_and_add_sha env pdf :
  disciplined (download_and_add_sha env pdf).
Proof.
  intros s r s' H.
  destruct (download_and_add_sha_unfold env pdf s)
    as (s0 & Heq & Ho & Hh & _ & _ & _ & Hst).
  cbv zeta in Heq, Hst. rewrite H in Heq.
  assert (Hs : s' = s0) by congruence. subst s0.
  split; [exact Hh|]. split; [exact Ho|].
  set (w := http s) in *.
  assert (Hp : forall a, plain_get w
                 (EvGet (RequestsWrapper.session w) (PDF.url pdf) [] a))
    by (intros a; split; reflexivity).
  assert (Hc : forall ev, get_urls [ev] = [] -> clean w ev).
  { intros ev Hev. destruct ev; try (split; [reflexivity | exact I]).
    discriminate. }
  destruct (open_error env _ _ "wb") as [e|].
  { destruct Hst as [-> _]. rewrite <- app_assoc. eexists. split; [reflexivity|].
    apply outcome_clean. repeat constructor; apply Hc; reflexivity. }
  destruct (session_get env _ _ _ _) as [response|e] eqn:Eg.
  2:{ destruct Hst as [-> _]. injection Heq as ->.
      rewrite <- !app_assoc. eexists. split; [reflexivity|].
      simpl. change [?a; ?b; ?c] with ([a; b] ++ [c]).
      eapply outcome_failed; eauto;
        repeat constructor; apply Hc; reflexivity. }
  destruct (raise_for_status response) as [[]|e] eqn:Er.
  2:{ destruct Hst as [-> _]. injection Heq as ->.
      rewrite <- !app_assoc. eexists. split; [reflexivity|].
      simpl. change [?a; ?b; ?c] with ([a; b] ++ [c]).
      eapply outcome_failed; eauto;
        try (simpl; now rewrite Er);
        repeat constructor; apply Hc; reflexivity. }
  destruct Hst as [-> _]. rewrite <- !app_assoc. eexists. split; [reflexivity|].
  apply outcome_clean. simpl. repeat constructor; try (apply Hc; reflexivity).
  simpl. now rewrite Er.
Qed.

(** The closure rules. *)
Ltac disc_step :=
  first
    [ apply disciplined_ret | apply disciplined_raise | apply disciplined_lift
    | apply disciplined_get_state
    | apply disciplined_logging_info | apply disciplined_logging_warn
    | apply disciplined_open_for_writing | apply disciplined_f_write
    | apply disciplined_os_path_isdir | apply disciplined_os_makedirs
    | apply disciplined_datetime_now
    | apply disciplined__get_as_lxml | apply disciplined_download_and_add_sha
    | apply disciplined_modify; intros; repeat split; reflexivity
    | apply disciplined_map_M; intros
    | apply disciplined_bind; [|intros]
    | match goal with
      | |- disciplined (match ?x with _ => _ end) => destruct x
      | |- disciplined (if ?x then _ else _) => destruct x
      end ].

Lemma disciplined_parse_page env url :
  disciplined (parse_pdf_url_from_penalty_page env url).
Proof.
  unfold parse_pdf_url_from_penalty_page, _parse_pdf_url. cbv zeta.
  repeat disc_step.
Qed.

Lemma disciplined_run env : disciplined (run env).
Proof.
  unfold run, mkdir_p, parse_list_page, parse_pdf_urls_from_penalty_pages,
    download_pdfs, write_index_json, write_metadata_json, dump_to.
  repeat first [ apply disciplined_parse_page | disc_step ].
Qed.

Lemma middle_or_last {A} (pre post t0 : list A) (x y : A) :
  pre ++ x :: post = t0 ++ [y] ->
  (post = [] /\ pre = t0 /\ x = y) \/ In x t0.
Proof.
  destruct post as [|z post'] using rev_ind; intros H.
  - apply app_inj_tail in H as [-> ->]. left. auto.
  - right. rewrite app_comm_cons, app_assoc in H.
    apply app_inj_tail in H as [<- _].
    apply in_or_app. right. left. reflexivity.
Qed.

Lemma raise_for_status_error (response : requests.Response) :
  400 <= requests.status_code response < 600 ->
  raise_for_status response = Raise (HTTPError (requests.status_code response)).
Proof.
  intros [H1 H2]. unfold raise_for_status.
  apply Z.leb_le in H1. apply Z.ltb_lt in H2. now rewrite H1, H2.
Qed.

Lemma disciplined_stops {A} (m : M A) :
  disciplined m -> stops_at_http_error m.
Proof.
  intros Hm s r s' pre sess url kwargs response post H Ht Hst.
  pose proof (raise_for_status_error response Hst) as Hr.
  split; [exact Hr|].
  destruct (Hm _ _ _ H) as (_ & _ & t & Ht' & Hout).
  rewrite Ht' in Ht. apply app_inv_head in Ht. subst t.
  assert (Hfail : failure_of (EvGet sess url kwargs (Ok response))
                  = Some (HTTPError (requests.status_code response)))
    by (simpl; now rewrite Hr).
  destruct Hout as [Hc | t0 ev e Heq Hc Hp Hf He].
  - apply List.Forall_forall with (x := EvGet sess url kwargs (Ok response)) in Hc.
    + destruct Hc as [Hc _]. congruence.
    + apply in_or_app. right. left. reflexivity.
  - apply middle_or_last in Heq as [(-> & -> & <-) | Hin].
    + split; [|reflexivity]. congruence.
    + apply List.Forall_forall with (x := EvGet sess url kwargs (Ok response)) in Hc;
        [|exact Hin].
      destruct Hc as [Hc _]. congruence.
Qed.

(** C2.  Every fetch of the program, of the list page and of a penalty
    page ([_get_as_lxml]) and of a PDF ([download_and_add_sha]), raises
    the [HTTPError] of [raise_for_status] when the status of the response
    is an error; a whole run ends with that exception at that GET, which
    is the last event of the run. *)
Theorem http_error_stops_the_run (env : Env) :
  (forall url, stops_at_http_error (_get_as_lxml env url))
  /\ (forall pdf, stops_at_http_error (download_and_add_sha env pdf))
  /\ stops_at_http_error (run env).
Proof.
  split; [|split]; intros; apply disciplined_stops.
  - apply disciplined__get_as_lxml.
  - apply disciplined_download_and_add_sha.
  - apply disciplined_run.
Qed.

Lemma http_error_stops_the_run_witness :
  let out := run Fixture.env_gone Fixture.s0 in
  fst out = Raise (HTTPError 404)
  /\ get_urls (trace (snd out))
     = [LIST_URL; Fixture.acme_page; Fixture.gone_page].
Proof.
  intros out.
  destruct (http_error_stops_the_run Fixture.env_gone) as (_ & _ & Hrun).
  assert (Ht : trace (snd out)
               = trace Fixture.s0
                 ++ removelast (trace (snd out))
                 ++ EvGet (RequestsWrapper.session RequestsWrapper.__init__)
                      Fixture.gone_page []
                      (Ok (Fixture.response 404 "Not Found")) :: [])
    by (vm_compute; reflexivity).
  destruct (Hrun _ _ _ _ _ _ _ _ _ (surjective_pairing out) Ht
              ltac:(simpl; lia)) as (_ & Hr & _).
  split; [exact Hr | vm_compute; reflexivity].
Defined.

(** ** The stages of a run, one by one *)

Lemma mkdir_p_Ok env d s x sa :
  mkdir_p env d s = (Ok x, sa) ->
  same_self s sa /\ same_lists s sa /\ files sa = files s
  /\ exists t0, trace sa = trace s ++ t0 /\ get_urls t0 = [].
Proof.
  unfold mkdir_p. intros H.
  unfold bind at 1 in H. unfold os_path_isdir in H. cbv beta iota zeta in H.
  destruct (bool_decide (d ∈ dirs s)); cbn [negb] in H.
  - unfold bind in H. rewrite !ret_eq in H. injection H as <- <-.
    repeat split. exists [EvIsdir d true]. split; reflexivity.
  - unfold bind at 1 in H. unfold os_makedirs in H. cbv beta iota zeta in H.
    destruct (makedirs_error env _ d) as [e|]; [discriminate|].
    rewrite ret_eq in H. injection H as <- <-.
    repeat split. exists [EvIsdir d false; EvMakedirs d None].
    autorewrite with state. split; [now rewrite <- app_assoc | reflexivity].
Qed.

Lemma _get_as_lxml_Ok env url s root s1 :
  _get_as_lxml env url s = (Ok root, s1) ->
  exists response,
    fromstring env (requests.text response) = Ok root
    /\ raise_for_status response = Ok tt
    /\ s1 = add_event (EvGet (RequestsWrapper.session (http s)) url [] (Ok response))
              (add_event (EvLog "INFO" url) s).
Proof.
  rewrite _get_as_lxml_unfold. cbv zeta. intros H.
  destruct (session_get env _ _ url []) as [response|e] eqn:Eg; [|discriminate].
  exists response.
  destruct (raise_for_status response) as [[]|e] eqn:Er; [|discriminate].
  destruct (requests.status_code response =? 301); [discriminate|].
  injection H as H <-. auto.
Qed.

Lemma parse_list_page_Ok env s sb :
  parse_list_page env s = (Ok tt, sb) ->
  exists response root pages,
    fromstring env (requests.text response) = Ok root
    /\ list_page_links root = Ok pages
    /\ sb = set_penalty_pages (Some pages)
              (add_event (EvGet (RequestsWrapper.session (http s)) LIST_URL []
                            (Ok response))
                 (add_event (EvLog "INFO" LIST_URL) s)).
Proof.
  unfold parse_list_page. intros H.
  apply bind_Ok_inv in H as (root & s1 & Hget & H).
  apply bind_Ok_inv in H as (pages & s2 & Hl & H).
  apply lift_inv in Hl as [Hl ->]. rewrite modify_eq in H. injection H as <-.
  apply _get_as_lxml_Ok in Hget as (response & Hf & _ & ->).
  exists response, root, pages. auto.
Qed.

Lemma get_urls_app (t1 t2 : list Event) :
  get_urls (t1 ++ t2) = get_urls t1 ++ get_urls t2.
Proof. unfold get_urls. apply flat_map_app. Qed.

Lemma parse_page_Ok env url s res s' :
  parse_pdf_url_from_penalty_page env url s = (Ok res, s') ->
  same_self s s' /\ same_store s s' /\ same_lists s s'
  /\ (exists t, trace s' = trace s ++ t /\ get_urls t = [url])
  /\ forall pdf, res = Some pdf -> parsed_record pdf.
Proof.
  destruct (_get_as_lxml env url s) as [r s1] eqn:Hget.
  rewrite (parse_page_unfold env url s s1 r Hget).
  destruct r as [root|e]; [|discriminate].
  apply _get_as_lxml_Ok in Hget as (response & _ & _ & ->).
  destruct (lxml.xpath root XPATH_PDF_LINK) as [|a [|a' l]].
  - intros [= <- <-]. repeat split; try discriminate.
    eexists. autorewrite with state. rewrite <- !app_assoc.
    split; reflexivity.
  - destruct (attrib_get a "href") as [href|e]; [|discriminate].
    destruct (_parse_date root) as [date|e]; [|discriminate].
    intros [= <- <-]. repeat split.
    + eexists. autorewrite with state. rewrite <- !app_assoc.
      split; reflexivity.
    + now injection H as <-.
    + now injection H as <-.
    + now injection H as <-.
    + now injection H as <-.
  - discriminate.
Qed.

Lemma map_M_parse_Ok env pages s found s' :
  map_M (parse_pdf_url_from_penalty_page env) pages s = (Ok found, s') ->
  same_self s s' /\ same_store s s' /\ same_lists s s'
  /\ (exists t, trace s' = trace s ++ t /\ get_urls t = pages)
  /\ Forall parsed_record (filter_None found).
Proof.
  revert s found. induction pages as [|url pages IH]; intros s found H;
    simpl in H.
  - injection H as <- <-. repeat split; [|constructor].
    exists []. split; [now rewrite app_nil_r | reflexivity].
  - apply bind_Ok_inv in H as (res & s1 & Hp & H).
    apply bind_Ok_inv in H as (found' & s2 & Hm & H).
    injection H as <- <-.
    apply parse_page_Ok in Hp
      as ((Ho1 & Hh1) & (Hf1 & Hd1) & (Hpp1 & Hpd1) & (t1 & Ht1 & Hg1) & Hrec).
    apply IH in Hm
      as ((Ho2 & Hh2) & (Hf2 & Hd2) & (Hpp2 & Hpd2) & (t2 & Ht2 & Hg2) & Hall).
    repeat split; try congruence.
    + exists (t1 ++ t2). rewrite Ht2, Ht1, <- app_assoc, get_urls_app, Hg1, Hg2.
      split; reflexivity.
    + destruct res as [pdf|]; simpl; [constructor; auto | exact Hall].
Qed.

Lemma download_Ok env pdf s pdf' s' :
  download_and_add_sha env pdf s = (Ok pdf', s') ->
  same_self s s' /\ same_lists s s' /\ dirs s' = dirs s
  /\ exists t, trace s' = trace s ++ t /\ get_urls t = [PDF.url pdf]
               /\ downloaded_as (http s) (output_dir s) t pdf pdf'.
Proof.
  intros H.
  destruct (download_and_add_sha_unfold env pdf s)
    as (s0 & Heq & Ho & Hh & Hpp & Hpd & Hd & Hst).
  cbv zeta in Heq, Hst. rewrite H in Heq.
  destruct (open_error env _ _ "wb") as [e|]; [discriminate|].
  destruct (session_get env _ _ _ _) as [response|e]; [|discriminate].
  destruct (raise_for_status response) as [[]|e]; [|discriminate].
  destruct (open_error env _ _ "rb") as [e|]; [discriminate|].
  injection Heq as -> ->. destruct Hst as [Ht _].
  repeat split; auto.
  eexists. rewrite Ht, <- !app_assoc. split; [reflexivity|].
  split; [reflexivity|].
  exists response. split; [reflexivity|]. simpl. auto 8.
Qed.

Lemma downloaded_as_mono w dir t0 t t1 pdf pdf' :
  downloaded_as w dir t pdf pdf' -> downloaded_as w dir (t0 ++ t ++ t1) pdf pdf'.
Proof.
  intros (response & Heq & Hg & Hw). exists response.
  rewrite !in_app_iff. auto.
Qed.

Lemma map_M_download_Ok env pdfs s downloaded s' :
  map_M (download_and_add_sha env) pdfs s = (Ok downloaded, s') ->
  same_self s s' /\ same_lists s s' /\ dirs s' = dirs s
  /\ exists t, trace s' = trace s ++ t /\ get_urls t = map PDF.url pdfs
               /\ Forall2 (downloaded_as (http s) (output_dir s) t) pdfs downloaded.
Proof.
  revert s downloaded. induction pdfs as [|pdf pdfs IH]; intros s downloaded H;
    simpl in H.
  - injection H as <- <-. repeat split.
    exists []. split; [now rewrite app_nil_r|]. split; [reflexivity | constructor].
  - apply bind_Ok_inv in H as (pdf' & s1 & Hp & H).
    apply bind_Ok_inv in H as (rest & s2 & Hm & H).
    injection H as <- <-.
    apply download_Ok in Hp
      as ((Ho1 & Hh1) & (Hpp1 & Hpd1) & Hd1 & t1 & Ht1 & Hg1 & Hdl).
    apply IH in Hm
      as ((Ho2 & Hh2) & (Hpp2 & Hpd2) & Hd2 & t2 & Ht2 & Hg2 & Hall).
    repeat split; try congruence.
    exists (t1 ++ t2). rewrite Ht2, Ht1, <- app_assoc, get_urls_app, Hg1, Hg2.
    split; [reflexivity|]. split; [reflexivity|].
    rewrite Hh1, Ho1 in Hall. constructor.
    + apply (downloaded_as_mono _ _ [] t1 t2). exact Hdl.
    + eapply Forall2_impl; [exact Hall|]. intros p p' Hpp'.
      rewrite <- (app_nil_r t2). apply (downloaded_as_mono _ _ t1 t2 []).
      exact Hpp'.
Qed.

Lemma dump_to_eq env path v s :
  dump_to env path v s
  = match open_error env (trace s) path "w" with
    | Some e => (Raise e, add_event (EvOpen path "w" (Some e)) s)
    | None =>
        (Ok tt,
         add_event (EvWrite path (json.dumps v))
           (set_files (<[path := json.dumps v]> (files s))
              (add_event (EvOpen path "w" None) s)))
    end.
Proof.
  unfold dump_to. step open_for_writing_eq.
  destruct (open_error env (trace s) path "w") as [e|]; [reflexivity|].
  rewrite f_write_eq. autorewrite with state.
  rewrite lookup_insert_eq. cbn [default]. rewrite sapp_nil_l.
  now rewrite insert_insert_eq.
Qed.

Lemma download_pdfs_unfold env pdfs s :
  penalty_pdfs s = Some pdfs ->
  download_pdfs env s
  = match map_M (download_and_add_sha env) pdfs s with
    | (Ok downloaded, s') => (Ok tt, set_penalty_pdfs (Some downloaded) s')
    | (Raise e, s') => (Raise e, s')
    end.
Proof.
  intros H. unfold download_pdfs. step get_state_eq. rewrite H. unfold bind.
  destruct (map_M _ pdfs s) as [[downloaded|e] s']; reflexivity.
Qed.

Lemma write_index_json_unfold env pdfs s :
  penalty_pdfs s = Some pdfs ->
  write_index_json env s
  = match builtins.sorted key pdfs with
    | Raise e => (Raise e, s)
    | Ok ordered => dump_to env (index_path s) (index_of ordered) s
    end.
Proof.
  intros H. unfold write_index_json. step get_state_eq. rewrite H.
  step lift_eq. destruct (builtins.sorted key pdfs); reflexivity.
Qed.

Lemma write_metadata_json_unfold env s :
  write_metadata_json env s
  = dump_to env (metadata_path s) (metadata_of (now env (trace s)))
      (add_event (EvNow (now env (trace s))) s).
Proof.
  unfold write_metadata_json. unfold bind at 1. unfold datetime_now.
  cbv beta iota zeta. step get_state_eq. reflexivity.
Qed.


Lemma run_chain env s s' :
  run env s = (Ok tt, s') ->
  exists sa sb sc sd se,
    (exists d, mkdir_p env (pdfs_dir s) s = (Ok d, sa))
    /\ parse_list_page env sa = (Ok tt, sb)
    /\ parse_pdf_urls_from_penalty_pages env sb = (Ok tt, sc)
    /\ download_pdfs env sc = (Ok tt, sd)
    /\ write_index_json env sd = (Ok tt, se)
    /\ write_metadata_json env se = (Ok tt, s').
Proof.
  unfold run. intros H.
  unfold bind at 1 in H. rewrite get_state_eq in H. cbv beta iota zeta in H.
  apply bind_Ok_inv in H as (d & sa & H0 & H).
  apply bind_Ok_inv in H as ([] & sb & H1 & H).
  apply bind_Ok_inv in H as ([] & sc & H2 & H).
  apply bind_Ok_inv in H as ([] & sd & H3 & H).
  apply bind_Ok_inv in H as ([] & se & H4 & H).
  exists sa, sb, sc, sd, se. eauto 10.
Qed.

Lemma run_is_stages env s : 
  run env s
  = fold_right (fun m k => bind m (fun _ => k)) (ret tt) (stages env s) s.
Proof.
  unfold run, stages, pdfs_dir. cbn [fold_right].
  step get_state_eq.
  unfold bind.
  destruct (mkdir_p env _ s) as [[d|e] sa]; [|reflexivity].
  rewrite ret_eq.
  destruct (parse_list_page env sa) as [[[]|e] sb]; [|reflexivity].
  destruct (parse_pdf_urls_from_penalty_pages env sb) as [[[]|e] sc]; [|reflexivity].
  destruct (download_pdfs env sc) as [[[]|e] sd]; [|reflexivity].
  destruct (write_index_json env sd) as [[[]|e] se]; [|reflexivity].
  destruct (write_metadata_json env se) as [[[]|e] sf]; reflexivity.
Qed.

(** A sequence of methods either runs through, or stops at the first that
    raises, in the state that one leaves. *)
Lemma sequence_outcome (l : list (M unit)) s r s' :
  fold_right (fun m k => bind m (fun _ => k)) (ret tt) l s = (r, s') ->
  match r with
  | Ok _ => runs_through l s s'
  | Raise e =>
      exists done m rest sk,
        l = done ++ m :: rest /\ runs_through done s sk
        /\ m sk = (Raise e, s')
  end.
Proof.
  revert s. induction l as [|m l IH]; intros s; cbn [fold_right].
  - intros [= <- <-]. reflexivity.
  - intros H. apply bind_inv in H as [([] & s1 & Hm & H) | (e & Hm & ->)].
    + apply IH in H. destruct r as [[]|e].
      * exists s1. auto.
      * destruct H as (done & m' & rest & sk & -> & Hd & Hr).
        exists (m :: done), m', rest, sk. repeat split; auto.
        exists s1. auto.
    + exists [], m, l, s. repeat split; auto.
Qed.

Lemma dump_to_Ok env path v s s' :
  dump_to env path v s = (Ok tt, s') ->
  same_self s s' /\ same_lists s s' /\ dirs s' = dirs s
  /\ trace s' = trace s ++ [EvOpen path "w" None; EvWrite path (json.dumps v)]
  /\ files s' = <[path := json.dumps v]> (files s).
Proof.
  rewrite dump_to_eq.
  destruct (open_error env (trace s) path "w") as [e|]; [discriminate|].
  intros [= <-]. autorewrite with state. rewrite <- app_assoc.
  repeat split.
Qed.

(** A run that returns has the shape of six stages in a row. *)
Lemma run_Ok_shape env s s' : run env s = (Ok tt, s') -> run_shape env s s'.
Proof.
  intros H.
  apply run_chain in H as (sa & sb & sc & sd & se & H0 & H1 & H2 & H3 & H4 & H5).
  (* the output directory *)
  destruct H0 as [d H0]. pose proof H0 as H0'.
  apply mkdir_p_Ok in H0'
    as ((Hoa & Hha) & (Hppa & Hpda) & Hfa & t0 & Hta & Hga).
  (* the list page *)
  pose proof H1 as H1'.
  apply parse_list_page_Ok in H1' as (response & root & pages & Hfs & Hl & Hsb).
  assert (Hob : output_dir sb = output_dir s) by (subst sb; exact Hoa).
  assert (Hhb : http sb = http s) by (subst sb; exact Hha).
  assert (Hpb : penalty_pages sb = Some pages) by (subst sb; reflexivity).
  assert (Htb : trace sb = trace sa ++ list_page_events (http s) response).
  { subst sb. autorewrite with state. rewrite <- app_assoc, Hha. reflexivity. }
  (* the penalty pages *)
  pose proof H2 as H2'. rewrite (parse_pages_stage_unfold env pages sb Hpb) in H2'.
  destruct (map_M _ pages sb) as [[results|e] sc'] eqn:Hm; [|discriminate].
  injection H2' as Hsc. symmetry in Hsc.
  apply map_M_parse_Ok in Hm
    as ((Hoc & Hhc) & (Hfc & Hdc) & (Hppc & Hpdc) & (t2 & Htc & Hgc) & Hrec).
  set (found := filter_None results) in *.
  assert (Hosc : output_dir sc = output_dir s) by (subst sc; simpl; congruence).
  assert (Hhsc : http sc = http s) by (subst sc; simpl; congruence).
  assert (Hpsc : penalty_pdfs sc = Some found) by (subst sc; reflexivity).
  assert (Hppsc : penalty_pages sc = Some pages) by (subst sc; simpl; congruence).
  assert (Htsc : trace sc = trace sb ++ t2) by (subst sc; exact Htc).
  (* the downloads *)
  pose proof H3 as H3'.
  rewrite (download_pdfs_unfold env found sc Hpsc) in H3'.
  destruct (map_M _ found sc) as [[downloaded|e] sd'] eqn:Hd; [|discriminate].
  injection H3' as Hsd. symmetry in Hsd.
  apply map_M_download_Ok in Hd
    as ((Hod & Hhd) & (Hppd & Hpdd) & Hdd & t3 & Htd & Hgd & Hall).
  assert (Hosd : output_dir sd = output_dir s) by (subst sd; simpl; congruence).
  assert (Hhsd : http sd = http s) by (subst sd; simpl; congruence).
  assert (Hpsd : penalty_pdfs sd = Some downloaded) by (subst sd; reflexivity).
  assert (Hppsd : penalty_pages sd = Some pages) by (subst sd; simpl; congruence).
  assert (Htsd : trace sd = trace sc ++ t3) by (subst sd; exact Htd).
  rewrite Hhsc, Hosc in Hall.
  (* index.json *)
  pose proof H4 as H4'.
  rewrite (write_index_json_unfold env downloaded sd Hpsd) in H4'.
  destruct (builtins.sorted key downloaded) as [ordered|e] eqn:Hsort;
    [|discriminate].
  apply dump_to_Ok in H4' as ((Hoe & Hhe) & (Hppe & Hpde) & Hde & Hte & Hfe).
  assert (Hidx : index_path sd = index_path s)
    by (unfold index_path; now rewrite Hosd).
  rewrite Hidx in Hte, Hfe.
  (* metadata.json *)
  pose proof H5 as H5'. rewrite write_metadata_json_unfold in H5'.
  apply dump_to_Ok in H5' as ((Hof & Hhf) & (Hppf & Hpdf) & Hdf & Htf & Hff).
  autorewrite with state in Hof, Hhf, Hppf, Hpdf, Hdf, Htf, Hff.
  assert (Hmeta : metadata_path se = metadata_path s)
    by (unfold metadata_path; congruence).
  rewrite Hmeta in Htf, Hff.
  rewrite <- app_assoc in Htf.
  eapply RunShape with (sa := sa) (sb := sb) (sc := sc) (sd := sd) (se := se)
    (response := response) (root := root) (pages := pages) (found := found)
    (downloaded := downloaded) (ordered := ordered)
    (now := now env (trace se)) (t0 := t0) (t2 := t2) (t3 := t3);
    eauto.
  - split; congruence.
  - congruence.
  - congruence.
Qed.

(** ** The index *)










(** ** The whole run *)

(** C5.  A run calls its six stages once each, in the order: output
    directory, list page, penalty pages, downloads, [index.json],
    [metadata.json].  When it returns, each stage has started in the state
    left by the stage before and has worked on what that stage stored in
    [self] (see [run_shape]), and the events of the run are those of the
    stages in that order; when it raises, the exception is that of the
    first stage that raised, and no later stage has run. *)
Theorem run_is_a_single_pass (env : Env) (s s' : State) (r : Result unit) :
  run env s = (r, s') ->
  match r with
  | Ok _ => runs_through (stages env s) s s' /\ run_shape env s s'
  | Raise e =>
      exists done m rest sk,
        stages env s = done ++ m :: rest
        /\ runs_through done s sk
        /\ m sk = (Raise e, s')
  end.
Proof.
  intros H. pose proof H as H'. rewrite run_is_stages in H'.
  apply sequence_outcome in H'. destruct r as [[]|e]; [|exact H'].
  split; [exact H' | now apply run_Ok_shape].
Qed.



Lemma outcome_facts {A} w t (r : Result A) :
  outcome w t r ->
  Forall (plain_get w) t
  /\ forall pre ev post e,
       t = pre ++ ev :: post -> failure_of ev = Some e ->
       post = [] /\ r = Raise e.
Proof.
  intros [Hc | t0 ev0 e0 Heq Hc Hp Hf He].
  - split; [eapply Forall_impl; [exact Hc|]; intros ev [_ H]; exact H|].
    intros pre ev post e -> Hfail.
    apply List.Forall_forall with (x := ev) in Hc.
    + destruct Hc as [Hc _]. congruence.
    + apply in_or_app. right. left. reflexivity.
  - split.
    + subst t. apply Forall_app. split.
      * eapply Forall_impl; [exact Hc|]. intros ev [_ H]. exact H.
      * constructor; [exact Hp | constructor].
    + intros pre ev post e Ht Hfail. rewrite Heq in Ht. symmetry in Ht.
      apply middle_or_last in Ht as [(-> & -> & ->) | Hin].
      * split; [reflexivity | congruence].
      * apply List.Forall_forall with (x := ev) in Hc; [|exact Hin].
        destruct Hc as [Hc _]. congruence.
Qed.

Lemma downloaded_urls w dir t (found downloaded : list PDF.t) :
  Forall2 (downloaded_as w dir t) found downloaded ->
  map PDF.url downloaded = map PDF.url found.
Proof.
  induction 1 as [|p p' l l' (response & -> & _) _ IH]; [reflexivity|].
  simpl. now rewrite IH.
Qed.

(** C8.  In a run started by [main], every request is one call of [get]
    on the session that [RequestsWrapper] created with an expiry of one
    hour, with the URL as its only argument; a GET that fails is the last
    event of the run, so nothing is asked again; and when the run returns,
    the requests are exactly the list page, the penalty pages and the
    PDFs, one for each in that order, however often a URL occurs. *)
Theorem one_plain_get_per_request (env : Env) (output_dir : option string)
    (fs : gmap string string) (ds : gset string) (past : list Event)
    (r : Result unit) (s' : State) :
  main env output_dir fs ds past = (r, s') ->
  exists t,
    trace s' = past ++ t
    /\ http s' = RequestsWrapper.__init__
    /\ requests_cache.expire_after (RequestsWrapper.session (http s')) = ONE_HOUR
    /\ datetime.total_seconds ONE_HOUR = 3600
    /\ Forall (plain_get (http s')) t
    /\ (forall pre ev post e,
          t = pre ++ ev :: post -> failure_of ev = Some e ->
          post = [] /\ r = Raise e)
    /\ (r = Ok tt ->
        exists pages pdfs,
          penalty_pages s' = Some pages /\ penalty_pdfs s' = Some pdfs
          /\ get_urls t = LIST_URL :: pages ++ map PDF.url pdfs).
Proof.
  unfold main. intros H.
  set (s := __init__ _ RequestsWrapper.__init__ fs ds past) in H.
  destruct (disciplined_run env s r s' H) as (Hh & _ & t & Ht & Hout).
  apply outcome_facts in Hout as [Hplain Hfail].
  exists t. split; [exact Ht|]. rewrite Hh.
  split; [reflexivity|]. split; [reflexivity|]. split; [reflexivity|].
  split; [exact Hplain|]. split; [exact Hfail|].
  intros ->. apply run_Ok_shape in H. destruct H.
  exists pages, downloaded. split; [exact final_pages|].
  split; [exact final_pdfs|].
  rewrite metadata_trace, index_trace, download_trace, pages_trace,
    list_trace, mkdir_trace in Ht.
  rewrite <- !app_assoc in Ht. apply app_inv_head in Ht. subst t.
  rewrite !get_urls_app, mkdir_gets, pages_gets, download_gets.
  rewrite (downloaded_urls _ _ _ _ _ download_each).
  simpl. now rewrite app_nil_r.
Qed.


Lemma run_is_a_single_pass_witness :
  runs_through (stages Fixture.env Fixture.s0) Fixture.s0
    (snd (run Fixture.env Fixture.s0))
  /\ exists done m rest sk,
       stages Fixture.env_gone Fixture.s0 = done ++ m :: rest
       /\ runs_through done Fixture.s0 sk
       /\ m sk = (Raise (HTTPError 404), snd (run Fixture.env_gone Fixture.s0)).
Proof.
  split.
  - assert (Hrun : run Fixture.env Fixture.s0
                   = (Ok tt, snd (run Fixture.env Fixture.s0)))
      by (vm_compute; reflexivity).
    exact (proj1 (run_is_a_single_pass _ _ _ _ Hrun)).
  - assert (Hrun : run Fixture.env_gone Fixture.s0
                   = (Raise (HTTPError 404),
                      snd (run Fixture.env_gone Fixture.s0)))
      by (vm_compute; reflexivity).
    exact (run_is_a_single_pass _ _ _ _ Hrun).
Defined.


Lemma one_plain_get_per_request_witness :
  let s' := snd (main Fixture.env (Some "out") ∅ ∅ []) in
  Forall (plain_get RequestsWrapper.__init__) (trace s')
  /\ get_urls (trace s')
     = [ LIST_URL; Fixture.acme_page; Fixture.cafe_page; Fixture.bolt_page;
         Fixture.acme_pdf; Fixture.bolt_pdf ].
Proof.
  intros s'.
  assert (Hrun : main Fixture.env (Some "out") ∅ ∅ [] = (Ok tt, s'))
    by (vm_compute; reflexivity).
  destruct (one_plain_get_per_request _ _ _ _ _ _ _ Hrun)
    as (t & Ht & Hh & _ & _ & Hplain & _ & Hok).
  simpl in Ht. rewrite Ht, <- Hh. split; [exact Hplain|].
  destruct (Hok eq_refl) as (pages & pdfs & Hpages & Hpdfs & ->).
  vm_compute in Hpages. injection Hpages as <-.
  vm_compute in Hpdfs. injection Hpdfs as <-.
  reflexivity.
Defined.

(** ** Reading a date back *)

Lemma all_below_spec (p : Z -> bool) (n : nat) :
  all_below n p = true -> forall k, (k < n)%nat -> p (Z.of_nat k) = true.
Proof.
  induction n as [|n IH]; simpl; intros H k Hk; [lia|].
  apply andb_true_iff in H as [Hn H].
  destruct (Nat.eq_dec k n) as [->|Hne]; [exact Hn|].
  apply IH; [exact H | lia].
Qed.

Lemma all_years_read_back :
  all_below (Z.to_nat 10000) year_reads_back = true.
Proof. vm_compute. reflexivity. Qed.

Lemma match_Y_zero_pad (y : Z) :
  0 <= y <= 9999 ->
  datetime.match_Y (Py.zero_pad 4 y) = Some (y, EmptyString).
Proof.
  intros Hy.
  pose proof (all_below_spec _ _ all_years_read_back (Z.to_nat y)) as H.
  rewrite Z2Nat.id in H by lia.
  specialize (H ltac:(lia)). unfold year_reads_back in H.
  destruct (datetime.match_Y (Py.zero_pad 4 y)) as [[y' [|c r]]|];
    try discriminate.
  apply Z.eqb_eq in H. now subst.
Qed.

Lemma lstrip_digits (d : string) :
  Py.all_chars Py.is_digit d = true -> Py.lstrip d = d.
Proof.
  destruct d as [|c d]; [reflexivity|]. simpl. intros H.
  apply andb_true_iff in H as [Hc _]. now rewrite (digit_not_space c Hc).
Qed.

Lemma match_B_month (k : nat) (X : string) :
  (k < 12)%nat ->
  datetime.match_B datetime.f_month 1 (month_name (Z.of_nat k + 1) +:+ X)
  = Some (Z.of_nat k + 1, X).
Proof.
  intros Hk.
  do 12 (destruct k as [|k]; [vm_compute; reflexivity|]). lia.
Qed.

Lemma month_name_not_space (k : nat) (X : string) :
  (k < 12)%nat ->
  Py.lstrip (month_name (Z.of_nat k + 1) +:+ X) = month_name (Z.of_nat k + 1) +:+ X.
Proof.
  intros Hk.
  do 12 (destruct k as [|k]; [vm_compute; reflexivity|]). lia.
Qed.

Lemma match_spaces_blank (X : string) :
  datetime.match_spaces (String " " X) = Some (Py.lstrip X).
Proof. reflexivity. Qed.

Lemma match_after_d_month_year (y m : Z) :
  0 <= y <= 9999 -> 1 <= m <= 12 ->
  datetime.match_after_d (String " " (month_name m +:+ " " +:+ Py.zero_pad 4 y))
  = Some (m, y).
Proof.
  intros Hy Hm.
  replace m with (Z.of_nat (Z.to_nat (m - 1)) + 1) by lia.
  assert (Hk : (Z.to_nat (m - 1) < 12)%nat) by lia.
  revert Hk. generalize (Z.to_nat (m - 1)) as k. intros k Hk.
  unfold datetime.match_after_d.
  rewrite match_spaces_blank, (month_name_not_space k _ Hk).
  rewrite (match_B_month k _ Hk).
  rewrite sapp_cons, sapp_nil_l, match_spaces_blank.
  rewrite lstrip_digits by apply zero_pad_digits.
  now rewrite match_Y_zero_pad.
Qed.

Lemma match_d_day (k : nat) (rest : string) :
  (k < 31)%nat ->
  let d := Z.of_nat k + 1 in
  let s := (if d <? 10 then Py.str1 (Py.digit_char d) else Py.zero_pad 2 d)
           +:+ String " " rest in
  datetime.match_d s = (d, String " " rest) :: tl (datetime.match_d s).
Proof.
  intros Hk.
  do 31 (destruct k as [|k]; [vm_compute; reflexivity|]). lia.
Qed.

Lemma strptime_day_month_year (y m d : Z) :
  datetime.valid_date y m d = true ->
  datetime.strptime_d_B_Y (day_month_year y m d)
  = Ok (datetime.mk_datetime (datetime.mk_date y m d) 0 0 0 0).
Proof.
  intros Hv. pose proof Hv as Hv'. unfold datetime.valid_date in Hv'.
  repeat (apply andb_true_iff in Hv' as [Hv' ?]).
  assert (Hd31 : d <= 31).
  { assert (datetime.days_in_month y m <= 31).
    { unfold datetime.days_in_month.
      repeat match goal with |- context [if ?b then _ else _] => destruct b end; lia. }
    lia. }
  assert (Hy : 0 <= y <= 9999) by lia.
  assert (Hm : 1 <= m <= 12) by lia.
  unfold datetime.strptime_d_B_Y, day_month_year.
  pose proof (match_d_day (Z.to_nat (d - 1))
                (month_name m +:+ " " +:+ Py.zero_pad 4 y) ltac:(lia)) as Hmd.
  cbv zeta in Hmd. replace (Z.of_nat (Z.to_nat (d - 1)) + 1) with d in Hmd by lia.
  replace (" " +:+ month_name m +:+ " " +:+ Py.zero_pad 4 y)
    with (String " " (month_name m +:+ " " +:+ Py.zero_pad 4 y)) by reflexivity.
  rewrite Hmd. cbn [datetime.first_match].
  rewrite (match_after_d_month_year y m Hy Hm). now rewrite Hv.
Qed.

(** C7.  With exactly one element matched by the date XPath,
    [_parse_date] returns the [YYYY-MM-DD] form of what [strptime] reads in
    the stripped text with the format ['%d %B %Y'], so that a text such as
    ['21 December 2017'] gives the ISO form of that day, and it raises what
    [strptime] raises (a [ValueError]) when the text is not in that format;
    with no match or with several it returns [None]. *)
Theorem parse_date_cases (lxml_root : lxml.root) :
  (forall d dt,
     lxml.xpath lxml_root XPATH_DATE = [d] ->
     datetime.strptime_d_B_Y (Py.strip (lxml.text_content d)) = Ok dt ->
     _parse_date lxml_root
     = Ok (Some (datetime.date_isoformat (datetime.date_of dt)))
     /\ iso_8601_date (datetime.date_isoformat (datetime.date_of dt)))
  /\ (forall d year month day,
        lxml.xpath lxml_root XPATH_DATE = [d] ->
        Py.strip (lxml.text_content d) = day_month_year year month day ->
        datetime.valid_date year month day = true ->
        _parse_date lxml_root
        = Ok (Some (Py.zero_pad 4 year +:+ "-" +:+ Py.zero_pad 2 month
                    +:+ "-" +:+ Py.zero_pad 2 day)))
  /\ (forall d,
        lxml.xpath lxml_root XPATH_DATE = [d] ->
        is_Ok (datetime.strptime_d_B_Y (Py.strip (lxml.text_content d))) = false ->
        _parse_date lxml_root = Raise ValueError)
  /\ (length (lxml.xpath lxml_root XPATH_DATE) <> 1%nat ->
      _parse_date lxml_root = Ok None).
Proof.
  unfold _parse_date. split; [|split; [|split]].
  - intros d dt Hd Hdt. rewrite Hd, Hdt. split; [reflexivity|].
    apply date_isoformat_shape.
  - intros d year month day Hd Htext Hvalid.
    rewrite Hd, Htext, (strptime_day_month_year _ _ _ Hvalid). reflexivity.
  - intros d Hd Hbad. rewrite Hd.
    unfold datetime.strptime_d_B_Y in *.
    destruct (datetime.first_match _) as [[[dd m] y]|]; [|reflexivity].
    destruct (datetime.valid_date y m dd); [discriminate | reflexivity].
  - intros Hlen.
    destruct (lxml.xpath lxml_root XPATH_DATE) as [|d [|d' l]];
      [reflexivity | simpl in Hlen; congruence | reflexivity].
Qed.

Lemma parse_date_cases_witness :
  _parse_date (Fixture.doc [] [] [" 21 December 2017 "] []) = Ok (Some "2017-12-21")
  /\ _parse_date (Fixture.doc [] [] ["3 May 2016"] []) = Ok (Some "2016-05-03")
  /\ _parse_date (Fixture.doc [] [] ["To be confirmed"] []) = Raise ValueError
  /\ _parse_date (Fixture.doc [] [] ["1 May 2017"; "2 May 2017"] []) = Ok None.
Proof.
  split; [|split; [|split]].
  - destruct (parse_date_cases (Fixture.doc [] [] [" 21 December 2017 "] []))
      as (H & _ & _ & _).
    destruct (H _ (datetime.mk_datetime (datetime.mk_date 2017 12 21) 0 0 0 0)
                eq_refl eq_refl) as [-> _].
    reflexivity.
  - destruct (parse_date_cases (Fixture.doc [] [] ["3 May 2016"] []))
      as (_ & H & _ & _).
    exact (H _ 2016 5 3 eq_refl eq_refl eq_refl).
  - destruct (parse_date_cases (Fixture.doc [] [] ["To be confirmed"] []))
      as (_ & _ & H & _).
    exact (H _ eq_refl eq_refl).
  - destruct (parse_date_cases (Fixture.doc [] [] ["1 May 2017"; "2 May 2017"] []))
      as (_ & _ & _ & H).
    apply H. simpl. discriminate.
Defined.

(** * Further properties *)

(** ** Links *)

(** X1.  [_expand_href] puts the base URL in front of a link that starts
    with a slash and leaves every other link alone, the empty one and the
    relative ones too; what it returns never starts with a slash, so that
    expanding twice is expanding once. *)
Theorem expand_href_once (href : string) :
  Py.startswith (_expand_href href) "/" = false
  /\ _expand_href (_expand_href href) = _expand_href href
  /\ (Py.startswith href "/" = false -> _expand_href href = href)
  /\ (forall rest, href = String Py.slash rest ->
        _expand_href href = "https://ico.org.uk/" +:+ rest).
Proof.
  assert (H1 : Py.startswith (_expand_href href) "/" = false).
  { unfold _expand_href. destruct (Py.startswith href "/") eqn:E; [reflexivity | exact E]. }
  split; [exact H1|]. split; [|split].
  - unfold _expand_href at 1. now rewrite H1.
  - intros H. unfold _expand_href. now rewrite H.
  - intros rest ->. reflexivity.
Qed.

Lemma expand_href_once_witness :
  _expand_href "/media/1043/notice.pdf" = "https://ico.org.uk/media/1043/notice.pdf"
  /\ _expand_href "notice.pdf" = "notice.pdf".
Proof.
  destruct (expand_href_once "/media/1043/notice.pdf") as (_ & _ & _ & Hslash).
  destruct (expand_href_once "notice.pdf") as (_ & _ & Hrel & _).
  split; [exact (Hslash "media/1043/notice.pdf" eq_refl) | exact (Hrel eq_refl)].
Defined.

(** ** White space *)

Lemma rstrip_last (s : string) (c : ascii) :
  last_char (Py.rstrip s) = Some c -> Py.is_space c = false.
Proof.
  induction s as [|a s IH]; simpl; [discriminate|].
  destruct (Py.rstrip s) as [|b r] eqn:E.
  - destruct (Py.is_space a) eqn:Ea; simpl; [discriminate|].
    intros [= <-]. exact Ea.
  - intros H. apply IH. exact H.
Qed.

Lemma rstrip_head (a : ascii) (s : string) :
  Py.is_space a = false -> exists r, Py.rstrip (String a s) = String a r.
Proof.
  intros Ha. simpl. destruct (Py.rstrip s) as [|b r].
  - rewrite Ha. eexists. reflexivity.
  - eexists. reflexivity.
Qed.

Lemma lstrip_head (s : string) :
  Py.lstrip s = EmptyString
  \/ exists a r, Py.lstrip s = String a r /\ Py.is_space a = false.
Proof.
  induction s as [|a s IH]; simpl; [left; reflexivity|].
  destruct (Py.is_space a) eqn:Ea; [exact IH|]. right. eauto.
Qed.

Lemma strip_no_outer_space (s : string) : no_outer_space (Py.strip s) = true.
Proof.
  unfold Py.strip, no_outer_space.
  destruct (lstrip_head s) as [-> | (a & r & -> & Ha)]; [reflexivity|].
  destruct (rstrip_head a r Ha) as [r' Hr].
  assert (Hl := rstrip_last (String a r)). rewrite Hr in *. rewrite Ha.
  destruct (last_char (String a r')) as [c|]; [|reflexivity].
  now rewrite (Hl c eq_refl).
Qed.

Lemma rstrip_id (t : string) :
  match last_char t with Some c => Py.is_space c = false | None => True end ->
  Py.rstrip t = t.
Proof.
  induction t as [|a t IH]; [reflexivity|]. simpl.
  destruct t as [|b t'].
  - intros ->. reflexivity.
  - intros H. rewrite (IH H). reflexivity.
Qed.

Lemma strip_id (t : string) : no_outer_space t = true -> Py.strip t = t.
Proof.
  unfold no_outer_space, Py.strip. intros H.
  apply andb_true_iff in H as [Hh Hl].
  assert (E : Py.lstrip t = t).
  { destruct t as [|a t]; [reflexivity|]. simpl.
    apply negb_true_iff in Hh. now rewrite Hh. }
  rewrite E. apply rstrip_id.
  destruct (last_char t) as [c|]; [|exact I]. now apply negb_true_iff in Hl.
Qed.

(** X3.  [_parse_title] returns a title exactly when the page has one
    [h1]: its text without the white space around it, which may be the
    empty string; the title has no white space at either end and stripping
    it again changes nothing.  With no [h1] or with several the title is
    [None]. *)
Theorem parse_title_stripped (lxml_root : lxml.root) :
  (forall t, _parse_title lxml_root = Some t <->
     exists h1, lxml.xpath lxml_root "//h1" = [h1]
                /\ t = Py.strip (lxml.text_content h1))
  /\ (forall t, _parse_title lxml_root = Some t ->
        no_outer_space t = true /\ Py.strip t = t)
  /\ (_parse_title lxml_root = None <->
      length (lxml.xpath lxml_root "//h1") <> 1%nat).
Proof.
  unfold _parse_title.
  destruct (lxml.xpath lxml_root "//h1") as [|h1 [|h1' l]]; simpl.
  - split; [|split].
    + intros t. split; [discriminate | intros (h & Hh & _); discriminate].
    + discriminate.
    + split; [discriminate | reflexivity].
  - split; [|split].
    + intros t. split.
      * intros [= <-]. eauto.
      * intros (h & [= <-] & ->). reflexivity.
    + intros t [= <-]. split; [apply strip_no_outer_space|].
      apply strip_id, strip_no_outer_space.
    + split; [discriminate | congruence].
  - split; [|split].
    + intros t. split; [discriminate | intros (h & Hh & _); discriminate].
    + discriminate.
    + split; [discriminate | reflexivity].
Qed.

Lemma parse_title_stripped_witness :
  _parse_title (Fixture.doc [] [] [] [" Acme Ltd "]) = Some "Acme Ltd"
  /\ no_outer_space "Acme Ltd" = true
  /\ _parse_title (Fixture.doc [] [] [] ["   "]) = Some EmptyString
  /\ _parse_title (Fixture.doc [] [] [] ["Bolt plc"; "Related"]) = None.
Proof.
  destruct (parse_title_stripped (Fixture.doc [] [] [] [" Acme Ltd "]))
    as (Hiff & Hshape & _).
  assert (H : _parse_title (Fixture.doc [] [] [] [" Acme Ltd "]) = Some "Acme Ltd").
  { apply Hiff. eexists. split; reflexivity. }
  split; [exact H|]. split; [exact (proj1 (Hshape _ H))|].
  split.
  - apply (proj1 (parse_title_stripped (Fixture.doc [] [] [] ["   "]))).
    eexists. split; reflexivity.
  - apply (proj2 (proj2 (parse_title_stripped
                           (Fixture.doc [] [] [] ["Bolt plc"; "Related"])))).
    simpl. discriminate.
Defined.

(** ** What a method leaves alone *)

Lemma only_trace_refl s : only_trace s s.
Proof. repeat split. Qed.

Lemma only_trace_trans s1 s2 s3 :
  only_trace s1 s2 -> only_trace s2 s3 -> only_trace s1 s3.
Proof.
  unfold only_trace, same_self, same_store, same_lists.
  intros H1 H2. intuition congruence.
Qed.

Lemma only_trace_and_files_refl s : only_trace_and_files s s.
Proof. repeat split. Qed.

Lemma only_trace_and_files_trans s1 s2 s3 :
  only_trace_and_files s1 s2 -> only_trace_and_files s2 s3 ->
  only_trace_and_files s1 s3.
Proof.
  unfold only_trace_and_files, same_self, same_lists.
  intros H1 H2. intuition congruence.
Qed.

Lemma keeps_map_M {A B} (R : State -> State -> Prop) (f : A -> M B) (l : list A) :
  (forall s, R s s) -> (forall s1 s2 s3, R s1 s2 -> R s2 s3 -> R s1 s3) ->
  (forall x, keeps R (f x)) -> keeps R (map_M f l).
Proof.
  intros Hrefl Htrans Hf. induction l as [|x l IH]; intros s r s' H; simpl in H.
  - injection H as <- <-. apply Hrefl.
  - apply bind_inv in H as [(y & s1 & Hx & H) | (e & Hx & ->)].
    + apply bind_inv in H as [(ys & s2 & Hl & H) | (e & Hl & ->)].
      * injection H as <- <-. eapply Htrans; [eapply Hf | eapply IH]; eauto.
      * eapply Htrans; [eapply Hf | eapply IH]; eauto.
    + eapply Hf; eauto.
Qed.

Lemma keeps_get_as_lxml env url : keeps only_trace (_get_as_lxml env url).
Proof.
  intros s r s' H. rewrite _get_as_lxml_unfold in H. cbv zeta in H.
  injection H as _ <-. repeat split.
Qed.

Lemma keeps_parse_page env url :
  keeps only_trace (parse_pdf_url_from_penalty_page env url).
Proof.
  intros s r s' H.
  destruct (_get_as_lxml env url s) as [r1 s1] eqn:Hget.
  pose proof (keeps_get_as_lxml env url s r1 s1 Hget) as H1.
  rewrite (parse_page_unfold env url s s1 r1 Hget) in H.
  assert (Hs : s' = s1
               \/ s' = add_event (EvLog "WARNING" ("No PDF on page " +:+ url)) s1).
  { destruct r1 as [root|e]; [|injection H as _ <-; auto].
    destruct (lxml.xpath root XPATH_PDF_LINK) as [|a [|a' l]].
    - injection H as _ <-. auto.
    - destruct (attrib_get a "href"); [|injection H as _ <-; auto].
      destruct (_parse_date root); injection H as _ <-; auto.
    - injection H as _ <-. auto. }
  destruct Hs as [-> | ->]; [exact H1|].
  eapply only_trace_trans; [exact H1|]. repeat split.
Qed.

Lemma keeps_download env pdf :
  keeps only_trace_and_files (download_and_add_sha env pdf).
Proof.
  intros s r s' H.
  destruct (download_and_add_sha_unfold env pdf s)
    as (s0 & Heq & Ho & Hh & Hpp & Hpd & Hd & _).
  cbv zeta in Heq. rewrite H in Heq.
  assert (s' = s0) by congruence. subst s0. repeat split; assumption.
Qed.

(** ** The output directory *)



(** ** The list page *)





(** ** The two stages that fill [penalty_pdfs] *)

Lemma filter_None_length {A} (l : list (option A)) :
  (length (filter_None l) <= length l)%nat.
Proof. induction l as [|[x|] l IH]; simpl; lia. Qed.

(** X5.  [parse_pdf_urls_from_penalty_pages] touches no file and leaves
    [penalty_pages] alone.  It assigns [penalty_pdfs] only when every page
    has been processed: then there is one request for each page, in order,
    at most one record for each page, and no record has a [sha256] yet.
    When a page raises, [penalty_pdfs] is as it was before the call; when
    [penalty_pages] was never set, the call raises a [TypeError] and does
    nothing else. *)
Theorem parse_pages_all_or_nothing (env : Env) (s s' : State) (r : Result unit) :
  parse_pdf_urls_from_penalty_pages env s = (r, s') ->
  same_self s s' /\ same_store s s' /\ penalty_pages s' = penalty_pages s
  /\ match r with
     | Ok _ =>
         exists pages pdfs t,
           penalty_pages s = Some pages /\ penalty_pdfs s' = Some pdfs
           /\ (length pdfs <= length pages)%nat
           /\ new_events s s' t /\ get_urls t = pages
           /\ Forall parsed_record pdfs
     | Raise e =>
         penalty_pdfs s' = penalty_pdfs s
         /\ (penalty_pages s = None -> e = TypeError /\ s' = s)
     end.
Proof.
  intros H. destruct (penalty_pages s) as [pages|] eqn:Hp.
  - rewrite (parse_pages_stage_unfold env pages s Hp) in H.
    destruct (map_M _ pages s) as [[found|e] s1] eqn:Hm.
    + injection H as <- <-.
      pose proof (map_M_length _ _ _ _ _ Hm) as Hlen.
      apply map_M_parse_Ok in Hm
        as (Hself & Hstore & (Hpp & Hpd) & (t & Ht & Hg) & Hrec).
      split; [exact Hself|]. split; [exact Hstore|].
      split; [simpl; congruence|].
      exists pages, (filter_None found), t.
      split; [reflexivity|]. split; [reflexivity|].
      split; [rewrite <- Hlen; apply filter_None_length|].
      split; [exact Ht|]. split; [exact Hg | exact Hrec].
    + injection H as <- <-.
      assert (Hk : only_trace s s1).
      { eapply (keeps_map_M only_trace); eauto using only_trace_refl,
          only_trace_trans, keeps_parse_page. }
      destruct Hk as (Hself & Hstore & Hpp & Hpd).
      split; [exact Hself|]. split; [exact Hstore|].
      split; [congruence|]. split; [exact Hpd | discriminate].
  - unfold parse_pdf_urls_from_penalty_pages in H.
    unfold bind at 1 in H. rewrite get_state_eq in H. cbv beta iota zeta in H.
    rewrite Hp in H. injection H as <- <-.
    split; [split; reflexivity|]. split; [split; reflexivity|]. auto.
Qed.

Lemma parse_pages_all_or_nothing_witness :
  let good := parse_pdf_urls_from_penalty_pages Fixture.env
                (Fixture.with_pages [Fixture.acme_page; Fixture.cafe_page]) in
  let bad := parse_pdf_urls_from_penalty_pages Fixture.env
               (Fixture.with_pages [Fixture.acme_page; Fixture.duo_page]) in
  (exists pdfs, penalty_pdfs (snd good) = Some pdfs /\ length pdfs = 1%nat)
  /\ penalty_pdfs (snd bad) = None
  /\ fst (parse_pdf_urls_from_penalty_pages Fixture.env Fixture.s0)
     = Raise TypeError.
Proof.
  intros good bad. split; [|split].
  - assert (Hrun : good = (Ok tt, snd good)) by (vm_compute; reflexivity).
    destruct (parse_pages_all_or_nothing _ _ _ _ Hrun)
      as (_ & _ & _ & pages & pdfs & t & _ & Hp & _).
    exists pdfs. split; [exact Hp|].
    vm_compute in Hp. injection Hp as <-. reflexivity.
  - destruct (parse_pages_all_or_nothing Fixture.env
                (Fixture.with_pages [Fixture.acme_page; Fixture.duo_page])
                (snd bad) (fst bad) (surjective_pairing bad)) as (_ & _ & _ & H).
    assert (Hr : exists e, fst bad = Raise e)
      by (eexists; vm_compute; reflexivity).
    destruct Hr as [e Hr]. rewrite Hr in H. destruct H as [-> _]. reflexivity.
  - destruct (parse_pages_all_or_nothing Fixture.env Fixture.s0
                (snd (parse_pdf_urls_from_penalty_pages Fixture.env Fixture.s0))
                (fst (parse_pdf_urls_from_penalty_pages Fixture.env Fixture.s0))
                (surjective_pairing _)) as (_ & _ & _ & H).
    destruct (fst (parse_pdf_urls_from_penalty_pages Fixture.env Fixture.s0))
      as [[]|e] eqn:Hr; [discriminate Hr|].
    destruct H as [_ H]. destruct (H eq_refl) as [-> _]. reflexivity.
Defined.

Lemma map_M_download_hashed env pdfs s downloaded s' :
  map_M (download_and_add_sha env) pdfs s = (Ok downloaded, s') ->
  Forall2 hashed_from pdfs downloaded.
Proof.
  intros H. apply map_M_download_Ok in H as (_ & _ & _ & t & _ & _ & Hall).
  eapply Forall2_impl; [exact Hall|].
  intros p p' (response & -> & _). eexists. reflexivity.
Qed.

(** X6.  [download_pdfs] leaves [penalty_pages] and the directories
    alone.  It assigns [penalty_pdfs] only when every PDF has been
    downloaded: then the list has the same length and order, and each
    record is the former one with a [sha256].  When a download raises,
    [penalty_pdfs] is as it was, so that no record has a [sha256] even
    though files may have been written; when [penalty_pdfs] was never set,
    the call raises a [TypeError] and does nothing else. *)
Theorem download_pdfs_all_or_nothing (env : Env) (s s' : State) (r : Result unit) :
  download_pdfs env s = (r, s') ->
  same_self s s' /\ penalty_pages s' = penalty_pages s /\ dirs s' = dirs s
  /\ match r with
     | Ok _ =>
         exists pdfs downloaded t,
           penalty_pdfs s = Some pdfs /\ penalty_pdfs s' = Some downloaded
           /\ Forall2 hashed_from pdfs downloaded
           /\ new_events s s' t /\ get_urls t = map PDF.url pdfs
     | Raise e =>
         penalty_pdfs s' = penalty_pdfs s
         /\ (penalty_pdfs s = None -> e = TypeError /\ s' = s)
     end.
Proof.
  intros H. destruct (penalty_pdfs s) as [pdfs|] eqn:Hp.
  - rewrite (download_pdfs_unfold env pdfs s Hp) in H.
    destruct (map_M _ pdfs s) as [[downloaded|e] s1] eqn:Hm.
    + injection H as <- <-.
      pose proof (map_M_download_hashed _ _ _ _ _ Hm) as Hh.
      apply map_M_download_Ok in Hm
        as (Hself & (Hpp & Hpd) & Hd & (t & Ht & Hg & _)).
      split; [exact Hself|]. split; [exact Hpp|]. split; [exact Hd|].
      exists pdfs, downloaded, t.
      split; [reflexivity|]. split; [reflexivity|]. split; [exact Hh|].
      split; [exact Ht | exact Hg].
    + injection H as <- <-.
      assert (Hk : only_trace_and_files s s1).
      { eapply (keeps_map_M only_trace_and_files);
          eauto using only_trace_and_files_refl, only_trace_and_files_trans,
            keeps_download. }
      destruct Hk as (Hself & (Hpp & Hpd) & Hd).
      split; [exact Hself|]. split; [exact Hpp|]. split; [exact Hd|].
      split; [congruence | discriminate].
  - unfold download_pdfs in H.
    unfold bind at 1 in H. rewrite get_state_eq in H. cbv beta iota zeta in H.
    rewrite Hp in H. injection H as <- <-.
    split; [split; reflexivity|]. auto.
Qed.

Lemma download_pdfs_all_or_nothing_witness :
  let s := set_penalty_pdfs
             (Some [Fixture.acme_record; Fixture.missing_record]) Fixture.s0 in
  let out := download_pdfs Fixture.env s in
  fst out = Raise (HTTPError 404)
  /\ penalty_pdfs (snd out) = Some [Fixture.acme_record; Fixture.missing_record]
  /\ files (snd out) !! "out/pdfs/acme-mpn.pdf" = Some "%PDF-1.4 acme".
Proof.
  intros s out.
  assert (Hr : fst out = Raise (HTTPError 404)) by (vm_compute; reflexivity).
  destruct (download_pdfs_all_or_nothing Fixture.env s (snd out) (fst out)
              (surjective_pairing out)) as (_ & _ & _ & H).
  rewrite Hr in H. destruct H as [Hp _].
  split; [exact Hr|]. split; [exact Hp | vm_compute; reflexivity].
Defined.

(** ** Digests *)

Lemma hex_digit_is_hex (n : Z) : 0 <= n < 16 -> is_hex (json.hex_digit n) = true.
Proof.
  intros H. rewrite <- (Z2Nat.id n) by lia.
  assert (Hk : (Z.to_nat n < 16)%nat) by lia.
  revert Hk. generalize (Z.to_nat n) as k. intros k Hk.
  do 16 (destruct k as [|k]; [reflexivity|]). lia.
Qed.

Lemma hex_byte_shape (b : Z) :
  0 <= b < 256 ->
  String.length (hashlib.hex_byte b) = 2%nat
  /\ Py.all_chars is_hex (hashlib.hex_byte b) = true.
Proof.
  intros H. split; [reflexivity|]. unfold hashlib.hex_byte. simpl.
  rewrite !hex_digit_is_hex; [reflexivity| |].
  - apply Z.mod_pos_bound. lia.
  - split; [apply Z.div_pos; lia | apply Z.div_lt_upper_bound; lia].
Qed.

Lemma be_bytes_spec (k : nat) (n : Z) :
  length (hashlib.be_bytes k n) = k
  /\ Forall (fun b => 0 <= b < 256) (hashlib.be_bytes k n).
Proof.
  revert n. induction k as [|k IH]; intros n; simpl.
  - split; [reflexivity | constructor].
  - destruct (IH (n / 256)) as [Hl Hf]. split.
    + rewrite length_app, Hl. simpl. lia.
    + apply Forall_app. split; [exact Hf|].
      constructor; [apply Z.mod_pos_bound; lia | constructor].
Qed.

Lemma hex_bytes_shape (bs : list Z) :
  Forall (fun b => 0 <= b < 256) bs ->
  let text := fold_right (fun b acc => hashlib.hex_byte b +:+ acc) EmptyString bs in
  String.length text = (2 * length bs)%nat /\ Py.all_chars is_hex text = true.
Proof.
  induction 1 as [|b bs Hb _ [IHl IHc]]; cbv zeta; simpl fold_right.
  - split; reflexivity.
  - destruct (hex_byte_shape b Hb) as [Hl Hc]. cbv zeta in IHl, IHc. split.
    + rewrite sapp_length, Hl, IHl. simpl length. lia.
    + now rewrite all_chars_app, Hc, IHc.
Qed.

Lemma hex_word_shape (w : Z) :
  String.length (hashlib.hex_word w) = 8%nat
  /\ Py.all_chars is_hex (hashlib.hex_word w) = true.
Proof.
  unfold hashlib.hex_word. destruct (be_bytes_spec 4 w) as [Hl Hf].
  destruct (hex_bytes_shape _ Hf) as [Hl' Hc]. cbv zeta in Hl', Hc.
  rewrite Hl in Hl'. split; assumption.
Qed.

Lemma compress_length (h block : list Z) :
  length h = 8%nat -> length (hashlib.compress h block) = 8%nat.
Proof.
  intros H. unfold hashlib.compress. rewrite length_zip_with, H. reflexivity.
Qed.

Lemma digest_words_length (s : string) : length (hashlib.digest_words s) = 8%nat.
Proof.
  unfold hashlib.digest_words. cbv zeta.
  generalize (hashlib.blocks
                (length (hashlib.words (length (hashlib.pad (hashlib.bytes_of s)))
                           (hashlib.pad (hashlib.bytes_of s))))
                (hashlib.words (length (hashlib.pad (hashlib.bytes_of s)))
                   (hashlib.pad (hashlib.bytes_of s)))) as bl.
  assert (H0 : length hashlib.H0 = 8%nat) by reflexivity.
  revert H0. generalize hashlib.H0 as h.
  intros h Hh bl. revert h Hh.
  induction bl as [|b bl IH]; intros h Hh; simpl; [exact Hh|].
  apply IH. now apply compress_length.
Qed.

(** A digest is sixty-four lower-case hexadecimal digits. *)
Lemma sha256_hexdigest_shape (s : string) :
  String.length (hashlib.sha256_hexdigest s) = 64%nat
  /\ Py.all_chars is_hex (hashlib.sha256_hexdigest s) = true.
Proof.
  unfold hashlib.sha256_hexdigest.
  pose proof (digest_words_length s) as Hl.
  revert Hl. generalize (hashlib.digest_words s) as ws. intros ws.
  assert (H : forall ws : list Z,
            String.length (fold_right (fun w acc => hashlib.hex_word w +:+ acc)
                             EmptyString ws) = (8 * length ws)%nat
            /\ Py.all_chars is_hex
                 (fold_right (fun w acc => hashlib.hex_word w +:+ acc)
                    EmptyString ws) = true).
  { induction ws0 as [|w ws0 [IHl IHc]]; simpl fold_right.
    - split; reflexivity.
    - destruct (hex_word_shape w) as [Hwl Hwc]. split.
      + rewrite sapp_length, Hwl, IHl. simpl length. lia.
      + now rewrite all_chars_app, Hwc, IHc. }
  intros Hl. destruct (H ws) as [H1 H2]. rewrite Hl in H1. split; assumption.
Qed.

(** X7.  The static method [sha256] reads the file and changes nothing
    but the trace.  When it returns, the file exists and the result is the
    SHA-256 digest of its content: sixty-four lower-case hexadecimal
    digits, also for an empty file.  When the file does not exist it
    raises. *)
Theorem sha256_of_a_file (env : Env) (filename : string) (s s' : State)
    (r : Result string) :
  sha256 env filename s = (r, s') ->
  only_trace s s'
  /\ (forall digest, r = Ok digest ->
        exists buf,
          files s !! filename = Some buf
          /\ digest = hashlib.sha256_hexdigest buf
          /\ String.length digest = 64%nat
          /\ Py.all_chars is_hex digest = true)
  /\ (files s !! filename = None -> exists e, r = Raise e).
Proof.
  unfold sha256. intros H.
  unfold bind at 1 in H. rewrite read_binary_eq in H.
  destruct (open_error env (trace s) filename "rb") as [e|].
  - injection H as <- <-. split; [repeat split|]. split; [discriminate | eauto].
  - destruct (files s !! filename) as [buf|] eqn:Hf.
    + rewrite ret_eq in H. injection H as <- <-.
      split; [repeat split|]. split; [|discriminate].
      intros digest [= <-]. exists buf.
      destruct (sha256_hexdigest_shape buf) as [Hl Hc]. auto.
    + injection H as <- <-. split; [repeat split|]. split; [discriminate | eauto].
Qed.

Lemma sha256_of_a_file_witness :
  let s := set_files {[ "out/pdfs/empty.pdf" := EmptyString ]} Fixture.s0 in
  fst (sha256 Fixture.env "out/pdfs/empty.pdf" s)
  = Ok "e3b0c44298fc1c149afbf4c8996fb92427ae41e4649b934ca495991b7852b855"
  /\ String.length "e3b0c44298fc1c149afbf4c8996fb92427ae41e4649b934ca495991b7852b855"
     = 64%nat
  /\ exists e, fst (sha256 Fixture.env "out/pdfs/none.pdf" s) = Raise e.
Proof.
  intros s.
  set (out := sha256 Fixture.env "out/pdfs/empty.pdf" s).
  assert (Hr : fst out
               = Ok "e3b0c44298fc1c149afbf4c8996fb92427ae41e4649b934ca495991b7852b855")
    by (vm_compute; reflexivity).
  destruct (sha256_of_a_file Fixture.env "out/pdfs/empty.pdf" s (snd out) (fst out)
              (surjective_pairing out)) as (_ & Hok & _).
  destruct (Hok _ Hr) as (buf & _ & _ & Hlen & _).
  split; [exact Hr|]. split; [exact Hlen|].
  destruct (sha256_of_a_file Fixture.env "out/pdfs/none.pdf" s _ _
              (surjective_pairing _)) as (_ & _ & Hnone).
  apply Hnone. vm_compute. reflexivity.
Defined.

(** ** metadata.json *)











(** ** File names and paths *)

Lemma basename_no_slash (p : string) :
  Py.all_chars not_slash (posixpath.basename p) = true.
Proof.
  induction p as [|c p IH]; simpl; [reflexivity|].
  destruct (Ascii.eqb c Py.slash) eqn:Ec; [exact IH|].
  destruct (Py.all_chars (fun x => negb (Ascii.eqb x Py.slash)) p) eqn:Ep;
    [|exact IH].
  simpl. unfold not_slash at 1. rewrite Ec. exact Ep.
Qed.

Lemma basename_slash_free (p : string) :
  Py.all_chars not_slash p = true -> posixpath.basename p = p.
Proof.
  destruct p as [|c p]; [reflexivity|]. simpl.
  intros H. apply andb_true_iff in H as [Hc Hp].
  unfold not_slash in Hc. apply negb_true_iff in Hc. rewrite Hc.
  unfold not_slash in Hp. now rewrite Hp.
Qed.

Lemma endswith_char_cons (c x : ascii) (a : string) :
  a <> EmptyString -> Py.endswith_char (String x a) c = Py.endswith_char a c.
Proof. destruct a; [congruence | reflexivity]. Qed.

(** [basename] splits a path after its last slash. *)
Lemma basename_suffix (p : string) :
  exists pre,
    p = pre +:+ posixpath.basename p
    /\ (pre = EmptyString \/ Py.endswith_char pre Py.slash = true).
Proof.
  induction p as [|c p (pre & Hp & Hpre)]; simpl.
  - exists EmptyString. split; [reflexivity | now left].
  - destruct (Ascii.eqb_spec c Py.slash) as [->|Hc].
    + exists (String Py.slash pre). rewrite sapp_cons, <- Hp.
      split; [reflexivity | right].
      destruct Hpre as [-> | He]; [reflexivity|].
      rewrite endswith_char_cons; [exact He|]. now intros ->.
    + destruct (Py.all_chars (fun x => negb (Ascii.eqb x Py.slash)) p) eqn:Ep.
      * exists EmptyString. split; [reflexivity | now left].
      * exists (String c pre). rewrite sapp_cons, <- Hp.
        split; [reflexivity | right].
        destruct Hpre as [-> | He].
        -- rewrite sapp_nil_l in Hp.
           pose proof (basename_no_slash p) as Hn. rewrite <- Hp in Hn.
           unfold not_slash in Hn. congruence.
        -- rewrite endswith_char_cons; [exact He|]. now intros ->.
Qed.

Lemma endswith_char_app (a b : string) (c : ascii) :
  b <> EmptyString -> Py.endswith_char (a +:+ b) c = Py.endswith_char b c.
Proof.
  intros Hb. induction a as [|x a IH]; [reflexivity|].
  rewrite sapp_cons, endswith_char_cons; [exact IH|].
  destruct a; [exact Hb | discriminate].
Qed.

Lemma join2_pdfs (dir : string) :
  exists front, posixpath.join2 dir "pdfs" = front +:+ "pdfs".
Proof.
  unfold posixpath.join2. change (Py.startswith "pdfs" "/") with false.
  cbv iota. destruct dir as [|c dir].
  - exists EmptyString. reflexivity.
  - destruct (Py.endswith_char (String c dir) Py.slash).
    + eexists. reflexivity.
    + exists (String c dir +:+ "/"). now rewrite sapp_assoc.
Qed.

Lemma startswith_slash_free (name : string) :
  Py.all_chars not_slash name = true -> Py.startswith name "/" = false.
Proof.
  destruct name as [|c name]; [reflexivity|]. simpl.
  intros H. apply andb_true_iff in H as [Hc _].
  unfold not_slash in Hc. apply negb_true_iff in Hc.
  unfold Py.startswith. cbn [Py.strip_prefix].
  change "/"%char with Py.slash. rewrite Ascii.eqb_sym, Hc. reflexivity.
Qed.

(** A name without a slash is joined below the [pdfs] directory. *)
Lemma join_pdfs_name (dir name : string) :
  Py.all_chars not_slash name = true ->
  posixpath.join dir ["pdfs"; name]
  = posixpath.join dir ["pdfs"] +:+ "/" +:+ name.
Proof.
  intros Hn. unfold posixpath.join. cbn [fold_left].
  destruct (join2_pdfs dir) as [front Hf]. rewrite Hf.
  unfold posixpath.join2 at 1. rewrite (startswith_slash_free name Hn).
  rewrite endswith_char_app by discriminate.
  change (Py.endswith_char "pdfs" Py.slash) with false.
  destruct (front +:+ "pdfs") as [|c rest] eqn:E; [|reflexivity].
  destruct front; discriminate E.
Qed.

Lemma endswith_slash_not_free (pre rest : string) :
  Py.endswith_char pre Py.slash = true ->
  Py.all_chars (fun x => negb (Ascii.eqb x Py.slash)) (pre +:+ rest) = false.
Proof.
  induction pre as [|c pre IH]; [discriminate|].
  intros H. rewrite sapp_cons. simpl.
  destruct pre as [|c' pre'].
  - simpl in H. now rewrite H.
  - rewrite IH by exact H. apply andb_false_r.
Qed.

(** What follows the last slash is the base name, and nothing else is. *)
Lemma basename_app (pre name : string) :
  pre = EmptyString \/ Py.endswith_char pre Py.slash = true ->
  Py.all_chars not_slash name = true ->
  posixpath.basename (pre +:+ name) = name.
Proof.
  intros Hpre Hn. induction pre as [|c pre IH].
  - rewrite sapp_nil_l. now apply basename_slash_free.
  - destruct Hpre as [Hpre | Hpre]; [discriminate|].
    rewrite sapp_cons. simpl.
    destruct pre as [|c' pre'].
    + simpl in Hpre. rewrite Hpre, sapp_nil_l. now apply basename_slash_free.
    + rewrite endswith_slash_not_free by exact Hpre.
      assert (IH' : posixpath.basename (String c' pre' +:+ name) = name)
        by (apply IH; now right).
      destruct (Ascii.eqb c Py.slash); exact IH'.
Qed.

Lemma expand_href_no_slash (href : string) :
  Py.startswith (_expand_href href) "/" = false.
Proof.
  unfold _expand_href.
  destruct (Py.startswith href "/") eqn:E; [reflexivity | exact E].
Qed.

Lemma parse_page_record env url s pdf s' :
  parse_pdf_url_from_penalty_page env url s = (Ok (Some pdf), s') ->
  exists root a href date,
    lxml.xpath root XPATH_PDF_LINK = [a]
    /\ assoc "href" (lxml.attrib a) = Some href
    /\ _parse_date root = Ok date
    /\ pdf = pdf_record (_expand_href href) date root.
Proof.
  destruct (_get_as_lxml env url s) as [r s1] eqn:Hget.
  rewrite (parse_page_unfold env url s s1 r Hget).
  destruct r as [root|e]; [|discriminate].
  destruct (lxml.xpath root XPATH_PDF_LINK) as [|a [|a' l]] eqn:Ex;
    [discriminate | | discriminate].
  unfold attrib_get.
  destruct (assoc "href" (lxml.attrib a)) as [href|] eqn:Ea; [|discriminate].
  destruct (_parse_date root) as [date|e] eqn:Ed; [|discriminate].
  intros [= <- _]. exists root, a, href, date. rewrite Ex. auto.
Qed.

(** X9.  A record that [parse_pdf_url_from_penalty_page] returns is built
    from the one anchor of the page: its URL is the expanded [href] and
    never starts with a slash, it has no digest yet, and its file name is
    what follows the last slash of the URL (the whole URL when it has no
    slash, the empty string when the URL ends in one).  The file name has
    no slash, so the file that [download_and_add_sha] opens for the record
    lies directly in the [pdfs] directory, whatever the link on the page
    is. *)
Theorem parsed_record_file_name (env : Env) (url : string) (s s' : State)
    (pdf : PDF.t) :
  parse_pdf_url_from_penalty_page env url s = (Ok (Some pdf), s') ->
  Py.startswith (PDF.url pdf) "/" = false
  /\ PDF.sha256 pdf = None
  /\ Py.all_chars not_slash (PDF.filename pdf) = true
  /\ (exists pre,
        PDF.url pdf = pre +:+ PDF.filename pdf
        /\ (pre = EmptyString \/ Py.endswith_char pre Py.slash = true))
  /\ (forall pre name,
        PDF.url pdf = pre +:+ name ->
        pre = EmptyString \/ Py.endswith_char pre Py.slash = true ->
        Py.all_chars not_slash name = true ->
        PDF.filename pdf = name)
  /\ forall dir,
       pdf_path dir pdf
       = posixpath.join dir ["pdfs"] +:+ "/" +:+ PDF.filename pdf.
Proof.
  intros H. apply parse_page_record in H as (root & a & href & date & _ & _ & _ & ->).
  unfold pdf_record, pdf_path. cbn [PDF.url PDF.filename PDF.sha256].
  split; [apply expand_href_no_slash|]. split; [reflexivity|].
  split; [apply basename_no_slash|]. split; [apply basename_suffix|].
  split.
  - intros pre name -> Hpre Hname. now apply basename_app.
  - intros dir. apply join_pdfs_name, basename_no_slash.
Qed.

Lemma parsed_record_file_name_witness :
  exists pdf s',
    parse_pdf_url_from_penalty_page Fixture.env Fixture.acme_page Fixture.s0
    = (Ok (Some pdf), s')
    /\ PDF.filename pdf = "acme-mpn.pdf"
    /\ pdf_path "out" pdf = "out/pdfs/acme-mpn.pdf".
Proof.
  set (out := parse_pdf_url_from_penalty_page Fixture.env Fixture.acme_page
                Fixture.s0).
  assert (Hr : fst out = Ok (Some Fixture.acme_record)) by (vm_compute; reflexivity).
  assert (Ho : out = (Ok (Some Fixture.acme_record), snd out))
    by (rewrite <- Hr; apply surjective_pairing).
  exists Fixture.acme_record, (snd out). split; [exact Ho|].
  destruct (parsed_record_file_name Fixture.env Fixture.acme_page Fixture.s0
              (snd out) Fixture.acme_record Ho) as (_ & _ & _ & _ & _ & Hpath).
  split; [reflexivity|]. rewrite Hpath. reflexivity.
Defined.

(** ** What a run writes *)

Lemma changed_only_refl P s : changed_only P s s.
Proof. intros p H. congruence. Qed.

Lemma changed_only_same P s s' : files s' = files s -> changed_only P s s'.
Proof. intros E p H. rewrite E in H. congruence. Qed.

Lemma changed_only_trans P s1 s2 s3 :
  changed_only P s1 s2 -> changed_only P s2 s3 -> changed_only P s1 s3.
Proof.
  intros H1 H2 p H.
  destruct (decide (files s2 !! p = files s1 !! p)) as [E|E].
  - apply H2. congruence.
  - apply H1. exact E.
Qed.

Lemma changed_only_impl (P Q : string -> Prop) s s' :
  (forall p, P p -> Q p) -> changed_only P s s' -> changed_only Q s s'.
Proof. intros HPQ H p Hp. apply HPQ, H, Hp. Qed.

Lemma changed_only_insert P s s' path data :
  files s' = <[path := data]> (files s) -> P path -> changed_only P s s'.
Proof.
  intros E HP p H. destruct (decide (path = p)) as [<-|Hne]; [exact HP|].
  rewrite E, lookup_insert_ne in H by exact Hne. congruence.
Qed.







(** One download changes at most the file of its record. *)
Lemma download_changes_one_file env pdf s r s' :
  download_and_add_sha env pdf s = (r, s') ->
  changed_only (fun p => p = pdf_path (output_dir s) pdf) s s'.
Proof.
  intros H.
  destruct (download_and_add_sha_unfold env pdf s)
    as (s0 & Heq & _ & _ & _ & _ & _ & Hst).
  cbv zeta in Heq, Hst. rewrite H in Heq.
  assert (s' = s0) by congruence. subst s0.
  destruct (open_error env _ _ "wb") as [e|].
  { apply changed_only_same, Hst. }
  destruct (session_get env _ _ _ _) as [response|e].
  2:{ eapply changed_only_insert; [apply Hst | reflexivity]. }
  destruct (raise_for_status response) as [[]|e].
  - eapply changed_only_insert; [apply Hst | reflexivity].
  - eapply changed_only_insert; [apply Hst | reflexivity].
Qed.

Lemma map_M_download_changes env pdfs s r s' :
  map_M (download_and_add_sha env) pdfs s = (r, s') ->
  only_trace_and_files s s'
  /\ changed_only
       (fun p => exists pdf, In pdf pdfs /\ p = pdf_path (output_dir s) pdf) s s'.
Proof.
  revert s r. induction pdfs as [|pdf pdfs IH]; intros s r H; simpl in H.
  - injection H as <- <-.
    split; [apply only_trace_and_files_refl | apply changed_only_refl].
  - apply bind_inv in H as [(pdf' & s1 & Hx & H) | (e & Hx & ->)].
    + pose proof (keeps_download env pdf _ _ _ Hx) as K1.
      pose proof (download_changes_one_file env pdf _ _ _ Hx) as C1.
      assert (Hrest : exists r2, map_M (download_and_add_sha env) pdfs s1 = (r2, s')).
      { apply bind_inv in H as [(ys & s2 & Hl & H) | (e & Hl & ->)].
        - injection H as _ <-. eauto.
        - eauto. }
      destruct Hrest as [r2 Hrest].
      destruct (IH _ _ Hrest) as [K2 C2].
      split; [eapply only_trace_and_files_trans; eassumption|].
      destruct K1 as ((Ho1 & _) & _).
      eapply changed_only_trans.
      * eapply changed_only_impl; [|exact C1].
        intros p ->. exists pdf. split; [now left | reflexivity].
      * eapply changed_only_impl; [|exact C2].
        intros p (q & Hq & ->). exists q. rewrite Ho1. split; [now right | reflexivity].
    + split; [eapply keeps_download; eassumption|].
      eapply changed_only_impl; [|eapply download_changes_one_file; eassumption].
      intros p ->. exists pdf. split; [now left | reflexivity].
Qed.









(** ** The order of the index *)







(** ** The entry point *)



(** ** Identifiers *)

(** X13.  The identifier that [_parse_id] finds is the first run of digits
    that stands between two slashes: no segment of digits between slashes
    starts further to the left in the URL. *)
Theorem parse_id_leftmost (pdf_url d : string) :
  _parse_id pdf_url = Some d ->
  is_decimal d = true
  /\ exists pre post,
       pdf_url = pre +:+ "/" +:+ d +:+ "/" +:+ post
       /\ forall pre' d' post',
            pdf_url = pre' +:+ "/" +:+ d' +:+ "/" +:+ post' ->
            is_decimal d' = true ->
            (String.length pre <= String.length pre')%nat.
Proof.
  unfold _parse_id, re.search_id. intros H.
  apply search_Some in H as (pre & suf & -> & Hm & Hleft).
  apply match_id_Some in Hm as (Hd & rest & ->).
  split; [exact Hd|]. exists pre, rest. split; [reflexivity|].
  intros pre' d' post' Heq Hd'.
  destruct (Nat.le_gt_cases (String.length pre) (String.length pre'))
    as [Hle | Hgt]; [exact Hle|].
  specialize (Hleft pre' _ Heq Hgt).
  rewrite (match_id_complete d' post' Hd') in Hleft. discriminate.
Qed.

Lemma parse_id_leftmost_witness :
  _parse_id "https://ico.org.uk/media/2014/1043/notice.pdf" = Some "2014"
  /\ is_decimal "2014" = true.
Proof.
  assert (H : _parse_id "https://ico.org.uk/media/2014/1043/notice.pdf"
              = Some "2014") by (vm_compute; reflexivity).
  split; [exact H|].
  exact (proj1 (parse_id_leftmost _ _ H)).
Defined.

(** ** Digests and files *)

Lemma download_Ok_file env pdf s pdf' s' :
  download_and_add_sha env pdf s = (Ok pdf', s') ->
  exists content,
    pdf' = with_sha256 pdf (hashlib.sha256_hexdigest content)
    /\ files s' !! pdf_path (output_dir s) pdf = Some content.
Proof.
  intros H.
  destruct (download_and_add_sha_unfold env pdf s)
    as (s0 & Heq & _ & _ & _ & _ & _ & Hst).
  cbv zeta in Heq, Hst. rewrite H in Heq.
  destruct (open_error env _ _ "wb") as [e|]; [discriminate|].
  destruct (session_get env _ _ _ _) as [response|e]; [|discriminate].
  destruct (raise_for_status response) as [[]|e]; [|discriminate].
  destruct (open_error env _ _ "rb") as [e|]; [discriminate|].
  injection Heq as -> ->. destruct Hst as [_ Hf].
  exists (requests.content response). split; [reflexivity|].
  rewrite Hf. apply lookup_insert_eq.
Qed.

Lemma map_M_download_digests env pdfs s downloaded s' :
  map_M (download_and_add_sha env) pdfs s = (Ok downloaded, s') ->
  List.NoDup (map (pdf_path (output_dir s)) pdfs) ->
  Forall2 (fun pdf pdf' =>
             exists content,
               pdf' = with_sha256 pdf (hashlib.sha256_hexdigest content)
               /\ files s' !! pdf_path (output_dir s) pdf = Some content)
          pdfs downloaded.
Proof.
  revert s downloaded. induction pdfs as [|pdf pdfs IH]; intros s downloaded H Hnd;
    simpl in H.
  - injection H as <- <-. constructor.
  - apply bind_Ok_inv in H as (pdf' & s1 & Hx & H).
    apply bind_Ok_inv in H as (rest & s2 & Hm & H).
    injection H as <- <-.
    pose proof (keeps_download env pdf _ _ _ Hx) as ((Ho1 & _) & _).
    apply download_Ok_file in Hx as (content & -> & Hfile).
    simpl in Hnd. apply List.NoDup_cons_iff in Hnd as [Hnotin Hnd].
    rewrite <- Ho1 in Hnd, Hnotin.
    pose proof (map_M_download_changes env pdfs _ _ _ Hm) as [_ Hch].
    constructor.
    + exists content. split; [reflexivity|].
      destruct (decide (files s2 !! pdf_path (output_dir s) pdf
                        = files s1 !! pdf_path (output_dir s) pdf)) as [E|E].
      * now rewrite E.
      * apply Hch in E as (q & Hq & E). exfalso. apply Hnotin.
        rewrite <- Ho1 in E. rewrite E. now apply in_map.
    + specialize (IH _ _ Hm Hnd). rewrite Ho1 in IH. exact IH.
Qed.

(** X14.  When no two records are stored in the same file and
    [download_pdfs] returns, every record of the new list carries the
    digest of what its file holds at the end, so that [index.json] can be
    checked against the directory.  (Two links with the same file name
    share a file; the later download then replaces the earlier one.) *)
Theorem digests_match_the_files (env : Env) (s s' : State) (pdfs : list PDF.t) :
  penalty_pdfs s = Some pdfs ->
  List.NoDup (map (pdf_path (output_dir s)) pdfs) ->
  download_pdfs env s = (Ok tt, s') ->
  exists downloaded,
    penalty_pdfs s' = Some downloaded
    /\ map (pdf_path (output_dir s')) downloaded
       = map (pdf_path (output_dir s)) pdfs
    /\ Forall (digest_of_file s') downloaded.
Proof.
  intros Hp Hnd H. rewrite (download_pdfs_unfold env pdfs s Hp) in H.
  destruct (map_M _ pdfs s) as [[downloaded|e] s1] eqn:Hm; [|discriminate].
  injection H as <-. exists downloaded. split; [reflexivity|].
  pose proof (keeps_map_M only_trace_and_files _ pdfs only_trace_and_files_refl
                only_trace_and_files_trans (keeps_download env) _ _ _ Hm)
    as ((Ho & _) & _).
  apply map_M_download_digests in Hm; [|exact Hnd].
  unfold digest_of_file. autorewrite with state. rewrite Ho.
  clear Hp Hnd.
  induction Hm as [|pdf pdf' l l' (content & -> & Hf) _ [IH1 IH2]].
  - split; constructor.
  - split; [simpl; f_equal; exact IH1|].
    constructor; [|exact IH2].
    exists content. split; [exact Hf | reflexivity].
Qed.

Lemma digests_match_the_files_witness :
  let s := set_penalty_pdfs (Some [Fixture.acme_record; Fixture.bolt_record])
             Fixture.s0 in
  exists downloaded,
    penalty_pdfs (snd (download_pdfs Fixture.env s)) = Some downloaded
    /\ Forall (digest_of_file (snd (download_pdfs Fixture.env s))) downloaded.
Proof.
  intros s.
  set (out := download_pdfs Fixture.env s).
  assert (Hr : fst out = Ok tt) by (vm_compute; reflexivity).
  assert (Ho : out = (Ok tt, snd out)) by (rewrite <- Hr; apply surjective_pairing).
  assert (Hnd : List.NoDup (map (pdf_path (output_dir s))
                         [Fixture.acme_record; Fixture.bolt_record])).
  { repeat constructor; simpl; intros H; [|exact H].
    destruct H as [H | []]. vm_compute in H. discriminate H. }
  destruct (digests_match_the_files Fixture.env s (snd out) _ eq_refl Hnd Ho)
    as (downloaded & Hd & _ & Hall).
  exists downloaded. split; assumption.
Defined.

(** ** What a failed run leaves behind *)














